(** * Network recon toolkit: scanner adapters, registry and their parsers

    A shallow embedding of [pkg/nmap/scanner.go] (the nmap and masscan
    adapters) and of the scanner interface and [ScannerManager], with the
    properties the design document states about them.

    Go strings are byte sequences: they are modelled as [string], whose
    characters are the 256 byte values.  A Go [int] is a 64-bit integer,
    modelled as [Z]. *)

From Stdlib Require Import ZArith Ascii String List Bool Lia DecimalString DecimalPos DecimalZ.
From stdpp Require Import base option list gmap strings.

Local Open Scope string_scope.
Local Open Scope Z_scope.
Local Open Scope list_scope.

(** ** The Go standard library functions the adapters call *)

Module Go.

Definition byte (c : ascii) : N := N_of_ascii c.

(** [strings.asciiSpace]: tab, line feed, vertical tab, form feed,
    carriage return, space. *)
Definition asciiSpace (c : ascii) : bool :=
  ((9 <=? byte c) && (byte c <=? 13) || (byte c =? 32))%N.

(** A string cut into pieces for [unicode.IsSpace]: a piece is either the
    whole UTF-8 encoding of a white-space rune (flag [true]) or one byte
    that does not start such an encoding (flag [false]).  The white-space
    runes above U+007F are U+0085, U+00A0, U+1680, U+2000..U+200A, U+2028,
    U+2029, U+202F, U+205F and U+3000. *)
Fixpoint spacePieces (s : string) : list (bool * string) :=
  match s with
  | EmptyString => []
  | String c r1 =>
    if asciiSpace c then (true, String c "") :: spacePieces r1 else
    match r1 with
    | String d r2 =>
      if ((byte c =? 194) && ((byte d =? 133) || (byte d =? 160)))%N
      then (true, String c (String d "")) :: spacePieces r2 else
      match r2 with
      | String e r3 =>
        if (((byte c =? 225) && (byte d =? 154) && (byte e =? 128))
            || ((byte c =? 226) && (byte d =? 128)
                && ((128 <=? byte e) && (byte e <=? 138)
                    || (byte e =? 168) || (byte e =? 169) || (byte e =? 175)))
            || ((byte c =? 226) && (byte d =? 129) && (byte e =? 159))
            || ((byte c =? 227) && (byte d =? 128) && (byte e =? 128)))%N
        then (true, String c (String d (String e ""))) :: spacePieces r3
        else (false, String c "") :: spacePieces r1
      | EmptyString => (false, String c "") :: spacePieces r1
      end
    | EmptyString => [(false, String c "")]
    end
  end.

Fixpoint dropSpaces (ps : list (bool * string)) : list (bool * string) :=
  match ps with
  | (true, _) :: ps' => dropSpaces ps'
  | _ => ps
  end.

Definition joinPieces (ps : list (bool * string)) : string :=
  foldr (fun p acc => p.2 +:+ acc) "" ps.

(** [strings.TrimSpace]: all leading and trailing white space removed. *)
Definition TrimSpace (s : string) : string :=
  joinPieces (rev (dropSpaces (rev (dropSpaces (spacePieces s))))).

(** [strings.Fields]: the maximal runs of non-white-space bytes, in
    order; [cur] is the field being read. *)
Fixpoint fieldsFrom (ps : list (bool * string)) (cur : string) : list string :=
  match ps with
  | [] => if decide (cur = "") then [] else [cur]
  | (true, _) :: ps' =>
    if decide (cur = "") then fieldsFrom ps' "" else cur :: fieldsFrom ps' ""
  | (false, b) :: ps' => fieldsFrom ps' (cur +:+ b)
  end.

Definition Fields (s : string) : list string := fieldsFrom (spacePieces s) "".

(** [strings.Split s sep] for a one-byte separator (the adapters split at
    line feeds): the pieces between separators; a string without
    separator, the empty one included, gives one piece. *)
Fixpoint Split (s : string) (sep : ascii) : list string :=
  match s with
  | EmptyString => [""]
  | String c r =>
    if Ascii.eqb c sep then "" :: Split r sep
    else match Split r sep with
         | p :: ps => String c p :: ps
         | [] => [String c ""]
         end
  end.

Definition isDigit (c : ascii) : bool := ((48 <=? byte c) && (byte c <=? 57))%N.

Definition digitVal (c : ascii) : Z := Z.of_N (byte c) - 48.

(** The value of a string of decimal digits, [None] when a byte is not a
    digit. *)
Fixpoint digitsVal (s : string) (acc : Z) : option Z :=
  match s with
  | EmptyString => Some acc
  | String c r => if isDigit c then digitsVal r (10 * acc + digitVal c) else None
  end.

Inductive NumError := ErrSyntax | ErrRange.

Definition maxInt : Z := 2 ^ 63 - 1.
Definition minInt : Z := - 2 ^ 63.

(** [strconv.Atoi]: an optional sign, then one or more decimal digits;
    anything else is a syntax error, a value outside the 64-bit [int] a
    range error. *)
Definition Atoi (s : string) : Z + NumError :=
  let '(neg, body) :=
    match s with
    | String "-" r => (true, r)
    | String "+" r => (false, r)
    | _ => (false, s)
    end in
  match body with
  | EmptyString => inr ErrSyntax
  | _ =>
    match digitsVal body 0 with
    | None => inr ErrSyntax
    | Some n =>
      let v := if neg then - n else n in
      if (minInt <=? v) && (v <=? maxInt) then inl v else inr ErrRange
    end
  end.

(** [strconv.Itoa]: the decimal text of an integer. *)
Definition Itoa (n : Z) : string := NilZero.string_of_int (Z.to_int n).

End Go.

(** ** Regular expressions

    The syntax [regexp.MustCompile] reads, for the operators of the one
    pattern the adapters use, and matching by derivatives. *)

Module Regexp.

Inductive regex :=
| Fail                              (* no string *)
| Eps                               (* the empty string *)
| Class (p : ascii -> bool)         (* one byte of a class, such as \d *)
| Lit (c : ascii)                   (* one literal byte *)
| Cat (r1 r2 : regex)               (* r1r2 *)
| Alt (r1 r2 : regex)               (* r1|r2 *)
| Star (r : regex).                 (* r* *)

(** [r+] and [r?]. *)
Definition Plus (r : regex) : regex := Cat r (Star r).
Definition Quest (r : regex) : regex := Alt r Eps.

Fixpoint nullable (r : regex) : bool :=
  match r with
  | Fail => false
  | Eps => true
  | Class _ => false
  | Lit _ => false
  | Cat r1 r2 => nullable r1 && nullable r2
  | Alt r1 r2 => nullable r1 || nullable r2
  | Star _ => true
  end.

Fixpoint deriv (c : ascii) (r : regex) : regex :=
  match r with
  | Fail => Fail
  | Eps => Fail
  | Class p => if p c then Eps else Fail
  | Lit d => if Ascii.eqb c d then Eps else Fail
  | Cat r1 r2 =>
    if nullable r1 then Alt (Cat (deriv c r1) r2) (deriv c r2)
    else Cat (deriv c r1) r2
  | Alt r1 r2 => Alt (deriv c r1) (deriv c r2)
  | Star r1 => Cat (deriv c r1) (Star r1)
  end.

(** Whether the whole of [s] matches [r]: what [MatchString] decides for a
    pattern written [^r$] (without flags [^] and [$] are the two ends of
    the text). *)
Fixpoint fullMatch (r : regex) (s : string) : bool :=
  match s with
  | EmptyString => nullable r
  | String c s' => fullMatch (deriv c r) s'
  end.

(** The strings of a regular expression. *)
Inductive lang : regex -> string -> Prop :=
| lang_eps : lang Eps ""
| lang_class p c : p c = true -> lang (Class p) (String c "")
| lang_lit c : lang (Lit c) (String c "")
| lang_cat r1 r2 s1 s2 : lang r1 s1 -> lang r2 s2 -> lang (Cat r1 r2) (s1 +:+ s2)
| lang_alt_l r1 r2 s : lang r1 s -> lang (Alt r1 r2) s
| lang_alt_r r1 r2 s : lang r2 s -> lang (Alt r1 r2) s
| lang_star_nil r : lang (Star r) ""
| lang_star_cons r s1 s2 : lang r s1 -> lang (Star r) s2 -> lang (Star r) (s1 +:+ s2).

(** [\d+(-\d+)?]: one port or one range. *)
Definition portItem : regex :=
  Cat (Plus (Class Go.isDigit)) (Quest (Cat (Lit "-") (Plus (Class Go.isDigit)))).

(** The body of [^(\d+(-\d+)?)(,\d+(-\d+)?)*$]. *)
Definition portRegex : regex := Cat portItem (Star (Cat (Lit ",") portItem)).

Definition MatchString (r : regex) (s : string) : bool := fullMatch r s.

End Regexp.

(** ** Errors, identifiers, time and the world outside the program *)

Module rt.

(** Why running the external program failed. *)
Inductive ProcFailure :=
| NonZeroExit (code : Z)
| ExecutableMissing
| ContextDone.

(** Go [error] values: [errors.New] and [fmt.Errorf] without [%w],
    [fmt.Errorf] with [%w] (the text and the wrapped error), the errors of
    [os/exec], and the errors of the decoders of [encoding/xml] and
    [encoding/json]. *)
Inductive error :=
| errorString (msg : string)
| wrapError (msg : string) (err : error)
| execError (why : ProcFailure) (msg : string)
| decodeError (msg : string).

(** The method [Error()]. *)
Definition Error (e : error) : string :=
  match e with
  | errorString msg => msg
  | wrapError msg _ => msg
  | execError _ msg => msg
  | decodeError msg => msg
  end.

(** [fmt.Errorf(prefix + "%w", err)]. *)
Definition Errorf_w (prefix : string) (err : error) : error :=
  wrapError (prefix +:+ Error err) err.

Definition UUID := N.
Definition Time := Z.
Definition Duration := Z.

(** [context.Context]: opaque here; what it does to the external program is
    part of [cmdOutput]. *)
Record Context := { deadline : option Time; cancelled : bool }.

(** [time.Time.Format(time.RFC3339)], [time.Time.Sub] and
    [time.Duration.String]: only their results are stored. *)
Class TimeLib := {
  Format_RFC3339 : Time -> string;
  Sub : Time -> Time -> Duration;
  Duration_String : Duration -> string
}.

(** What the program reads from outside: the identifiers [uuid.New]
    returns, the readings of [time.Now], the order in which a [range] over
    a Go map visits its entries (some permutation), and what the external
    program prints and how it ends when run with an argument vector.
    [spawned] records the programs run so far. *)
Record World := {
  uuidSource : nat -> UUID;
  uuidCount : nat;
  clock : nat -> Time;
  clockCount : nat;
  rangeOrder : forall A : Type, list A -> list A;
  rangeOrder_perm : forall (A : Type) (l : list A), rangeOrder A l ≡ₚ l;
  cmdOutput : Context -> string -> list string -> string * option error;
  spawned : list (string * list string)
}.

Definition M (A : Type) : Type := World -> A * World.

Definition ret {A} (a : A) : M A := fun w => (a, w).

Definition bind {A B} (m : M A) (k : A -> M B) : M B :=
  fun w => let '(a, w') := m w in k a w'.

(** [uuid.New()]. *)
Definition uuid_New : M UUID := fun w =>
  (uuidSource w (uuidCount w),
   {| uuidSource := uuidSource w; uuidCount := S (uuidCount w);
      clock := clock w; clockCount := clockCount w;
      rangeOrder := rangeOrder w; rangeOrder_perm := rangeOrder_perm w;
      cmdOutput := cmdOutput w; spawned := spawned w |}).

(** [time.Now()]. *)
Definition time_Now : M Time := fun w =>
  (clock w (clockCount w),
   {| uuidSource := uuidSource w; uuidCount := uuidCount w;
      clock := clock w; clockCount := S (clockCount w);
      rangeOrder := rangeOrder w; rangeOrder_perm := rangeOrder_perm w;
      cmdOutput := cmdOutput w; spawned := spawned w |}).

(** [exec.CommandContext(ctx, path, args...).Output()]: standard output
    and the error, [None] for a run that exits with status 0. *)
Definition cmd_Output (ctx : Context) (path : string) (args : list string)
  : M (string * option error) := fun w =>
  (cmdOutput w ctx path args,
   {| uuidSource := uuidSource w; uuidCount := uuidCount w;
      clock := clock w; clockCount := clockCount w;
      rangeOrder := rangeOrder w; rangeOrder_perm := rangeOrder_perm w;
      cmdOutput := cmdOutput w; spawned := spawned w ++ [(path, args)] |}).

(** The entries of a map in the order a [range] loop sees them. *)
Definition range_map {V} (m : gmap string V) : M (list (string * V)) := fun w =>
  (rangeOrder w _ (map_to_list m), w).

(** [exec.LookPath(file)]: the path of the executable found for a name in
    the directories of PATH, or the error of the search. *)
Class PathLookup := LookPath : string -> string + error.

End rt.

Notation "x <- m ;; k" := (rt.bind m (fun x => k))
  (at level 100, m at next level, right associativity).

(** ** Package models *)

Module models.

Module Host.
Record t := {
  ID : rt.UUID;
  ScanID : rt.UUID;
  IPAddress : string;
  Hostname : string;
  Status : string;
  OS : string;
  OSConfidence : Z;
  CreatedAt : rt.Time
}.
End Host.

Module Port.
Record t := {
  ID : rt.UUID;
  HostID : rt.UUID;
  Number : Z;
  Protocol : string;
  State : string;
  Service : string;
  Version : string;
  Product : string;
  ExtraInfo : string;
  CreatedAt : rt.Time
}.
End Port.

End models.

(** ** Package scanner: the interface, its records and the registry *)

Module scanner.

Record ScanConfig := {
  Ports : string;
  Timing : string;
  Arguments : string;
  Output : string;
  Timeout : Z;
  Threads : Z;
  Options : gmap string string
}.

Module ScanResult.
Record t := {
  Target : string;
  Scanner : string;
  Status : string;
  StartTime : string;
  EndTime : string;
  Duration : string;
  Hosts : list models.Host.t;
  RawOutput : string;
  Error : string
}.
End ScanResult.

(** The interface [Scanner]: a value of it is the record of its methods. *)
Record Scanner := {
  Scan : rt.Context -> string -> ScanConfig
         -> rt.M (option ScanResult.t * option rt.error);
  GetName : string;
  ValidateConfig : ScanConfig -> option rt.error
}.

(** A Go map field is [None] when nil (the zero [ScannerManager]): reading
    a nil map finds nothing, writing to it panics. *)
Record ScannerManager := { scanners : option (gmap string Scanner) }.

Definition NewScannerManager : ScannerManager :=
  {| scanners := Some ∅ |}.

(** [RegisterScanner]; [None] is the panic of a write to a nil map, and the
    result is the manager after the call. *)
Definition RegisterScanner (sm : ScannerManager) (scanner : Scanner)
  : option ScannerManager :=
  match scanners sm with
  | None => None
  | Some m => Some {| scanners := Some (<[GetName scanner := scanner]> m) |}
  end.

Definition GetScanner (sm : ScannerManager) (name : string) : option Scanner * bool :=
  match scanners sm with
  | None => (None, false)
  | Some m =>
    match m !! name with
    | Some scanner => (Some scanner, true)
    | None => (None, false)
    end
  end.

(** A run of registrations, stopping at the first panic. *)
Fixpoint registerAll (sm : ScannerManager) (l : list Scanner) : option ScannerManager :=
  match l with
  | [] => Some sm
  | scanner :: l' =>
    match RegisterScanner sm scanner with
    | Some sm' => registerAll sm' l'
    | None => None
    end
  end.

(** [ListScanners]: the keys, in the order the range over the map visits
    them; a nil map has none. *)
Definition ListScanners (sm : ScannerManager) : rt.M (list string) :=
  match scanners sm with
  | None => rt.ret []
  | Some m => fun w => (rt.rangeOrder w _ (map_to_list m).*1, w)
  end.

End scanner.

(** ** Package nmap: the thorough-probe adapter *)

Module nmap.

Record Scanner := { path : string }.

(** [NewScanner]: the adapter for the executable found, or the error of
    the search behind the name of the program. *)
Definition NewScanner {lookup : rt.PathLookup} : Scanner + rt.error :=
  match rt.LookPath "nmap" with
  | inr err => inr (rt.Errorf_w "nmap not found in PATH: " err)
  | inl path => inl {| path := path |}
  end.

Definition GetName (s : Scanner) : string := "nmap".

Definition ValidateConfig (s : Scanner) (config : scanner.ScanConfig) : option rt.error :=
  if negb (String.eqb (scanner.Ports config) "")
     && negb (Regexp.MatchString Regexp.portRegex (scanner.Ports config))
  then Some (rt.errorString ("invalid port format: " +:+ scanner.Ports config))
  else
    if negb (String.eqb (scanner.Timing config) "")
       && match Go.Atoi (scanner.Timing config) with
          | inr _ => true
          | inl timing => (timing <? 0) || (timing >? 5)
          end
    then Some (rt.errorString
                 ("invalid timing template: " +:+ scanner.Timing config +:+ " (must be 0-5)"))
    else None.

(** The argument vector [Scan] builds, append by append. *)
Definition buildArgs (target : string) (config : scanner.ScanConfig) : list string :=
  let args := ["-oX"; "-"] in
  let args := if negb (String.eqb (scanner.Ports config) "")
              then args ++ ["-p"; scanner.Ports config] else args in
  let args := if negb (String.eqb (scanner.Timing config) "")
              then args ++ ["-T" +:+ scanner.Timing config] else args in
  let args := args ++ ["-sV"] in
  let args := args ++ ["-O"] in
  let args := if negb (String.eqb (scanner.Arguments config) "")
              then args ++ Go.Fields (scanner.Arguments config) else args in
  args ++ [target].

(** The structs [encoding/xml] decodes into (the [XMLName] fields, which
    only hold the element name, are left out). *)
Module NmapStatus.
Record t := { State : string }.
End NmapStatus.

Module NmapAddress.
Record t := { Addr : string; AddrType : string }.
End NmapAddress.

Module NmapHostname.
Record t := { Name : string }.
End NmapHostname.

Module NmapHostnames.
Record t := { Hostnames : list NmapHostname.t }.
End NmapHostnames.

Module NmapState.
Record t := { State : string }.
End NmapState.

Module NmapService.
Record t := { Name : string; Product : string; Version : string; Info : string }.
End NmapService.

Module NmapPort.
Record t := {
  Protocol : string;
  PortID : Z;
  State : NmapState.t;
  Service : NmapService.t
}.
End NmapPort.

Module NmapPorts.
Record t := { Ports : list NmapPort.t }.
End NmapPorts.

Module NmapOSMatch.
Record t := { Name : string; Accuracy : Z }.
End NmapOSMatch.

Module NmapOS.
Record t := { OSMatches : list NmapOSMatch.t }.
End NmapOS.

Module NmapHost.
Record t := {
  Status : NmapStatus.t;
  Address : list NmapAddress.t;
  Hostnames : NmapHostnames.t;
  Ports : NmapPorts.t;
  OS : NmapOS.t
}.
End NmapHost.

Module NmapRun.
Record t := { Hosts : list NmapHost.t }.
End NmapRun.

(** [xml.Unmarshal(xmlData, &nmapRun)] on a zero [NmapRun]. *)
Class XMLDecoder := xml_Unmarshal : string -> NmapRun.t + rt.error.

Definition setIPAddress (host : models.Host.t) (ip : string) : models.Host.t :=
  {| models.Host.ID := models.Host.ID host;
     models.Host.ScanID := models.Host.ScanID host;
     models.Host.IPAddress := ip;
     models.Host.Hostname := models.Host.Hostname host;
     models.Host.Status := models.Host.Status host;
     models.Host.OS := models.Host.OS host;
     models.Host.OSConfidence := models.Host.OSConfidence host;
     models.Host.CreatedAt := models.Host.CreatedAt host |}.

Definition setHostname (host : models.Host.t) (name : string) : models.Host.t :=
  {| models.Host.ID := models.Host.ID host;
     models.Host.ScanID := models.Host.ScanID host;
     models.Host.IPAddress := models.Host.IPAddress host;
     models.Host.Hostname := name;
     models.Host.Status := models.Host.Status host;
     models.Host.OS := models.Host.OS host;
     models.Host.OSConfidence := models.Host.OSConfidence host;
     models.Host.CreatedAt := models.Host.CreatedAt host |}.

Definition setOS (host : models.Host.t) (os : string) (confidence : Z) : models.Host.t :=
  {| models.Host.ID := models.Host.ID host;
     models.Host.ScanID := models.Host.ScanID host;
     models.Host.IPAddress := models.Host.IPAddress host;
     models.Host.Hostname := models.Host.Hostname host;
     models.Host.Status := models.Host.Status host;
     models.Host.OS := os;
     models.Host.OSConfidence := confidence;
     models.Host.CreatedAt := models.Host.CreatedAt host |}.

(** The loop over the addresses, left at the first one of type ipv4. *)
Fixpoint addressLoop (addrs : list NmapAddress.t) (host : models.Host.t) : models.Host.t :=
  match addrs with
  | [] => host
  | addr :: rest =>
    if String.eqb (NmapAddress.AddrType addr) "ipv4"
    then setIPAddress host (NmapAddress.Addr addr)
    else addressLoop rest host
  end.

(** The body of the loop over the host nodes. *)
Definition convertHost (nmapHost : NmapHost.t) : rt.M models.Host.t :=
  id <- rt.uuid_New ;;
  now <- rt.time_Now ;;
  let host :=
    {| models.Host.ID := id;
       models.Host.ScanID := 0%N;
       models.Host.IPAddress := "";
       models.Host.Hostname := "";
       models.Host.Status := NmapStatus.State (NmapHost.Status nmapHost);
       models.Host.OS := "";
       models.Host.OSConfidence := 0;
       models.Host.CreatedAt := now |} in
  let host := addressLoop (NmapHost.Address nmapHost) host in
  let host :=
    match NmapHostnames.Hostnames (NmapHost.Hostnames nmapHost) with
    | first :: _ => setHostname host (NmapHostname.Name first)
    | [] => host
    end in
  let host :=
    match NmapOS.OSMatches (NmapHost.OS nmapHost) with
    | osMatch :: _ => setOS host (NmapOSMatch.Name osMatch) (NmapOSMatch.Accuracy osMatch)
    | [] => host
    end in
  rt.ret host.

Fixpoint hostLoop (nmapHosts : list NmapHost.t) (hosts : list models.Host.t)
  : rt.M (list models.Host.t) :=
  match nmapHosts with
  | [] => rt.ret hosts
  | nmapHost :: rest =>
    host <- convertHost nmapHost ;;
    hostLoop rest (hosts ++ [host])
  end.

Section Adapter.
Context {xmlDecoder : XMLDecoder} {timeLib : rt.TimeLib}.

Definition parseNmapXML (s : Scanner) (xmlData : string)
  : rt.M (list models.Host.t * option rt.error) :=
  match xml_Unmarshal xmlData with
  | inr err => rt.ret ([], Some (rt.Errorf_w "failed to parse nmap XML: " err))
  | inl nmapRun =>
    hosts <- hostLoop (NmapRun.Hosts nmapRun) [] ;;
    rt.ret (hosts, None)
  end.

(** The end of [Scan]: the result made from the answer of the parser. *)
Definition report (s : Scanner) (target : string) (startTime endTime : rt.Time)
  (output : string) (parsed : list models.Host.t * option rt.error)
  : option scanner.ScanResult.t * option rt.error :=
  let '(hosts, parseErr) := parsed in
  match parseErr with
  | Some parseErr =>
    (Some {| scanner.ScanResult.Target := target;
             scanner.ScanResult.Scanner := GetName s;
             scanner.ScanResult.Status := "completed_with_errors";
             scanner.ScanResult.StartTime := rt.Format_RFC3339 startTime;
             scanner.ScanResult.EndTime := rt.Format_RFC3339 endTime;
             scanner.ScanResult.Duration := rt.Duration_String (rt.Sub endTime startTime);
             scanner.ScanResult.Hosts := [];
             scanner.ScanResult.RawOutput := output;
             scanner.ScanResult.Error := rt.Error parseErr |},
     None)
  | None =>
    (Some {| scanner.ScanResult.Target := target;
             scanner.ScanResult.Scanner := GetName s;
             scanner.ScanResult.Status := "completed";
             scanner.ScanResult.StartTime := rt.Format_RFC3339 startTime;
             scanner.ScanResult.EndTime := rt.Format_RFC3339 endTime;
             scanner.ScanResult.Duration := rt.Duration_String (rt.Sub endTime startTime);
             scanner.ScanResult.Hosts := hosts;
             scanner.ScanResult.RawOutput := output;
             scanner.ScanResult.Error := "" |},
     None)
  end.

Definition Scan (s : Scanner) (ctx : rt.Context) (target : string)
  (config : scanner.ScanConfig) : rt.M (option scanner.ScanResult.t * option rt.error) :=
  match ValidateConfig s config with
  | Some err => rt.ret (None, Some (rt.Errorf_w "invalid config: " err))
  | None =>
    startTime <- rt.time_Now ;;
    let args := buildArgs target config in
    out <- rt.cmd_Output ctx (path s) args ;;
    let '(output, err) := out in
    match err with
    | Some err =>
      endTime <- rt.time_Now ;;
      rt.ret (Some {| scanner.ScanResult.Target := target;
                      scanner.ScanResult.Scanner := GetName s;
                      scanner.ScanResult.Status := "failed";
                      scanner.ScanResult.StartTime := rt.Format_RFC3339 startTime;
                      scanner.ScanResult.EndTime := rt.Format_RFC3339 endTime;
                      scanner.ScanResult.Duration :=
                        rt.Duration_String (rt.Sub endTime startTime);
                      scanner.ScanResult.Hosts := [];
                      scanner.ScanResult.RawOutput := output;
                      scanner.ScanResult.Error := rt.Error err |},
              Some err)
    | None =>
      endTime <- rt.time_Now ;;
      parsed <- parseNmapXML s output ;;
      rt.ret (report s target startTime endTime output parsed)
    end
  end.

(** The adapter as a value of the interface. *)
Definition asScanner (s : Scanner) : scanner.Scanner :=
  {| scanner.Scan := Scan s;
     scanner.GetName := GetName s;
     scanner.ValidateConfig := ValidateConfig s |}.

End Adapter.

End nmap.

(** ** Package masscan: the high-speed adapter *)

Module masscan.

Record Scanner := { path : string }.

Definition NewScanner {lookup : rt.PathLookup} : Scanner + rt.error :=
  match rt.LookPath "masscan" with
  | inr err => inr (rt.Errorf_w "masscan not found in PATH: " err)
  | inl path => inl {| path := path |}
  end.

Definition GetName (s : Scanner) : string := "masscan".

Definition ValidateConfig (s : Scanner) (config : scanner.ScanConfig) : option rt.error :=
  if String.eqb (scanner.Ports config) ""
  then Some (rt.errorString "ports must be specified for masscan")
  else
    if negb (Regexp.MatchString Regexp.portRegex (scanner.Ports config))
    then Some (rt.errorString ("invalid port format: " +:+ scanner.Ports config))
    else
      if (scanner.Threads config >? 0) && (scanner.Threads config >? 100000)
      then Some (rt.errorString
                   ("thread count too high: " +:+ Go.Itoa (scanner.Threads config)
                    +:+ " (max 100000)"))
      else None.

(** The argument vector [Scan] builds, append by append. *)
Definition buildArgs (target : string) (config : scanner.ScanConfig) : list string :=
  let args := [] in
  let args := args ++ [target] in
  let args := args ++ ["-p"; scanner.Ports config] in
  let args := if scanner.Threads config >? 0
              then args ++ ["--rate"; Go.Itoa (scanner.Threads config)]
              else args ++ ["--rate"; "1000"] in
  let args := args ++ ["--output-format"; "json"] in
  let args := if negb (String.eqb (scanner.Arguments config) "")
              then args ++ Go.Fields (scanner.Arguments config) else args in
  args.

(** An element of [MasscanResult.Ports] (an anonymous struct in the
    source, named after the loop variable that reads it). *)
Module PortInfo.
Record t := {
  Port : Z;
  Proto : string;
  Status : string;
  Reason : string;
  TTL : Z
}.
End PortInfo.

Module MasscanResult.
Record t := {
  IP : string;
  Timestamp : string;
  Ports : list PortInfo.t
}.
End MasscanResult.

(** [json.Unmarshal([]byte(line), &result)] on a zero [MasscanResult]. *)
Class JSONDecoder := json_Unmarshal : string -> MasscanResult.t + rt.error.

(** The [models.Port] literal of both port loops. *)
Definition newPort (hostID : rt.UUID) (portInfo : PortInfo.t) : rt.M models.Port.t :=
  id <- rt.uuid_New ;;
  now <- rt.time_Now ;;
  rt.ret {| models.Port.ID := id;
            models.Port.HostID := hostID;
            models.Port.Number := PortInfo.Port portInfo;
            models.Port.Protocol := PortInfo.Proto portInfo;
            models.Port.State := PortInfo.Status portInfo;
            models.Port.Service := "";
            models.Port.Version := "";
            models.Port.Product := "";
            models.Port.ExtraInfo := "";
            models.Port.CreatedAt := now |}.

(** The loop over [result.Ports]: the ports it builds, in order. *)
Fixpoint portLoop (hostID : rt.UUID) (portInfos : list PortInfo.t)
  : rt.M (list models.Port.t) :=
  match portInfos with
  | [] => rt.ret []
  | portInfo :: rest =>
    port <- newPort hostID portInfo ;;
    ports <- portLoop hostID rest ;;
    rt.ret (port :: ports)
  end.

(** The state of the loop over the lines in [parseMasscanJSON]: the map
    from IP to host, and the ports the loop built and assigned to the blank
    identifier.  The second part is a record of what was dropped; nothing
    reads it. *)
Record FoldState := {
  hostMap : gmap string models.Host.t;
  dropped : list models.Port.t
}.

Section Adapter.
Context {jsonDecoder : JSONDecoder} {timeLib : rt.TimeLib}.

(** The body of the loop over the lines. *)
Definition lineStep (st : FoldState) (line : string) : rt.M FoldState :=
  if String.eqb (Go.TrimSpace line) "" then rt.ret st
  else
    match json_Unmarshal line with
    | inr _ => rt.ret st
    | inl result =>
      found <-
        match hostMap st !! MasscanResult.IP result with
        | Some host => rt.ret (host, hostMap st)
        | None =>
          id <- rt.uuid_New ;;
          now <- rt.time_Now ;;
          let host :=
            {| models.Host.ID := id;
               models.Host.ScanID := 0%N;
               models.Host.IPAddress := MasscanResult.IP result;
               models.Host.Hostname := "";
               models.Host.Status := "up";
               models.Host.OS := "";
               models.Host.OSConfidence := 0;
               models.Host.CreatedAt := now |} in
          rt.ret (host, <[MasscanResult.IP result := host]> (hostMap st))
        end ;;
      let '(host, hostMap') := found in
      ports <- portLoop (models.Host.ID host) (MasscanResult.Ports result) ;;
      rt.ret {| hostMap := hostMap'; dropped := dropped st ++ ports |}
    end.

Fixpoint lineLoop (lines : list string) (st : FoldState) : rt.M FoldState :=
  match lines with
  | [] => rt.ret st
  | line :: rest =>
    st' <- lineStep st line ;;
    lineLoop rest st'
  end.

Definition splitLines (jsonData : string) : list string :=
  Go.Split (Go.TrimSpace jsonData) "010"%char.

Definition parseMasscanJSON (s : Scanner) (jsonData : string)
  : rt.M (list models.Host.t * option rt.error) :=
  let lines := splitLines jsonData in
  st <- lineLoop lines {| hostMap := ∅; dropped := [] |} ;;
  entries <- rt.range_map (hostMap st) ;;
  rt.ret (entries.*2, None).

(** The body of the loop over the lines in [GetPortsFromJSON]. *)
Definition portsStep (hostID : rt.UUID) (ports : list models.Port.t) (line : string)
  : rt.M (list models.Port.t) :=
  if String.eqb (Go.TrimSpace line) "" then rt.ret ports
  else
    match json_Unmarshal line with
    | inr _ => rt.ret ports
    | inl result =>
      new <- portLoop hostID (MasscanResult.Ports result) ;;
      rt.ret (ports ++ new)
    end.

Fixpoint portsLoop (hostID : rt.UUID) (lines : list string) (ports : list models.Port.t)
  : rt.M (list models.Port.t) :=
  match lines with
  | [] => rt.ret ports
  | line :: rest =>
    ports' <- portsStep hostID ports line ;;
    portsLoop hostID rest ports'
  end.

Definition GetPortsFromJSON (s : Scanner) (jsonData : string) (hostID : rt.UUID)
  : rt.M (list models.Port.t * option rt.error) :=
  ports <- portsLoop hostID (splitLines jsonData) [] ;;
  rt.ret (ports, None).

(** The end of [Scan]: the result made from the answer of the parser. *)
Definition report (s : Scanner) (target : string) (startTime endTime : rt.Time)
  (output : string) (parsed : list models.Host.t * option rt.error)
  : option scanner.ScanResult.t * option rt.error :=
  let '(hosts, parseErr) := parsed in
  match parseErr with
  | Some parseErr =>
    (Some {| scanner.ScanResult.Target := target;
             scanner.ScanResult.Scanner := GetName s;
             scanner.ScanResult.Status := "completed_with_errors";
             scanner.ScanResult.StartTime := rt.Format_RFC3339 startTime;
             scanner.ScanResult.EndTime := rt.Format_RFC3339 endTime;
             scanner.ScanResult.Duration := rt.Duration_String (rt.Sub endTime startTime);
             scanner.ScanResult.Hosts := [];
             scanner.ScanResult.RawOutput := output;
             scanner.ScanResult.Error := rt.Error parseErr |},
     None)
  | None =>
    (Some {| scanner.ScanResult.Target := target;
             scanner.ScanResult.Scanner := GetName s;
             scanner.ScanResult.Status := "completed";
             scanner.ScanResult.StartTime := rt.Format_RFC3339 startTime;
             scanner.ScanResult.EndTime := rt.Format_RFC3339 endTime;
             scanner.ScanResult.Duration := rt.Duration_String (rt.Sub endTime startTime);
             scanner.ScanResult.Hosts := hosts;
             scanner.ScanResult.RawOutput := output;
             scanner.ScanResult.Error := "" |},
     None)
  end.

Definition Scan (s : Scanner) (ctx : rt.Context) (target : string)
  (config : scanner.ScanConfig) : rt.M (option scanner.ScanResult.t * option rt.error) :=
  match ValidateConfig s config with
  | Some err => rt.ret (None, Some (rt.Errorf_w "invalid config: " err))
  | None =>
    startTime <- rt.time_Now ;;
    let args := buildArgs target config in
    out <- rt.cmd_Output ctx (path s) args ;;
    let '(output, err) := out in
    match err with
    | Some err =>
      endTime <- rt.time_Now ;;
      rt.ret (Some {| scanner.ScanResult.Target := target;
                      scanner.ScanResult.Scanner := GetName s;
                      scanner.ScanResult.Status := "failed";
                      scanner.ScanResult.StartTime := rt.Format_RFC3339 startTime;
                      scanner.ScanResult.EndTime := rt.Format_RFC3339 endTime;
                      scanner.ScanResult.Duration :=
                        rt.Duration_String (rt.Sub endTime startTime);
                      scanner.ScanResult.Hosts := [];
                      scanner.ScanResult.RawOutput := output;
                      scanner.ScanResult.Error := rt.Error err |},
              Some err)
    | None =>
      endTime <- rt.time_Now ;;
      parsed <- parseMasscanJSON s output ;;
      rt.ret (report s target startTime endTime output parsed)
    end
  end.

(** The adapter as a value of the interface. *)
Definition asScanner (s : Scanner) : scanner.Scanner :=
  {| scanner.Scan := Scan s;
     scanner.GetName := GetName s;
     scanner.ValidateConfig := ValidateConfig s |}.

End Adapter.

End masscan.

(** ** The port grammar in the words of the design document

    Comma-separated items, each of them digits, optionally followed by a
    hyphen and digits. *)

Module PortGrammar.

Definition allDigits (s : string) : bool :=
  negb (String.eqb s "") && forallb Go.isDigit (list_ascii_of_string s).

Definition validItem (item : string) : bool :=
  match Go.Split item "-" with
  | [port] => allDigits port
  | [lo; hi] => allDigits lo && allDigits hi
  | _ => false
  end.

Definition validPortSpec (s : string) : bool :=
  forallb validItem (Go.Split s ",").

(** The pieces of a split put together again, and strings without a
    given byte: used to relate the grammar to the pattern. *)
Fixpoint joinWith (sep : ascii) (l : list string) : string :=
  match l with
  | [] => ""
  | [s] => s
  | s :: l' => s +:+ String sep (joinWith sep l')
  end.

Fixpoint noByte (c : ascii) (s : string) : bool :=
  match s with
  | EmptyString => true
  | String x r => negb (Ascii.eqb x c) && noByte c r
  end.

Fixpoint allOf (p : ascii -> bool) (s : string) : bool :=
  match s with
  | EmptyString => true
  | String x r => p x && allOf p r
  end.

End PortGrammar.

(** ** The registry in the words of the design document

    After a run of registrations a name belongs to the adapter registered
    last under it. *)

Module RegistrySpec.

Fixpoint lastNamed (name : string) (l : list scanner.Scanner) : option scanner.Scanner :=
  match l with
  | [] => None
  | s :: l' =>
    match lastNamed name l' with
    | Some s' => Some s'
    | None => if String.eqb (scanner.GetName s) name then Some s else None
    end
  end.

End RegistrySpec.

(** ** The steps of a scan around the parser *)

Module ScanSpec.

(** The world when the parser starts: after the first clock reading, the
    run of the program and the second clock reading. *)
Definition afterRun (ctx : rt.Context) (path : string) (args : list string) (w : rt.World)
  : rt.World :=
  (rt.time_Now (rt.cmd_Output ctx path args (rt.time_Now w).2).2).2.

Definition startTime (w : rt.World) : rt.Time := rt.clock w (rt.clockCount w).
Definition endTime (w : rt.World) : rt.Time := rt.clock w (S (rt.clockCount w)).

End ScanSpec.

(** ** The line-oriented parser in the words of the design document

    A line counts when it is not blank and decodes as one record; the
    records of the lines that count, and their port entries with the IP of
    their record. *)

Module MasscanSpec.
Section Records.
Context {jsonDecoder : masscan.JSONDecoder}.

Definition decoded (line : string) : option masscan.MasscanResult.t :=
  if String.eqb (Go.TrimSpace line) "" then None
  else match masscan.json_Unmarshal line with
       | inl result => Some result
       | inr _ => None
       end.

Definition valid (line : string) : bool :=
  match decoded line with Some _ => true | None => false end.

Definition records (lines : list string) : list masscan.MasscanResult.t :=
  omap decoded lines.

Definition portEntries (lines : list string) : list (string * masscan.PortInfo.t) :=
  flat_map (fun r => map (fun p => (masscan.MasscanResult.IP r, p))
                         (masscan.MasscanResult.Ports r))
           (records lines).

(** A port built for an entry and owned by a host. *)
Definition builtFor (host : models.Host.t) (entry : masscan.PortInfo.t) (port : models.Port.t)
  : Prop :=
  models.Port.HostID port = models.Host.ID host
  /\ models.Port.Number port = masscan.PortInfo.Port entry
  /\ models.Port.Protocol port = masscan.PortInfo.Proto entry
  /\ models.Port.State port = masscan.PortInfo.Status entry.

(** What the loop keeps true: every host sits under its own address and
    is up. *)
Definition keyed (m : gmap string models.Host.t) : Prop :=
  forall ip host, m !! ip = Some host ->
    models.Host.IPAddress host = ip /\ models.Host.Status host = "up".

(** A port entry of a record together with the port built for it: the
    owner is the host the map holds for the record's IP. *)
Definition owned (m : gmap string models.Host.t)
  (entry : string * masscan.PortInfo.t) (port : models.Port.t) : Prop :=
  exists host, m !! entry.1 = Some host /\ builtFor host entry.2 port.

(** The state the loop over the lines starts in. *)
Definition start : masscan.FoldState :=
  {| masscan.hostMap := ∅; masscan.dropped := [] |}.

End Records.
End MasscanSpec.

(** ** The markup parser in the words of the design document

    Of each host node: the state, the first address of type ipv4, the
    first hostname, the first OS match and its accuracy. *)

Module NmapSpec.

Definition firstIPv4 (addrs : list nmap.NmapAddress.t) : string :=
  match List.filter (fun a => String.eqb (nmap.NmapAddress.AddrType a) "ipv4") addrs with
  | a :: _ => nmap.NmapAddress.Addr a
  | [] => ""
  end.

Definition firstHostname (names : list nmap.NmapHostname.t) : string :=
  match names with
  | n :: _ => nmap.NmapHostname.Name n
  | [] => ""
  end.

Definition firstOS (matches : list nmap.NmapOSMatch.t) : string * Z :=
  match matches with
  | m :: _ => (nmap.NmapOSMatch.Name m, nmap.NmapOSMatch.Accuracy m)
  | [] => ("", 0)
  end.

Definition hostOf (id : rt.UUID) (now : rt.Time) (nmapHost : nmap.NmapHost.t) : models.Host.t :=
  {| models.Host.ID := id;
     models.Host.ScanID := 0%N;
     models.Host.IPAddress := firstIPv4 (nmap.NmapHost.Address nmapHost);
     models.Host.Hostname :=
       firstHostname (nmap.NmapHostnames.Hostnames (nmap.NmapHost.Hostnames nmapHost));
     models.Host.Status := nmap.NmapStatus.State (nmap.NmapHost.Status nmapHost);
     models.Host.OS := (firstOS (nmap.NmapOS.OSMatches (nmap.NmapHost.OS nmapHost))).1;
     models.Host.OSConfidence :=
       (firstOS (nmap.NmapOS.OSMatches (nmap.NmapHost.OS nmapHost))).2;
     models.Host.CreatedAt := now |}.

(** A host node with other ports. *)
Definition setPorts (nmapHost : nmap.NmapHost.t) (ports : nmap.NmapPorts.t) : nmap.NmapHost.t :=
  {| nmap.NmapHost.Status := nmap.NmapHost.Status nmapHost;
     nmap.NmapHost.Address := nmap.NmapHost.Address nmapHost;
     nmap.NmapHost.Hostnames := nmap.NmapHost.Hostnames nmapHost;
     nmap.NmapHost.Ports := ports;
     nmap.NmapHost.OS := nmap.NmapHost.OS nmapHost |}.

(** One host for each node, in order, with the identifiers and clock
    readings from positions [i] and [j] on. *)
Fixpoint hostsOf (ids : nat -> rt.UUID) (times : nat -> rt.Time) (i j : nat)
  (nodes : list nmap.NmapHost.t) : list models.Host.t :=
  match nodes with
  | [] => []
  | node :: rest => hostOf (ids i) (times j) node :: hostsOf ids times (S i) (S j) rest
  end.

End NmapSpec.

(** ** A JSON decoder for the record shape of the high-speed adapter

    The adapter is stated for any decoder ([masscan.JSONDecoder]).  This
    one follows [encoding/json] and serves to run the adapter on concrete
    bytes: the JSON syntax of the scanner (white space, literals, numbers,
    strings with their escapes, arrays, objects, at most 10000 levels of
    nesting), and then the rules of [Unmarshal] into a struct: keys are
    matched to the field tags ignoring case, unknown keys are skipped,
    [null] leaves a field as it is, a value of the wrong kind or a number
    that is not a 64-bit integer is an error, and a key that comes twice
    is decoded twice into the same field. *)

Module json.

Inductive value :=
| Null
| Bool (b : bool)
| Number (literal : string)
| Str (s : string)
| Array (elements : list value)
| Object (members : list (string * value)).

Definition isSpace (c : ascii) : bool :=
  (Go.byte c =? 32)%N || (Go.byte c =? 9)%N || (Go.byte c =? 13)%N || (Go.byte c =? 10)%N.

Fixpoint skipSpace (s : string) : string :=
  match s with
  | String c r => if isSpace c then skipSpace r else s
  | EmptyString => s
  end.

Definition hexVal (c : ascii) : option N :=
  let b := Go.byte c in
  if ((48 <=? b) && (b <=? 57))%N then Some (b - 48)%N
  else if ((97 <=? b) && (b <=? 102))%N then Some (b - 87)%N
  else if ((65 <=? b) && (b <=? 70))%N then Some (b - 55)%N
  else None.

(** The four hex digits after a backslash and u ([getu4] past its first
    two bytes). *)
Definition hex4 (s : string) : option (N * string) :=
  match s with
  | String a (String b (String c (String d r))) =>
    match hexVal a, hexVal b, hexVal c, hexVal d with
    | Some x, Some y, Some z, Some t => Some (((x * 16 + y) * 16 + z) * 16 + t, r)%N
    | _, _, _, _ => None
    end
  | _ => None
  end.

Definition chr (n : N) : ascii := ascii_of_N n.

(** [utf8.EncodeRune]. *)
Definition encodeRune (r : N) : string :=
  let cont (x : N) := chr (N.lor 128 (N.land x 63)) in
  if (r <? 128)%N then String (chr r) ""
  else if (r <? 2048)%N then String (chr (N.lor 192 (N.shiftr r 6))) (String (cont r) "")
  else if (r <? 65536)%N then
    String (chr (N.lor 224 (N.shiftr r 12)))
      (String (cont (N.shiftr r 6)) (String (cont r) ""))
  else
    String (chr (N.lor 240 (N.shiftr r 18)))
      (String (cont (N.shiftr r 12)) (String (cont (N.shiftr r 6)) (String (cont r) ""))).

Definition replacementChar : N := 65533.

Definition isCont (c : ascii) : bool := ((128 <=? Go.byte c) && (Go.byte c <=? 191))%N.
Definition inRange (c : ascii) (lo hi : N) : bool := ((lo <=? Go.byte c) && (Go.byte c <=? hi))%N.

(** The length of the well-formed UTF-8 sequence at the start of a string
    whose first byte is not ASCII, 0 when there is none ([utf8.DecodeRune]
    returning the error rune). *)
Definition runeLen (s : string) : nat :=
  match s with
  | String a (String b r) =>
    if inRange a 194 223 then (if isCont b then 2 else 0)%nat
    else match r with
    | String c r' =>
      if (inRange a 224 224 && inRange b 160 191
          || inRange a 225 236 && isCont b
          || inRange a 237 237 && inRange b 128 159
          || inRange a 238 239 && isCont b) then (if isCont c then 3 else 0)%nat
      else match r' with
      | String d _ =>
        if (inRange a 240 240 && inRange b 144 191
            || inRange a 241 243 && isCont b
            || inRange a 244 244 && inRange b 128 143)
        then (if isCont c && isCont d then 4 else 0)%nat
        else 0%nat
      | EmptyString => 0%nat
      end
    | EmptyString => 0%nat
    end
  | _ => 0%nat
  end.

(** A string literal after its opening quote: the text it stands for and
    what follows the closing quote.  [fuel] is the number of bytes left. *)
Fixpoint scanString (fuel : nat) (s : string) (acc : string) : option (string * string) :=
  match fuel with
  | O => None
  | S fuel =>
    match s with
    | EmptyString => None
    | String c r =>
      if (Go.byte c =? 34)%N then Some (acc, r)
      else if (Go.byte c <? 32)%N then None
      else if (Go.byte c =? 92)%N then
        match r with
        | String e r' =>
          let simple (x : N) := scanString fuel r' (acc +:+ String (chr x) "") in
          if (Go.byte e =? 34)%N then simple 34%N
          else if (Go.byte e =? 92)%N then simple 92%N
          else if (Go.byte e =? 47)%N then simple 47%N
          else if (Go.byte e =? 98)%N then simple 8%N
          else if (Go.byte e =? 102)%N then simple 12%N
          else if (Go.byte e =? 110)%N then simple 10%N
          else if (Go.byte e =? 114)%N then simple 13%N
          else if (Go.byte e =? 116)%N then simple 9%N
          else if (Go.byte e =? 117)%N then
            match hex4 r' with
            | None => None
            | Some (rr, r2) =>
              if ((55296 <=? rr) && (rr <? 57344))%N then
                (* a surrogate: a pair with the escape that follows, or
                   the replacement character *)
                match r2 with
                | String "\" (String "u" r3) =>
                  match hex4 r3 with
                  | Some (rr1, r4) =>
                    if ((rr <? 56320) && (56320 <=? rr1) && (rr1 <? 57344))%N
                    then scanString fuel r4
                           (acc +:+ encodeRune ((rr - 55296) * 1024 + (rr1 - 56320) + 65536)%N)
                    else scanString fuel r2 (acc +:+ encodeRune replacementChar)
                  | None => scanString fuel r2 (acc +:+ encodeRune replacementChar)
                  end
                | _ => scanString fuel r2 (acc +:+ encodeRune replacementChar)
                end
              else scanString fuel r2 (acc +:+ encodeRune rr)
            end
          else None
        | EmptyString => None
        end
      else if (Go.byte c <? 128)%N then scanString fuel r (acc +:+ String c "")
      else
        match runeLen s, r with
        | 2%nat, String b r2 => scanString fuel r2 (acc +:+ String c (String b ""))
        | 3%nat, String b (String d r3) =>
          scanString fuel r3 (acc +:+ String c (String b (String d "")))
        | 4%nat, String b (String d (String e r4)) =>
          scanString fuel r4 (acc +:+ String c (String b (String d (String e ""))))
        | _, _ => scanString fuel r (acc +:+ encodeRune replacementChar)
        end
    end
  end.

Fixpoint spanDigits (s : string) : string * string :=
  match s with
  | String c r =>
    if Go.isDigit c then let '(d, r') := spanDigits r in (String c d, r') else ("", s)
  | EmptyString => ("", "")
  end.

(** A number: its literal and what follows. *)
Definition scanNumber (s : string) : option (string * string) :=
  let '(sign, s1) :=
    match s with
    | String "-" r => ("-", r)
    | _ => ("", s)
    end in
  let '(int, s2) := spanDigits s1 in
  match int with
  | EmptyString => None
  | String "0" (String _ _) => None
  | _ =>
    let frac :=
      match s2 with
      | String "." r =>
        let '(f, s3) := spanDigits r in
        match f with
        | EmptyString => None
        | _ => Some ("." +:+ f, s3)
        end
      | _ => Some ("", s2)
      end in
    match frac with
    | None => None
    | Some (f, s3) =>
      let exp (e : ascii) (r : string) :=
        let '(esign, r1) :=
          match r with
          | String "+" r' => ("+", r')
          | String "-" r' => ("-", r')
          | _ => ("", r)
          end in
        let '(ds, s4) := spanDigits r1 in
        match ds with
        | EmptyString => None
        | _ => Some (sign +:+ int +:+ f +:+ String e esign +:+ ds, s4)
        end in
      match s3 with
      | String "e" r => exp "e"%char r
      | String "E" r => exp "E"%char r
      | _ => Some (sign +:+ int +:+ f, s3)
      end
    end
  end.

Definition dropPrefix (p s : string) : option string :=
  if String.prefix p s then Some (String.substring (String.length p) (String.length s) s)
  else None.

Definition maxNestingDepth : N := 10000.

(** One value at the start of [s] (white space already skipped), the
    elements of an array after its bracket, the members of an object after
    its brace. *)
Fixpoint scanValue (fuel : nat) (depth : N) (s : string) : option (value * string) :=
  match fuel with
  | O => None
  | S fuel =>
    match s with
    | EmptyString => None
    | String c r =>
      if (Go.byte c =? 34)%N then
        match scanString (String.length r) r "" with
        | Some (text, r') => Some (Str text, r')
        | None => None
        end
      else if (Go.byte c =? 91)%N then
        if (maxNestingDepth <=? depth)%N then None
        else
          match skipSpace r with
          | String "]" r' => Some (Array [], r')
          | r' =>
            match scanElements fuel (depth + 1)%N r' [] with
            | Some (elements, r'') => Some (Array elements, r'')
            | None => None
            end
          end
      else if (Go.byte c =? 123)%N then
        if (maxNestingDepth <=? depth)%N then None
        else
          match skipSpace r with
          | String "}" r' => Some (Object [], r')
          | r' =>
            match scanMembers fuel (depth + 1)%N r' [] with
            | Some (members, r'') => Some (Object members, r'')
            | None => None
            end
          end
      else if (Go.byte c =? 116)%N then
        match dropPrefix "true" s with Some r' => Some (Bool true, r') | None => None end
      else if (Go.byte c =? 102)%N then
        match dropPrefix "false" s with Some r' => Some (Bool false, r') | None => None end
      else if (Go.byte c =? 110)%N then
        match dropPrefix "null" s with Some r' => Some (Null, r') | None => None end
      else
        match scanNumber s with
        | Some (literal, r') => Some (Number literal, r')
        | None => None
        end
    end
  end
with scanElements (fuel : nat) (depth : N) (s : string) (acc : list value)
  : option (list value * string) :=
  match fuel with
  | O => None
  | S fuel =>
    match scanValue fuel depth s with
    | Some (v, r) =>
      match skipSpace r with
      | String "," r' => scanElements fuel depth (skipSpace r') (acc ++ [v])
      | String "]" r' => Some (acc ++ [v], r')
      | _ => None
      end
    | None => None
    end
  end
with scanMembers (fuel : nat) (depth : N) (s : string) (acc : list (string * value))
  : option (list (string * value) * string) :=
  match fuel with
  | O => None
  | S fuel =>
    match s with
    | String c r =>
      if negb (Go.byte c =? 34)%N then None else
      match scanString (String.length r) r "" with
      | Some (key, r1) =>
        match skipSpace r1 with
        | String ":" r2 =>
          match scanValue fuel depth (skipSpace r2) with
          | Some (v, r3) =>
            match skipSpace r3 with
            | String "," r4 => scanMembers fuel depth (skipSpace r4) (acc ++ [(key, v)])
            | String "}" r4 => Some (acc ++ [(key, v)], r4)
            | _ => None
            end
          | None => None
          end
        | _ => None
        end
      | None => None
      end
    | EmptyString => None
    end
  end.

(** [checkValid]: the whole text is one value between white space. *)
Definition parse (s : string) : option value :=
  match scanValue (2 * String.length s + 2) 0%N (skipSpace s) with
  | Some (v, r) =>
    match skipSpace r with
    | EmptyString => Some v
    | _ => None
    end
  | None => None
  end.

(** The name a key is compared under: ASCII letters in upper case, and
    the two letters outside ASCII that fold to an ASCII letter, U+017F
    (long s) and U+212A (Kelvin sign). *)
Fixpoint foldName (s : string) : string :=
  match s with
  | EmptyString => ""
  | String c r =>
    if ((97 <=? Go.byte c) && (Go.byte c <=? 122))%N
    then String (chr (Go.byte c - 32)) (foldName r)
    else
      match r with
      | String d r1 =>
        if ((Go.byte c =? 197) && (Go.byte d =? 191))%N then String "S" (foldName r1)
        else
          match r1 with
          | String e r2 =>
            if ((Go.byte c =? 226) && (Go.byte d =? 132) && (Go.byte e =? 170))%N
            then String "K" (foldName r2)
            else String c (foldName r)
          | EmptyString => String c (foldName r)
          end
      | EmptyString => String c ""
      end
  end.

(** A value stored into a field: the field afterwards, and whether the
    value had the kind the field takes. *)
Definition storeString (cur : string) (v : value) : string * bool :=
  match v with
  | Str s => (s, true)
  | Null => (cur, true)
  | _ => (cur, false)
  end.

Definition storeInt (cur : Z) (v : value) : Z * bool :=
  match v with
  | Number literal =>
    match Go.Atoi literal with
    | inl n => (n, true)
    | inr _ => (cur, false)
    end
  | Null => (cur, true)
  | _ => (cur, false)
  end.

Definition zeroPortInfo : masscan.PortInfo.t :=
  {| masscan.PortInfo.Port := 0; masscan.PortInfo.Proto := "";
     masscan.PortInfo.Status := ""; masscan.PortInfo.Reason := "";
     masscan.PortInfo.TTL := 0 |}.

Definition storeMember (cur : masscan.PortInfo.t * bool) (member : string * value)
  : masscan.PortInfo.t * bool :=
  let '(p, ok) := cur in
  let '(key, v) := member in
  let name := foldName key in
  if String.eqb name "PORT" then
    let '(x, ok') := storeInt (masscan.PortInfo.Port p) v in
    ({| masscan.PortInfo.Port := x; masscan.PortInfo.Proto := masscan.PortInfo.Proto p;
        masscan.PortInfo.Status := masscan.PortInfo.Status p;
        masscan.PortInfo.Reason := masscan.PortInfo.Reason p;
        masscan.PortInfo.TTL := masscan.PortInfo.TTL p |}, ok && ok')
  else if String.eqb name "PROTO" then
    let '(x, ok') := storeString (masscan.PortInfo.Proto p) v in
    ({| masscan.PortInfo.Port := masscan.PortInfo.Port p; masscan.PortInfo.Proto := x;
        masscan.PortInfo.Status := masscan.PortInfo.Status p;
        masscan.PortInfo.Reason := masscan.PortInfo.Reason p;
        masscan.PortInfo.TTL := masscan.PortInfo.TTL p |}, ok && ok')
  else if String.eqb name "STATUS" then
    let '(x, ok') := storeString (masscan.PortInfo.Status p) v in
    ({| masscan.PortInfo.Port := masscan.PortInfo.Port p;
        masscan.PortInfo.Proto := masscan.PortInfo.Proto p;
        masscan.PortInfo.Status := x;
        masscan.PortInfo.Reason := masscan.PortInfo.Reason p;
        masscan.PortInfo.TTL := masscan.PortInfo.TTL p |}, ok && ok')
  else if String.eqb name "REASON" then
    let '(x, ok') := storeString (masscan.PortInfo.Reason p) v in
    ({| masscan.PortInfo.Port := masscan.PortInfo.Port p;
        masscan.PortInfo.Proto := masscan.PortInfo.Proto p;
        masscan.PortInfo.Status := masscan.PortInfo.Status p;
        masscan.PortInfo.Reason := x;
        masscan.PortInfo.TTL := masscan.PortInfo.TTL p |}, ok && ok')
  else if String.eqb name "TTL" then
    let '(x, ok') := storeInt (masscan.PortInfo.TTL p) v in
    ({| masscan.PortInfo.Port := masscan.PortInfo.Port p;
        masscan.PortInfo.Proto := masscan.PortInfo.Proto p;
        masscan.PortInfo.Status := masscan.PortInfo.Status p;
        masscan.PortInfo.Reason := masscan.PortInfo.Reason p;
        masscan.PortInfo.TTL := x |}, ok && ok')
  else (p, ok).

Definition storePortInfo (cur : masscan.PortInfo.t) (v : value) : masscan.PortInfo.t * bool :=
  match v with
  | Object members => fold_left storeMember members (cur, true)
  | Null => (cur, true)
  | _ => (cur, false)
  end.

(** The elements of an array stored one by one into the elements the
    slice already has at their index (zero elements beyond those). *)
Fixpoint storeElements (backing : list masscan.PortInfo.t) (vs : list value)
  : list masscan.PortInfo.t * bool :=
  match vs with
  | [] => ([], true)
  | v :: vs' =>
    let '(p, ok) := storePortInfo (hd zeroPortInfo backing) v in
    let '(ps, ok') := storeElements (tl backing) vs' in
    (p :: ps, ok && ok')
  end.

(** The field [Ports] while a line is decoded: the elements written so
    far, the first [len] of which are in the slice. *)
Record Slice := { backing : list masscan.PortInfo.t; len : nat }.

Definition storePorts (cur : Slice) (v : value) : Slice * bool :=
  match v with
  | Array [] => ({| backing := []; len := 0 |}, true)
  | Array vs =>
    let '(ps, ok) := storeElements (backing cur) vs in
    ({| backing := ps ++ drop (length vs) (backing cur); len := length vs |}, ok)
  | Null => ({| backing := []; len := 0 |}, true)
  | _ => (cur, false)
  end.

Record Partial := { ip : string; timestamp : string; ports : Slice; ok : bool }.

Definition storeField (cur : Partial) (member : string * value) : Partial :=
  let '(key, v) := member in
  let name := foldName key in
  if String.eqb name "IP" then
    let '(x, ok') := storeString (ip cur) v in
    {| ip := x; timestamp := timestamp cur; ports := ports cur; ok := ok cur && ok' |}
  else if String.eqb name "TIMESTAMP" then
    let '(x, ok') := storeString (timestamp cur) v in
    {| ip := ip cur; timestamp := x; ports := ports cur; ok := ok cur && ok' |}
  else if String.eqb name "PORTS" then
    let '(x, ok') := storePorts (ports cur) v in
    {| ip := ip cur; timestamp := timestamp cur; ports := x; ok := ok cur && ok' |}
  else cur.

(** [json.Unmarshal] into a zero [MasscanResult]. *)
Definition Unmarshal (data : string) : masscan.MasscanResult.t + rt.error :=
  match parse data with
  | None => inr (rt.decodeError "invalid JSON text")
  | Some Null =>
    inl {| masscan.MasscanResult.IP := ""; masscan.MasscanResult.Timestamp := "";
           masscan.MasscanResult.Ports := [] |}
  | Some (Object members) =>
    let r := fold_left storeField members
               {| ip := ""; timestamp := ""; ports := {| backing := []; len := 0 |};
                  ok := true |} in
    if ok r
    then inl {| masscan.MasscanResult.IP := ip r;
                masscan.MasscanResult.Timestamp := timestamp r;
                masscan.MasscanResult.Ports := take (len (ports r)) (backing (ports r)) |}
    else inr (rt.decodeError "json: cannot unmarshal value into Go struct field")
  | Some _ => inr (rt.decodeError "json: cannot unmarshal value into Go value")
  end.

#[global] Instance decoder : masscan.JSONDecoder := Unmarshal.

End json.

(** ** An XML decoder for the documents of the thorough-probe adapter

    The adapter is stated for any decoder ([nmap.XMLDecoder]).  This one
    serves to run it on concrete bytes.  It reads the XML that nmap
    writes: a prolog of declarations, comments and a document type, then
    one root element; elements with quoted attributes, the five named
    entities and numeric character references, text and comments between
    elements.  Anything else (name spaces, CDATA sections, an internal
    subset) is reported as an error.  The tree is stored into the structs
    as [encoding/xml] does for their tags: the root must be [nmaprun];
    children and attributes are found by name and the others skipped; an
    element met again for a struct field is stored into the same struct,
    for a slice field into a new element; an integer attribute must parse
    as one. *)

Module xml.

Inductive node := Element (name : string) (attrs : list (string * string)) (children : list node).

Definition isNameStart (c : ascii) : bool :=
  let b := Go.byte c in
  ((65 <=? b) && (b <=? 90) || (97 <=? b) && (b <=? 122) || (b =? 95))%N.

Definition isNameByte (c : ascii) : bool :=
  isNameStart c || Go.isDigit c || (Go.byte c =? 45)%N || (Go.byte c =? 46)%N.

Fixpoint spanName (s : string) : string * string :=
  match s with
  | String c r =>
    if isNameByte c then let '(n, r') := spanName r in (String c n, r') else ("", s)
  | EmptyString => ("", "")
  end.

Definition scanName (s : string) : option (string * string) :=
  match s with
  | String c _ => if isNameStart c then Some (spanName s) else None
  | EmptyString => None
  end.

(** What follows the first occurrence of [stop] in [s]. *)
Fixpoint after (stop : string) (s : string) : option string :=
  if String.prefix stop s
  then Some (String.substring (String.length stop) (String.length s) s)
  else match s with
       | String _ r => after stop r
       | EmptyString => None
       end.

Fixpoint spanUntil (stop : ascii) (s : string) : option (string * string) :=
  match s with
  | String c r =>
    if Ascii.eqb c stop then Some ("", r)
    else match spanUntil stop r with
         | Some (t, r') => Some (String c t, r')
         | None => None
         end
  | EmptyString => None
  end.

Fixpoint hexNumber (s : string) (acc : N) : option N :=
  match s with
  | EmptyString => Some acc
  | String c r =>
    match json.hexVal c with
    | Some d => hexNumber r (acc * 16 + d)%N
    | None => None
    end
  end.

(** The text an entity or character reference stands for, from the text
    between the ampersand and the semicolon. *)
Definition entity (name : string) : option string :=
  if String.eqb name "lt" then Some "<"
  else if String.eqb name "gt" then Some ">"
  else if String.eqb name "amp" then Some "&"
  else if String.eqb name "apos" then Some "'"
  else if String.eqb name "quot" then Some (String (json.chr 34) "")
  else
    match name with
    | String "#" (String "x" (String c h)) =>
      match hexNumber (String c h) 0 with
      | Some n => if (0 <? n)%N && (n <? 1114112)%N then Some (json.encodeRune n) else None
      | None => None
      end
    | String "#" (String c d) =>
      match Go.digitsVal (String c d) 0 with
      | Some n =>
        if (0 <? n) && (n <? 1114112) then Some (json.encodeRune (Z.to_N n)) else None
      | None => None
      end
    | _ => None
    end.

(** Character data up to a stop byte ([quote] for an attribute value,
    none for text, which ends at the next tag), with its references
    replaced. *)
Fixpoint scanText (fuel : nat) (quote : option ascii) (s : string) (acc : string)
  : option (string * string) :=
  match fuel with
  | O => None
  | S fuel =>
    match s with
    | EmptyString => match quote with Some _ => None | None => Some (acc, "") end
    | String c r =>
      if match quote with Some q => Ascii.eqb c q | None => false end then Some (acc, r)
      else if (Go.byte c =? 60)%N
      then match quote with Some _ => None | None => Some (acc, s) end
      else if (Go.byte c =? 38)%N then
        match spanUntil ";" r with
        | Some (name, r') =>
          match entity name with
          | Some t => scanText fuel quote r' (acc +:+ t)
          | None => None
          end
        | None => None
        end
      else scanText fuel quote r (acc +:+ String c "")
    end
  end.

Fixpoint scanAttrs (fuel : nat) (s : string) (acc : list (string * string))
  : option (list (string * string) * string) :=
  match fuel with
  | O => None
  | S fuel =>
    let s := json.skipSpace s in
    match scanName s with
    | None => Some (acc, s)
    | Some (name, r) =>
      match json.skipSpace r with
      | String "=" r1 =>
        match json.skipSpace r1 with
        | String q r2 =>
          if (Go.byte q =? 34)%N || (Go.byte q =? 39)%N then
            match scanText (S (String.length r2)) (Some q) r2 "" with
            | Some (v, r3) => scanAttrs fuel r3 (acc ++ [(name, v)])
            | None => None
            end
          else None
        | EmptyString => None
        end
      | _ => None
      end
    end
  end.

(** The nodes up to the end tag that closes them (or the end of the
    text), and an element after its opening angle bracket. *)
Fixpoint scanNodes (fuel : nat) (s : string) (acc : list node) : option (list node * string) :=
  match fuel with
  | O => None
  | S fuel =>
    match s with
    | EmptyString => Some (acc, "")
    | String "<" (String "/" _) => Some (acc, s)
    | String "<" (String "?" r) =>
      match after "?>" r with
      | Some r' => scanNodes fuel r' acc
      | None => None
      end
    | String "<" (String "!" (String "-" (String "-" r))) =>
      match after "-->" r with
      | Some r' => scanNodes fuel r' acc
      | None => None
      end
    | String "<" (String "!" r) =>
      match spanUntil ">" r with
      | Some (body, r') =>
        if PortGrammar.noByte "<" body && PortGrammar.noByte "[" body
           && PortGrammar.noByte (json.chr 34) body && PortGrammar.noByte "'" body
        then scanNodes fuel r' acc else None
      | None => None
      end
    | String "<" r =>
      match scanElement fuel r with
      | Some (e, r') => scanNodes fuel r' (acc ++ [e])
      | None => None
      end
    | _ =>
      match scanText (S (String.length s)) None s "" with
      | Some (_, r) => scanNodes fuel r acc
      | None => None
      end
    end
  end
with scanElement (fuel : nat) (s : string) : option (node * string) :=
  match fuel with
  | O => None
  | S fuel =>
    match scanName s with
    | None => None
    | Some (name, r) =>
      match scanAttrs (S (String.length r)) r [] with
      | None => None
      | Some (attrs, r1) =>
        match r1 with
        | String "/" (String ">" r2) => Some (Element name attrs [], r2)
        | String ">" r2 =>
          match scanNodes fuel r2 [] with
          | Some (children, String "<" (String "/" r3)) =>
            match scanName r3 with
            | Some (name', r4) =>
              match json.skipSpace r4 with
              | String ">" r5 =>
                if String.eqb name name' then Some (Element name attrs children, r5)
                else None
              | _ => None
              end
            | None => None
            end
          | _ => None
          end
        | _ => None
        end
      end
    end
  end.

(** The root element: what comes before it is skipped, what comes after
    it is not read. *)
Fixpoint scanRoot (fuel : nat) (s : string) : option node :=
  match fuel with
  | O => None
  | S fuel =>
    match s with
    | EmptyString => None
    | String "<" (String "/" _) => None
    | String "<" (String "?" r) =>
      match after "?>" r with Some r' => scanRoot fuel r' | None => None end
    | String "<" (String "!" (String "-" (String "-" r))) =>
      match after "-->" r with Some r' => scanRoot fuel r' | None => None end
    | String "<" (String "!" r) =>
      match spanUntil ">" r with
      | Some (body, r') =>
        if PortGrammar.noByte "<" body && PortGrammar.noByte "[" body
           && PortGrammar.noByte (json.chr 34) body && PortGrammar.noByte "'" body
        then scanRoot fuel r' else None
      | None => None
      end
    | String "<" r =>
      match scanElement (2 * String.length r + 2) r with
      | Some (e, _) => Some e
      | None => None
      end
    | _ =>
      match scanText (S (String.length s)) None s "" with
      | Some (_, r) => scanRoot fuel r
      | None => None
      end
    end
  end.

Definition parse (s : string) : option node := scanRoot (S (String.length s)) s.

(** A string attribute: the value of the last attribute of that name, or
    what the field held. *)
Definition attrString (name : string) (attrs : list (string * string)) (cur : string) : string :=
  fold_left (fun acc a => if String.eqb a.1 name then a.2 else acc) attrs cur.

(** An integer attribute; [None] when a value does not parse. *)
Definition attrInt (name : string) (attrs : list (string * string)) (cur : Z) : option Z :=
  fold_left
    (fun acc a =>
       match acc with
       | None => None
       | Some n =>
         if String.eqb a.1 name then
           if String.eqb a.2 "" then Some 0
           else match Go.Atoi (Go.TrimSpace a.2) with
                | inl v => Some v
                | inr _ => None
                end
         else Some n
       end)
    attrs (Some cur).

Fixpoint foldOpt {A B : Type} (f : A -> B -> option A) (l : list B) (a : A) : option A :=
  match l with
  | [] => Some a
  | b :: l' =>
    match f a b with
    | Some a' => foldOpt f l' a'
    | None => None
    end
  end.

Definition storeHostnames (cur : nmap.NmapHostnames.t) (children : list node)
  : nmap.NmapHostnames.t :=
  fold_left
    (fun acc child =>
       match child with
       | Element name attrs _ =>
         if String.eqb name "hostname"
         then {| nmap.NmapHostnames.Hostnames :=
                   nmap.NmapHostnames.Hostnames acc
                   ++ [{| nmap.NmapHostname.Name := attrString "name" attrs "" |}] |}
         else acc
       end)
    children cur.

Definition storePortChild (cur : nmap.NmapPort.t) (child : node) : nmap.NmapPort.t :=
  match child with
  | Element name attrs _ =>
    if String.eqb name "state" then
      {| nmap.NmapPort.Protocol := nmap.NmapPort.Protocol cur;
         nmap.NmapPort.PortID := nmap.NmapPort.PortID cur;
         nmap.NmapPort.State :=
           {| nmap.NmapState.State :=
                attrString "state" attrs (nmap.NmapState.State (nmap.NmapPort.State cur)) |};
         nmap.NmapPort.Service := nmap.NmapPort.Service cur |}
    else if String.eqb name "service" then
      let service := nmap.NmapPort.Service cur in
      {| nmap.NmapPort.Protocol := nmap.NmapPort.Protocol cur;
         nmap.NmapPort.PortID := nmap.NmapPort.PortID cur;
         nmap.NmapPort.State := nmap.NmapPort.State cur;
         nmap.NmapPort.Service :=
           {| nmap.NmapService.Name := attrString "name" attrs (nmap.NmapService.Name service);
              nmap.NmapService.Product :=
                attrString "product" attrs (nmap.NmapService.Product service);
              nmap.NmapService.Version :=
                attrString "version" attrs (nmap.NmapService.Version service);
              nmap.NmapService.Info :=
                attrString "extrainfo" attrs (nmap.NmapService.Info service) |} |}
    else cur
  end.

Definition storePorts (cur : nmap.NmapPorts.t) (children : list node)
  : option nmap.NmapPorts.t :=
  foldOpt
    (fun acc child =>
       match child with
       | Element name attrs grandchildren =>
         if String.eqb name "port" then
           match attrInt "portid" attrs 0 with
           | Some portid =>
             let port :=
               fold_left storePortChild grandchildren
                 {| nmap.NmapPort.Protocol := attrString "protocol" attrs "";
                    nmap.NmapPort.PortID := portid;
                    nmap.NmapPort.State := {| nmap.NmapState.State := "" |};
                    nmap.NmapPort.Service :=
                      {| nmap.NmapService.Name := ""; nmap.NmapService.Product := "";
                         nmap.NmapService.Version := ""; nmap.NmapService.Info := "" |} |} in
             Some {| nmap.NmapPorts.Ports := nmap.NmapPorts.Ports acc ++ [port] |}
           | None => None
           end
         else Some acc
       end)
    children cur.

Definition storeOS (cur : nmap.NmapOS.t) (children : list node) : option nmap.NmapOS.t :=
  foldOpt
    (fun acc child =>
       match child with
       | Element name attrs _ =>
         if String.eqb name "osmatch" then
           match attrInt "accuracy" attrs 0 with
           | Some accuracy =>
             Some {| nmap.NmapOS.OSMatches :=
                       nmap.NmapOS.OSMatches acc
                       ++ [{| nmap.NmapOSMatch.Name := attrString "name" attrs "";
                              nmap.NmapOSMatch.Accuracy := accuracy |}] |}
           | None => None
           end
         else Some acc
       end)
    children cur.

Definition storeHostChild (cur : nmap.NmapHost.t) (child : node) : option nmap.NmapHost.t :=
  match child with
  | Element name attrs children =>
    if String.eqb name "status" then
      Some {| nmap.NmapHost.Status :=
                {| nmap.NmapStatus.State :=
                     attrString "state" attrs
                       (nmap.NmapStatus.State (nmap.NmapHost.Status cur)) |};
              nmap.NmapHost.Address := nmap.NmapHost.Address cur;
              nmap.NmapHost.Hostnames := nmap.NmapHost.Hostnames cur;
              nmap.NmapHost.Ports := nmap.NmapHost.Ports cur;
              nmap.NmapHost.OS := nmap.NmapHost.OS cur |}
    else if String.eqb name "address" then
      Some {| nmap.NmapHost.Status := nmap.NmapHost.Status cur;
              nmap.NmapHost.Address :=
                nmap.NmapHost.Address cur
                ++ [{| nmap.NmapAddress.Addr := attrString "addr" attrs "";
                       nmap.NmapAddress.AddrType := attrString "addrtype" attrs "" |}];
              nmap.NmapHost.Hostnames := nmap.NmapHost.Hostnames cur;
              nmap.NmapHost.Ports := nmap.NmapHost.Ports cur;
              nmap.NmapHost.OS := nmap.NmapHost.OS cur |}
    else if String.eqb name "hostnames" then
      Some {| nmap.NmapHost.Status := nmap.NmapHost.Status cur;
              nmap.NmapHost.Address := nmap.NmapHost.Address cur;
              nmap.NmapHost.Hostnames := storeHostnames (nmap.NmapHost.Hostnames cur) children;
              nmap.NmapHost.Ports := nmap.NmapHost.Ports cur;
              nmap.NmapHost.OS := nmap.NmapHost.OS cur |}
    else if String.eqb name "ports" then
      match storePorts (nmap.NmapHost.Ports cur) children with
      | Some ports =>
        Some {| nmap.NmapHost.Status := nmap.NmapHost.Status cur;
                nmap.NmapHost.Address := nmap.NmapHost.Address cur;
                nmap.NmapHost.Hostnames := nmap.NmapHost.Hostnames cur;
                nmap.NmapHost.Ports := ports;
                nmap.NmapHost.OS := nmap.NmapHost.OS cur |}
      | None => None
      end
    else if String.eqb name "os" then
      match storeOS (nmap.NmapHost.OS cur) children with
      | Some os =>
        Some {| nmap.NmapHost.Status := nmap.NmapHost.Status cur;
                nmap.NmapHost.Address := nmap.NmapHost.Address cur;
                nmap.NmapHost.Hostnames := nmap.NmapHost.Hostnames cur;
                nmap.NmapHost.Ports := nmap.NmapHost.Ports cur;
                nmap.NmapHost.OS := os |}
      | None => None
      end
    else Some cur
  end.

Definition zeroHost : nmap.NmapHost.t :=
  {| nmap.NmapHost.Status := {| nmap.NmapStatus.State := "" |};
     nmap.NmapHost.Address := [];
     nmap.NmapHost.Hostnames := {| nmap.NmapHostnames.Hostnames := [] |};
     nmap.NmapHost.Ports := {| nmap.NmapPorts.Ports := [] |};
     nmap.NmapHost.OS := {| nmap.NmapOS.OSMatches := [] |} |}.

Definition storeRun (root : node) : option nmap.NmapRun.t :=
  match root with
  | Element name _ children =>
    if String.eqb name "nmaprun" then
      foldOpt
        (fun acc child =>
           match child with
           | Element name' _ grandchildren =>
             if String.eqb name' "host" then
               match foldOpt storeHostChild grandchildren zeroHost with
               | Some host => Some {| nmap.NmapRun.Hosts := nmap.NmapRun.Hosts acc ++ [host] |}
               | None => None
               end
             else Some acc
           end)
        children {| nmap.NmapRun.Hosts := [] |}
    else None
  end.

(** [xml.Unmarshal] into a zero [NmapRun]. *)
Definition Unmarshal (data : string) : nmap.NmapRun.t + rt.error :=
  match parse data with
  | None => inr (rt.decodeError "XML syntax error")
  | Some root =>
    match storeRun root with
    | Some run => inl run
    | None => inr (rt.decodeError "xml: cannot store the document into nmap.NmapRun")
    end
  end.

#[global] Instance decoder : nmap.XMLDecoder := Unmarshal.

End xml.

(** ** Concrete configurations, worlds and outputs *)

Module Examples.

Definition config (ports timing arguments : string) (threads : Z) : scanner.ScanConfig :=
  {| scanner.Ports := ports;
     scanner.Timing := timing;
     scanner.Arguments := arguments;
     scanner.Output := "";
     scanner.Timeout := 0;
     scanner.Threads := threads;
     scanner.Options := ∅ |}.

Definition nmapScanner : nmap.Scanner := {| nmap.path := "/usr/bin/nmap" |}.
Definition nmapScanner' : nmap.Scanner := {| nmap.path := "/usr/local/bin/nmap" |}.
Definition masscanScanner : masscan.Scanner := {| masscan.path := "/usr/bin/masscan" |}.

Definition background : rt.Context := {| rt.deadline := None; rt.cancelled := false |}.

(** Times as plain numbers: a stand-in for the formatting of package
    [time], which no property depends on. *)
#[global] Instance timeLib : rt.TimeLib :=
  {| rt.Format_RFC3339 := Go.Itoa;
     rt.Sub := Z.sub;
     rt.Duration_String := fun d => Go.Itoa d +:+ "s" |}.

(** A world in which the external program prints [output] and ends with
    [err], identifiers and clock readings count up, and a range over a map
    follows the keys. *)
Definition world (output : string) (err : option rt.error) : rt.World :=
  {| rt.uuidSource := N.of_nat;
     rt.uuidCount := 0;
     rt.clock := Z.of_nat;
     rt.clockCount := 0;
     rt.rangeOrder := fun _ l => l;
     rt.rangeOrder_perm := fun _ l => reflexivity l;
     rt.cmdOutput := fun _ _ _ => (output, err);
     rt.spawned := [] |}.

(** JSON texts are written with single quotes and read with double
    ones. *)
Fixpoint jsonText (s : string) : string :=
  match s with
  | EmptyString => ""
  | String c r => String (if (Go.byte c =? 39)%N then json.chr 34 else c) (jsonText r)
  end.

(** Two records for 10.0.0.1, with ports 80/tcp and 443/tcp open, and a
    blank line between them. *)
Definition twoRecords : string :=
  jsonText "{'ip': '10.0.0.1', 'timestamp': '1700000000', 'ports': [{'port': 80, 'proto': 'tcp', 'status': 'open', 'reason': 'syn-ack', 'ttl': 64}]}

{'ip': '10.0.0.1', 'timestamp': '1700000001', 'ports': [{'port': 443, 'proto': 'tcp', 'status': 'open', 'reason': 'syn-ack', 'ttl': 64}]}
".

(** The same two records without their port entries. *)
Definition twoRecordsNoPorts : string :=
  jsonText "{'ip': '10.0.0.1', 'timestamp': '1700000000', 'ports': []}

{'ip': '10.0.0.1', 'timestamp': '1700000001', 'ports': []}
".

(** The records of a real run come inside an array: brackets on their own
    lines and a comma after each record, none of which decodes as a
    record. *)
Definition noRecord : string :=
  jsonText "[
{'ip': '10.0.0.1', 'ports': [{'port': 80, 'proto': 'tcp', 'status': 'open'}]},
not json at all
]".

(** One host: up, with a hardware address and the IPv4 address 10.0.0.5,
    the hostname router.local, an open port, and the OS match
    "Linux 3.2 - 4.9" at accuracy 95. *)
Definition routerDocument : string :=
  "<?xml version='1.0' encoding='UTF-8'?>
<!DOCTYPE nmaprun>
<nmaprun scanner='nmap' args='nmap -oX - -sV -O 10.0.0.5' version='7.80'>
<host><status state='up' reason='arp-response'/>
<address addr='00:11:22:33:44:55' addrtype='mac'/>
<address addr='10.0.0.5' addrtype='ipv4'/>
<hostnames><hostname name='router.local' type='PTR'/></hostnames>
<ports><port protocol='tcp' portid='22'><state state='open'/><service name='ssh'/></port></ports>
<os><osmatch name='Linux 3.2 - 4.9' accuracy='95'/></os>
</host>
</nmaprun>
".

Definition routerHost (id : rt.UUID) (now : rt.Time) : models.Host.t :=
  {| models.Host.ID := id;
     models.Host.ScanID := 0%N;
     models.Host.IPAddress := "10.0.0.5";
     models.Host.Hostname := "router.local";
     models.Host.Status := "up";
     models.Host.OS := "Linux 3.2 - 4.9";
     models.Host.OSConfidence := 95;
     models.Host.CreatedAt := now |}.

(** A host node that describes the router, whatever ports it lists and
    whatever other addresses, hostnames and OS matches follow the first. *)
Definition describesRouter (node : nmap.NmapHost.t) : Prop :=
  nmap.NmapStatus.State (nmap.NmapHost.Status node) = "up"
  /\ NmapSpec.firstIPv4 (nmap.NmapHost.Address node) = "10.0.0.5"
  /\ NmapSpec.firstHostname (nmap.NmapHostnames.Hostnames (nmap.NmapHost.Hostnames node))
     = "router.local"
  /\ NmapSpec.firstOS (nmap.NmapOS.OSMatches (nmap.NmapHost.OS node))
     = ("Linux 3.2 - 4.9", 95).

(** The host and the two ports the high-speed adapter builds for
    [twoRecords] in [world]. *)
Definition scannedHost : models.Host.t :=
  {| models.Host.ID := 0%N;
     models.Host.ScanID := 0%N;
     models.Host.IPAddress := "10.0.0.1";
     models.Host.Hostname := "";
     models.Host.Status := "up";
     models.Host.OS := "";
     models.Host.OSConfidence := 0;
     models.Host.CreatedAt := 0 |}.

Definition tcpOpen (id hostID : rt.UUID) (number : Z) (now : rt.Time) : models.Port.t :=
  {| models.Port.ID := id;
     models.Port.HostID := hostID;
     models.Port.Number := number;
     models.Port.Protocol := "tcp";
     models.Port.State := "open";
     models.Port.Service := "";
     models.Port.Version := "";
     models.Port.Product := "";
     models.Port.ExtraInfo := "";
     models.Port.CreatedAt := now |}.

(** A port entry as masscan reports it. *)
Definition synAck (port : Z) : masscan.PortInfo.t :=
  {| masscan.PortInfo.Port := port;
     masscan.PortInfo.Proto := "tcp";
     masscan.PortInfo.Status := "open";
     masscan.PortInfo.Reason := "syn-ack";
     masscan.PortInfo.TTL := 64 |}.

Definition exitStatus1 : rt.error := rt.execError (rt.NonZeroExit 1) "exit status 1".

End Examples.

(** ** Further words for the properties of the adapters *)

Module MoreSpec.

(** A port built for an entry under a given host ID; the high-speed
    adapter fills in nothing about the service. *)
Definition attributed (hostID : rt.UUID) (entry : masscan.PortInfo.t) (port : models.Port.t)
  : Prop :=
  models.Port.HostID port = hostID
  /\ models.Port.Number port = masscan.PortInfo.Port entry
  /\ models.Port.Protocol port = masscan.PortInfo.Proto entry
  /\ models.Port.State port = masscan.PortInfo.Status entry
  /\ models.Port.Service port = ""
  /\ models.Port.Version port = ""
  /\ models.Port.Product port = ""
  /\ models.Port.ExtraInfo port = "".

(** Two ports that say the same about the port they stand for. *)
Definition samePort (p q : models.Port.t) : Prop :=
  models.Port.Number p = models.Port.Number q
  /\ models.Port.Protocol p = models.Port.Protocol q
  /\ models.Port.State p = models.Port.State q.


(** A run of [k] zeros. *)
Fixpoint zeros (k : nat) : string :=
  match k with
  | O => ""
  | S k' => String "0" (zeros k')
  end.

(** The three statuses a scan reports. *)
Definition scanStatus (status : string) : Prop :=
  status = "failed" \/ status = "completed_with_errors" \/ status = "completed".

(** The world after [n] identifiers and [n] clock readings were drawn,
    and nothing else happened. *)
Definition drawn (n : nat) (w : rt.World) : rt.World :=
  {| rt.uuidSource := rt.uuidSource w; rt.uuidCount := n + rt.uuidCount w;
     rt.clock := rt.clock w; rt.clockCount := n + rt.clockCount w;
     rt.rangeOrder := rt.rangeOrder w; rt.rangeOrder_perm := rt.rangeOrder_perm w;
     rt.cmdOutput := rt.cmdOutput w; rt.spawned := rt.spawned w |}.


(** The hosts of a map took their identifiers from the source at places
    of their own, all before the place the source stands at. *)
Definition placed (w : rt.World) (m : gmap string models.Host.t) : Prop :=
  exists place : string -> nat,
    forall ip host, m !! ip = Some host ->
      models.Host.ID host = rt.uuidSource w (place ip)
      /\ (place ip < rt.uuidCount w)%nat
      /\ forall ip', is_Some (m !! ip') -> place ip' = place ip -> ip' = ip.

Section Outcome.
Context {timeLib : rt.TimeLib}.

(** What the result of a scan that ran satisfies, given what the
    program printed and how it ended. *)
Definition wellFormed (name target : string) (w : rt.World)
  (ran : string * option rt.error)
  (out : option scanner.ScanResult.t * option rt.error) : Prop :=
  exists r, out.1 = Some r
    /\ out.2 = ran.2
    /\ scanner.ScanResult.Target r = target
    /\ scanner.ScanResult.Scanner r = name
    /\ scanner.ScanResult.RawOutput r = ran.1
    /\ scanner.ScanResult.StartTime r = rt.Format_RFC3339 (ScanSpec.startTime w)
    /\ scanner.ScanResult.EndTime r = rt.Format_RFC3339 (ScanSpec.endTime w)
    /\ scanner.ScanResult.Duration r
       = rt.Duration_String (rt.Sub (ScanSpec.endTime w) (ScanSpec.startTime w))
    /\ scanStatus (scanner.ScanResult.Status r)
    /\ (scanner.ScanResult.Status r = "failed" <-> ran.2 <> None)
    /\ (scanner.ScanResult.Status r <> "completed" -> scanner.ScanResult.Hosts r = [])
    /\ (scanner.ScanResult.Status r = "completed" -> scanner.ScanResult.Error r = "").

End Outcome.

End MoreSpec.

(** ** Package config: the configuration the application loads *)

Module config.

Module DatabaseConfig.
Record t := {
  Host : string;
  Port : Z;
  User : string;
  Password : string;
  DBName : string;
  SSLMode : string
}.
End DatabaseConfig.

Module LoggingConfig.
Record t := { Level : string; Format : string; File : string }.
End LoggingConfig.

Module Preset.
Record t := { Scanner : string; Ports : string; Arguments : string; Timing : string }.
End Preset.

Module ScannerConfig.
Record t := {
  DefaultTimeout : Z;
  MaxThreads : Z;
  DefaultPorts : string;
  Presets : gmap string Preset.t
}.
End ScannerConfig.

Module ServerConfig.
Record t := { Host : string; Port : Z }.
End ServerConfig.

Record Config := {
  Database : DatabaseConfig.t;
  Logging : LoggingConfig.t;
  Scanner : ScannerConfig.t;
  Server : ServerConfig.t
}.

(** What [LoadConfig] returns for a path: it reads files and the
    environment through viper, so its answer is taken as given. *)
Class Loader := LoadConfig : string -> Config + rt.error.

End config.

(** ** Package logrus, as far as the application uses it *)

Module logrus.

Inductive Level :=
| PanicLevel | FatalLevel | ErrorLevel | WarnLevel | InfoLevel | DebugLevel | TraceLevel.

Definition rank (l : Level) : Z :=
  match l with
  | PanicLevel => 0 | FatalLevel => 1 | ErrorLevel => 2 | WarnLevel => 3
  | InfoLevel => 4 | DebugLevel => 5 | TraceLevel => 6
  end.

(** A logger: its level and the messages it has written, with the level
    of each. *)
Record Logger := { level : Level; written : list (Level * string) }.

(** [logrus.New()]: a logger at level info. *)
Definition New : Logger := {| level := InfoLevel; written := [] |}.

Definition SetLevel (logger : Logger) (l : Level) : Logger :=
  {| level := l; written := written logger |}.

Definition IsLevelEnabled (logger : Logger) (l : Level) : bool :=
  rank l <=? rank (level logger).

(** [Warnf] with the message already formatted: written when the level
    of the logger is warn or more verbose. *)
Definition Warnf (logger : Logger) (msg : string) : Logger :=
  if IsLevelEnabled logger WarnLevel
  then {| level := level logger; written := written logger ++ [(WarnLevel, msg)] |}
  else logger.

(** [logrus.ParseLevel]: the level a name stands for, or an error. *)
Class Levels := ParseLevel : string -> Level + rt.error.

End logrus.

(** ** Package database, as far as the application uses it *)

Module database.

Record Config := {
  Host : string;
  Port : Z;
  User : string;
  Password : string;
  DBName : string;
  SSLMode : string
}.

(** An open connection. *)
Record DB := { conn : N }.

Record Repository := { db : DB }.

Definition NewRepository (db : DB) : Repository := {| db := db |}.

(** [NewConnection] and [Migrate] talk to the database server: their
    answers are taken as given.  Beside an error [NewConnection] returns
    no connection. *)
Class Server := {
  NewConnection : Config -> logrus.Logger -> DB + rt.error;
  Migrate : DB -> string -> option rt.error
}.

End database.

(** ** Package main: the start of every command *)

Module main.

(** The package variables [initializeApp] reads and sets. *)
Record Globals := {
  cfgFile : string;
  verbose : bool;
  logger : option logrus.Logger;
  cfg : option config.Config;
  db : option database.DB;
  repo : option database.Repository;
  scanMgr : option scanner.ScannerManager
}.

Section App.
Context {xmlDecoder : nmap.XMLDecoder} {jsonDecoder : masscan.JSONDecoder}
  {timeLib : rt.TimeLib} {lookup : rt.PathLookup} {loader : config.Loader}
  {levels : logrus.Levels} {server : database.Server}.

(** [initializeApp]: what it returns and the package variables after
    it; [None] is a panic. *)
Definition initializeApp (g : Globals) : option (option rt.error * Globals) :=
  let logger := logrus.New in
  let logger := if verbose g then logrus.SetLevel logger logrus.DebugLevel else logger in
  match config.LoadConfig (cfgFile g) with
  | inr err =>
    Some (Some (rt.Errorf_w "failed to load config: " err),
          {| cfgFile := cfgFile g; verbose := verbose g; logger := Some logger;
             cfg := None; db := db g; repo := repo g; scanMgr := scanMgr g |})
  | inl cfg =>
    let logger :=
      match logrus.ParseLevel (config.LoggingConfig.Level (config.Logging cfg)) with
      | inl level => logrus.SetLevel logger level
      | inr _ => logger
      end in
    let dbConfig :=
      {| database.Host := config.DatabaseConfig.Host (config.Database cfg);
         database.Port := config.DatabaseConfig.Port (config.Database cfg);
         database.User := config.DatabaseConfig.User (config.Database cfg);
         database.Password := config.DatabaseConfig.Password (config.Database cfg);
         database.DBName := config.DatabaseConfig.DBName (config.Database cfg);
         database.SSLMode := config.DatabaseConfig.SSLMode (config.Database cfg) |} in
    let '(logger, db, repo) :=
      match database.NewConnection dbConfig logger with
      | inr err =>
        (logrus.Warnf logger ("Database connection failed: " +:+ rt.Error err), None, repo g)
      | inl db =>
        let logger :=
          match database.Migrate db "./migrations" with
          | Some err => logrus.Warnf logger ("Migration failed: " +:+ rt.Error err)
          | None => logger
          end in
        (logger, Some db, Some (database.NewRepository db))
      end in
    let scanMgr := scanner.NewScannerManager in
    match
      match nmap.NewScanner with
      | inl nmapScanner =>
        match scanner.RegisterScanner scanMgr (nmap.asScanner nmapScanner) with
        | Some scanMgr => Some (logger, scanMgr)
        | None => None
        end
      | inr err =>
        Some (logrus.Warnf logger ("Nmap scanner not available: " +:+ rt.Error err), scanMgr)
      end
    with
    | None => None
    | Some (logger, scanMgr) =>
      match
        match masscan.NewScanner with
        | inl masscanScanner =>
          match scanner.RegisterScanner scanMgr (masscan.asScanner masscanScanner) with
          | Some scanMgr => Some (logger, scanMgr)
          | None => None
          end
        | inr err =>
          Some (logrus.Warnf logger ("Masscan scanner not available: " +:+ rt.Error err),
                scanMgr)
        end
      with
      | None => None
      | Some (logger, scanMgr) =>
        Some (None,
              {| cfgFile := cfgFile g; verbose := verbose g; logger := Some logger;
                 cfg := Some cfg; db := db; repo := repo; scanMgr := Some scanMgr |})
      end
    end
  end.

End App.

End main.

(** ** The start of every command, in words *)

Module AppSpec.
Section App.
Context {lookup : rt.PathLookup} {loader : config.Loader}
  {levels : logrus.Levels} {server : database.Server}.

(** The connection settings read off a configuration. *)
Definition dbConfigOf (c : config.Config) : database.Config :=
  {| database.Host := config.DatabaseConfig.Host (config.Database c);
     database.Port := config.DatabaseConfig.Port (config.Database c);
     database.User := config.DatabaseConfig.User (config.Database c);
     database.Password := config.DatabaseConfig.Password (config.Database c);
     database.DBName := config.DatabaseConfig.DBName (config.Database c);
     database.SSLMode := config.DatabaseConfig.SSLMode (config.Database c) |}.

(** The level the logger ends at: the configured one when its name
    parses, else debug under the verbose flag and info without it. *)
Definition levelFor (verbose : bool) (c : config.Config) : logrus.Level :=
  match logrus.ParseLevel (config.LoggingConfig.Level (config.Logging c)) with
  | inl l => l
  | inr _ => if verbose then logrus.DebugLevel else logrus.InfoLevel
  end.

(** The logger handed to the database layer. *)
Definition loggerFor (verbose : bool) (c : config.Config) : logrus.Logger :=
  {| logrus.level := levelFor verbose c; logrus.written := [] |}.

(** The executables found. *)
Definition found (name : string) : Prop := exists path, rt.LookPath name = inl path.

(** The steps that went wrong, in the order of the code: the connection,
    or else the migration; the search for nmap; the search for masscan. *)
Definition complaints (verbose : bool) (c : config.Config) : list string :=
  match database.NewConnection (dbConfigOf c) (loggerFor verbose c) with
  | inr err => ["Database connection failed: " +:+ rt.Error err]
  | inl d =>
    match database.Migrate d "./migrations" with
    | Some err => ["Migration failed: " +:+ rt.Error err]
    | None => []
    end
  end
  ++ match rt.LookPath "nmap" with
     | inr err => ["Nmap scanner not available: nmap not found in PATH: " +:+ rt.Error err]
     | inl _ => []
     end
  ++ match rt.LookPath "masscan" with
     | inr err =>
       ["Masscan scanner not available: masscan not found in PATH: " +:+ rt.Error err]
     | inl _ => []
     end.

End App.
End AppSpec.

(** ** A machine to start the application on *)

Module AppExamples.

(** Only nmap is installed. *)
#[global] Instance lookup : rt.PathLookup := fun name =>
  if String.eqb name "nmap" then inl "/usr/bin/nmap"
  else inr (rt.execError rt.ExecutableMissing
              ("exec: " +:+ name +:+ ": executable file not found in $PATH")).

Definition defaults : config.Config :=
  {| config.Database :=
       {| config.DatabaseConfig.Host := "localhost";
          config.DatabaseConfig.Port := 5432;
          config.DatabaseConfig.User := "postgres";
          config.DatabaseConfig.Password := "postgres";
          config.DatabaseConfig.DBName := "netrecon";
          config.DatabaseConfig.SSLMode := "disable" |};
     config.Logging :=
       {| config.LoggingConfig.Level := "error";
          config.LoggingConfig.Format := "text";
          config.LoggingConfig.File := "" |};
     config.Scanner :=
       {| config.ScannerConfig.DefaultTimeout := 300;
          config.ScannerConfig.MaxThreads := 1000;
          config.ScannerConfig.DefaultPorts := "1-1000";
          config.ScannerConfig.Presets := ∅ |};
     config.Server :=
       {| config.ServerConfig.Host := "localhost";
          config.ServerConfig.Port := 8080 |} |}.

(** The file config.yaml loads; any other path does not. *)
#[global] Instance loader : config.Loader := fun path =>
  if String.eqb path "config.yaml" then inl defaults
  else inr (rt.wrapError ("error reading config file: open " +:+ path
                          +:+ ": no such file or directory")
              (rt.errorString ("open " +:+ path +:+ ": no such file or directory"))).

(** Lower-case level names. *)
#[global] Instance levels : logrus.Levels := fun lvl =>
  if String.eqb lvl "panic" then inl logrus.PanicLevel
  else if String.eqb lvl "fatal" then inl logrus.FatalLevel
  else if String.eqb lvl "error" then inl logrus.ErrorLevel
  else if String.eqb lvl "warn" then inl logrus.WarnLevel
  else if String.eqb lvl "warning" then inl logrus.WarnLevel
  else if String.eqb lvl "info" then inl logrus.InfoLevel
  else if String.eqb lvl "debug" then inl logrus.DebugLevel
  else if String.eqb lvl "trace" then inl logrus.TraceLevel
  else inr (rt.errorString ("not a valid logrus Level: " +:+ lvl)).

(** No database server answers. *)
#[global] Instance server : database.Server :=
  {| database.NewConnection := fun _ _ =>
       inr (rt.wrapError "failed to ping database: connection refused"
              (rt.errorString "connection refused"));
     database.Migrate := fun _ _ => None |}.

(** The package variables before the first command, with the flags
    --config and -v given. *)
Definition fresh (cfgFile : string) : main.Globals :=
  {| main.cfgFile := cfgFile; main.verbose := true; main.logger := None;
     main.cfg := None; main.db := None; main.repo := None; main.scanMgr := None |}.

End AppExamples.

(** ** Package os, as far as the formatters use it *)

Module os.

(** The files by name, and what goes wrong: [createError] is the error
    of [os.Create] for a name, [writeError] the number of bytes a write
    to a file gets through before it fails, with the error. *)
Record FileSystem := {
  files : gmap string string;
  createError : string -> option rt.error;
  writeError : string -> string -> option (nat * rt.error)
}.

Definition setFiles (fs : FileSystem) (files : gmap string string) : FileSystem :=
  {| files := files; createError := createError fs; writeError := writeError fs |}.

(** [os.Create(name)]: the file is created, or emptied when it exists;
    a failure leaves the files as they are. *)
Definition Create (name : string) (fs : FileSystem) : option rt.error * FileSystem :=
  match createError fs name with
  | Some err => (Some err, fs)
  | None => (None, setFiles fs (<[name := ""]> (files fs)))
  end.

(** [file.Write(data)] on the file opened under [name]: the bytes are
    added at the end, all of them or those written before the failure. *)
Definition Write (name : string) (data : string) (fs : FileSystem)
  : (nat * option rt.error) * FileSystem :=
  let content := default "" (files fs !! name) in
  match writeError fs name data with
  | Some (n, err) =>
    ((n, Some err), setFiles fs (<[name := content +:+ String.substring 0 n data]> (files fs)))
  | None =>
    ((String.length data, None), setFiles fs (<[name := content +:+ data]> (files fs)))
  end.

End os.

(** ** Package output: the formatters *)

Module output.

(** The interface [Formatter]: a value of it is the record of its
    methods; [Format] returns the bytes and the error. *)
Record Formatter := {
  Format : scanner.ScanResult.t -> rt.M (string * option rt.error);
  GetMimeType : string;
  GetFileExtension : string
}.

(** The encoders and the template engine: [json.MarshalIndent] and
    [xml.MarshalIndent] of a result, the parsing of the report template,
    its execution on a result and a time stamp (the bytes written and the
    error), and a time in the layout of the report. *)
Class Encoders := {
  json_MarshalIndent : scanner.ScanResult.t -> string * option rt.error;
  xml_MarshalIndent : scanner.ScanResult.t -> string * option rt.error;
  template_Parse : option rt.error;
  template_Execute : scanner.ScanResult.t -> string -> string * option rt.error;
  Format_DateTime : rt.Time -> string
}.

Definition quote : ascii := "034"%char.

(** [fmt.Sprintf] of a field between double quotes. *)
Definition quoted (field : string) : string :=
  String quote (field +:+ String quote "").

(** The loop over the fields of a record. *)
Fixpoint fieldLoop (i : nat) (record : list string) (csvContent : string) : string :=
  match record with
  | [] => csvContent
  | field :: rest =>
    let csvContent := if (0 <? i)%nat then csvContent +:+ "," else csvContent in
    let csvContent := csvContent +:+ quoted field in
    fieldLoop (S i) rest csvContent
  end.

(** The loop over the records. *)
Fixpoint recordLoop (records : list (list string)) (csvContent : string) : string :=
  match records with
  | [] => csvContent
  | record :: rest =>
    let csvContent := fieldLoop 0 record csvContent in
    let csvContent := csvContent +:+ String "010"%char "" in
    recordLoop rest csvContent
  end.

(** The loop over the hosts. *)
Fixpoint hostLoop (hosts : list models.Host.t) (records : list (list string))
  : list (list string) :=
  match hosts with
  | [] => records
  | host :: rest =>
    hostLoop rest
      (records ++ [[models.Host.IPAddress host;
                    models.Host.Hostname host;
                    models.Host.Status host;
                    models.Host.OS host;
                    Go.Itoa (models.Host.OSConfidence host)]])
  end.

(** The records [CSVFormatter.Format] builds. *)
Definition csvRecords (result : scanner.ScanResult.t) : list (list string) :=
  let records :=
    [["Target"; "Scanner"; "Status"; "Start Time"; "End Time"; "Duration"; "Host Count"];
     [scanner.ScanResult.Target result;
      scanner.ScanResult.Scanner result;
      scanner.ScanResult.Status result;
      scanner.ScanResult.StartTime result;
      scanner.ScanResult.EndTime result;
      scanner.ScanResult.Duration result;
      Go.Itoa (Z.of_nat (length (scanner.ScanResult.Hosts result)))]] in
  if (0 <? length (scanner.ScanResult.Hosts result))%nat
  then
    let records := records ++ [[]] in
    let records :=
      records ++ [["IP Address"; "Hostname"; "Status"; "OS"; "OS Confidence"]] in
    hostLoop (scanner.ScanResult.Hosts result) records
  else records.

Section Formatters.
Context {encoders : Encoders}.

Definition JSONFormatter : Formatter :=
  {| Format := fun result => rt.ret (json_MarshalIndent result);
     GetMimeType := "application/json";
     GetFileExtension := "json" |}.

Definition XMLFormatter : Formatter :=
  {| Format := fun result => rt.ret (xml_MarshalIndent result);
     GetMimeType := "application/xml";
     GetFileExtension := "xml" |}.

Definition CSVFormatter : Formatter :=
  {| Format := fun result => rt.ret (recordLoop (csvRecords result) "", None);
     GetMimeType := "text/csv";
     GetFileExtension := "csv" |}.

Definition HTMLFormatter : Formatter :=
  {| Format := fun result =>
       match template_Parse with
       | Some err => rt.ret ("", Some (rt.Errorf_w "failed to parse HTML template: " err))
       | None =>
         now <- rt.time_Now ;;
         let '(output, err) := template_Execute result (Format_DateTime now) in
         match err with
         | Some err =>
           rt.ret ("", Some (rt.Errorf_w "failed to execute HTML template: " err))
         | None => rt.ret (output, None)
         end
       end;
     GetMimeType := "text/html";
     GetFileExtension := "html" |}.

(** A Go map field is [None] when nil, as in the scanner manager. *)
Record FormatterManager := { formatters : option (gmap string Formatter) }.

(** [RegisterFormatter]; [None] is the panic of a write to a nil map. *)
Definition RegisterFormatter (fm : FormatterManager) (name : string) (formatter : Formatter)
  : option FormatterManager :=
  match formatters fm with
  | None => None
  | Some m => Some {| formatters := Some (<[name := formatter]> m) |}
  end.

Definition NewFormatterManager : option FormatterManager :=
  let fm := {| formatters := Some ∅ |} in
  fm ← RegisterFormatter fm "json" JSONFormatter;
  fm ← RegisterFormatter fm "xml" XMLFormatter;
  fm ← RegisterFormatter fm "csv" CSVFormatter;
  fm ← RegisterFormatter fm "html" HTMLFormatter;
  Some fm.

Definition GetFormatter (fm : FormatterManager) (name : string) : option Formatter * bool :=
  match formatters fm with
  | None => (None, false)
  | Some m =>
    match m !! name with
    | Some formatter => (Some formatter, true)
    | None => (None, false)
    end
  end.

Definition ListFormatters (fm : FormatterManager) : rt.M (list string) :=
  match formatters fm with
  | None => rt.ret []
  | Some m => fun w => (rt.rangeOrder w _ (map_to_list m).*1, w)
  end.

(** [%v] of a slice of strings: the elements between brackets, a space
    between two of them. *)
Definition Sprint_strings (l : list string) : string :=
  "[" +:+ PortGrammar.joinWith " " l +:+ "]".

(** [FormatAndSave]: the error it returns, and the world and the files
    after it. *)
Definition FormatAndSave (fm : FormatterManager) (result : scanner.ScanResult.t)
  (format filename : string) (w : rt.World) (fs : os.FileSystem)
  : option rt.error * rt.World * os.FileSystem :=
  match GetFormatter fm format with
  | (Some formatter, true) =>
    let '((data, err), w) := Format formatter result w in
    match err with
    | Some err => (Some (rt.Errorf_w "failed to format output: " err), w, fs)
    | None =>
      let '(err, fs) := os.Create filename fs in
      match err with
      | Some err => (Some (rt.Errorf_w "failed to create file: " err), w, fs)
      | None =>
        let '((_, err), fs) := os.Write filename data fs in
        match err with
        | Some err => (Some (rt.Errorf_w "failed to write file: " err), w, fs)
        | None => (None, w, fs)
        end
      end
    end
  | _ =>
    let '(names, w) := ListFormatters fm w in
    (Some (rt.errorString ("formatter '" +:+ format
                           +:+ "' not available. Available formatters: "
                           +:+ Sprint_strings names)), w, fs)
  end.

End Formatters.

End output.

(** ** The comma-separated report, in words *)

Module OutputSpec.

(** What of a host and of a result the report shows. *)
Definition hostRow (host : models.Host.t) : list string * Z :=
  ([models.Host.IPAddress host; models.Host.Hostname host;
    models.Host.Status host; models.Host.OS host],
   models.Host.OSConfidence host).

Definition summary (result : scanner.ScanResult.t) : list string :=
  [scanner.ScanResult.Target result; scanner.ScanResult.Scanner result;
   scanner.ScanResult.Status result; scanner.ScanResult.StartTime result;
   scanner.ScanResult.EndTime result; scanner.ScanResult.Duration result].

Definition exported (result : scanner.ScanResult.t) : list string * list (list string * Z) :=
  (summary result, hostRow <$> scanner.ScanResult.Hosts result).

(** No text shown holds a double quote. *)
Definition quoteFree (s : string) : bool := PortGrammar.noByte output.quote s.

Definition cleanHost (host : models.Host.t) : bool := forallb quoteFree (hostRow host).1.

Definition clean (result : scanner.ScanResult.t) : bool :=
  forallb quoteFree (summary result) && forallb cleanHost (scanner.ScanResult.Hosts result).

(** A field between quotes, then the text [k]. *)
Definition cell (field k : string) : string :=
  String output.quote (field +:+ String output.quote k).

(** The fields after the first, each behind a comma, then [k]. *)
Fixpoint tailText (record : list string) (k : string) : string :=
  match record with
  | [] => k
  | field :: rest => String "," (cell field (tailText rest k))
  end.

(** A record on its line, then [k]. *)
Definition rowText (record : list string) (k : string) : string :=
  match record with
  | [] => String "010"%char k
  | field :: rest => cell field (tailText rest (String "010"%char k))
  end.

Definition render (records : list (list string)) : string :=
  fold_right rowText "" records.

(** The record of a host. *)
Definition hostRecord (host : models.Host.t) : list string :=
  [models.Host.IPAddress host; models.Host.Hostname host;
   models.Host.Status host; models.Host.OS host;
   Go.Itoa (models.Host.OSConfidence host)].

(** A result with another target and scanner name. *)
Definition retitled (result : scanner.ScanResult.t) (target name : string)
  : scanner.ScanResult.t :=
  {| scanner.ScanResult.Target := target;
     scanner.ScanResult.Scanner := name;
     scanner.ScanResult.Status := scanner.ScanResult.Status result;
     scanner.ScanResult.StartTime := scanner.ScanResult.StartTime result;
     scanner.ScanResult.EndTime := scanner.ScanResult.EndTime result;
     scanner.ScanResult.Duration := scanner.ScanResult.Duration result;
     scanner.ScanResult.Hosts := scanner.ScanResult.Hosts result;
     scanner.ScanResult.RawOutput := scanner.ScanResult.RawOutput result;
     scanner.ScanResult.Error := scanner.ScanResult.Error result |}.

(** The text between two neighbouring fields: quote, comma, quote. *)
Definition seam : string := String output.quote (String "," (String output.quote "")).

(** The names of the formatters every manager starts with. *)
Definition defaultNames : list string := ["json"; "xml"; "csv"; "html"].

End OutputSpec.

(** ** Results and files to format *)

Module OutputExamples.

(** Encoders that fail: the examples use the comma-separated report. *)
#[global] Instance encoders : output.Encoders :=
  {| output.json_MarshalIndent := fun _ => ("", Some (rt.errorString "json: unsupported"));
     output.xml_MarshalIndent := fun _ => ("", Some (rt.errorString "xml: unsupported"));
     output.template_Parse := Some (rt.errorString "template: unsupported");
     output.template_Execute := fun _ _ => ("", Some (rt.errorString "template: unsupported"));
     output.Format_DateTime := Go.Itoa |}.

Definition scanOf (hosts : list models.Host.t) (rawOutput : string) : scanner.ScanResult.t :=
  {| scanner.ScanResult.Target := "10.0.0.5";
     scanner.ScanResult.Scanner := "nmap";
     scanner.ScanResult.Status := "completed";
     scanner.ScanResult.StartTime := "2024-01-01T00:00:00Z";
     scanner.ScanResult.EndTime := "2024-01-01T00:00:02Z";
     scanner.ScanResult.Duration := "2s";
     scanner.ScanResult.Hosts := hosts;
     scanner.ScanResult.RawOutput := rawOutput;
     scanner.ScanResult.Error := "" |}.

(** A disk holding an older report, on which nothing fails. *)
Definition disk : os.FileSystem :=
  {| os.files := {["report.csv" := "old report"; "notes.txt" := "keep"]};
     os.createError := fun _ => None;
     os.writeError := fun _ _ => None |}.

(** The same disk, full after the first ten bytes of a write. *)
Definition fullDisk : os.FileSystem :=
  {| os.files := os.files disk;
     os.createError := fun _ => None;
     os.writeError := fun _ _ => Some (10%nat, rt.errorString "no space left on device") |}.

End OutputExamples.

(** * Properties *)

#[local] Arguments String.append !s1 s2 : simpl nomatch.

(** ** The library functions on concrete values *)

Module Checks.

Example TrimSpace_both_ends :
  Go.TrimSpace (String "009" " {x} " +:+ String "013" (String "010" "")) = "{x}".
Proof. reflexivity. Qed.

(** U+00A0, a no-break space, is white space for [TrimSpace] and
    [Fields]. *)
Example TrimSpace_no_break_space :
  Go.TrimSpace (String (json.chr 194) (String (json.chr 160) "ab")) = "ab".
Proof. reflexivity. Qed.

Example Fields_runs_of_space : Go.Fields "  -sS   --open -Pn " = ["-sS"; "--open"; "-Pn"].
Proof. reflexivity. Qed.

Example Split_keeps_empty_pieces : Go.Split ",80,,443" "," = [""; "80"; ""; "443"].
Proof. reflexivity. Qed.

Example Split_empty : Go.Split "" "," = [""].
Proof. reflexivity. Qed.

Example Atoi_values :
  Go.Atoi "5" = inl 5 /\ Go.Atoi "-1" = inl (-1) /\ Go.Atoi "+3" = inl 3
  /\ Go.Atoi "007" = inl 7 /\ Go.Atoi "" = inr Go.ErrSyntax
  /\ Go.Atoi "4 " = inr Go.ErrSyntax /\ Go.Atoi "-" = inr Go.ErrSyntax
  /\ Go.Atoi "9223372036854775807" = inl Go.maxInt
  /\ Go.Atoi "9223372036854775808" = inr Go.ErrRange.
Proof. repeat split. Qed.

Example Itoa_values : Go.Itoa 1000 = "1000" /\ Go.Itoa 0 = "0" /\ Go.Itoa (-12) = "-12".
Proof. repeat split. Qed.

Example portRegex_matches :
  Regexp.MatchString Regexp.portRegex "22,80,8000-8100" = true
  /\ Regexp.MatchString Regexp.portRegex "80" = true
  /\ Regexp.MatchString Regexp.portRegex "" = false
  /\ Regexp.MatchString Regexp.portRegex "abc" = false
  /\ Regexp.MatchString Regexp.portRegex "80-" = false
  /\ Regexp.MatchString Regexp.portRegex ",80" = false
  /\ Regexp.MatchString Regexp.portRegex "80,443 " = false
  /\ Regexp.MatchString Regexp.portRegex "1-2-3" = false.
Proof. repeat split. Qed.

Example nmap_args :
  nmap.buildArgs "10.0.0.5" (Examples.config "80,443" "4" " -sS  --open" 0)
  = ["-oX"; "-"; "-p"; "80,443"; "-T4"; "-sV"; "-O"; "-sS"; "--open"; "10.0.0.5"].
Proof. reflexivity. Qed.

Example masscan_args :
  masscan.buildArgs "10.0.0.0/24" (Examples.config "80,443" "" "--banners" 5000)
  = ["10.0.0.0/24"; "-p"; "80,443"; "--rate"; "5000"; "--output-format"; "json"; "--banners"]
  /\ masscan.buildArgs "10.0.0.0/24" (Examples.config "80,443" "" "" 0)
     = ["10.0.0.0/24"; "-p"; "80,443"; "--rate"; "1000"; "--output-format"; "json"].
Proof. split; reflexivity. Qed.

(** The JSON decoder on lines of the shapes masscan prints. *)
Example json_record :
  json.Unmarshal
    (Examples.jsonText
       "{ 'ip': '10.0.0.1', 'timestamp': '1700000000', 'ports': [ {'port': 80, 'proto': 'tcp', 'status': 'open', 'reason': 'syn-ack', 'ttl': 64} ] }")
  = inl {| masscan.MasscanResult.IP := "10.0.0.1";
           masscan.MasscanResult.Timestamp := "1700000000";
           masscan.MasscanResult.Ports := [Examples.synAck 80] |}.
Proof. reflexivity. Qed.

Example json_rejects :
  match json.Unmarshal "[" with inr _ => True | inl _ => False end
  /\ match json.Unmarshal (Examples.jsonText "{'ip': '10.0.0.1'},") with
     | inr _ => True | inl _ => False end
  /\ match json.Unmarshal (Examples.jsonText "{'ip': 7}") with
     | inr _ => True | inl _ => False end
  /\ match json.Unmarshal (Examples.jsonText "{'ports': [{'port': 80.5}]}") with
     | inr _ => True | inl _ => False end
  /\ match json.Unmarshal "not json at all" with inr _ => True | inl _ => False end.
Proof. repeat split. Qed.

(** Keys match the field tags whatever their case; other keys are
    skipped. *)
Example json_key_case :
  json.Unmarshal (Examples.jsonText "{'IP': '10.0.0.9', 'extra': [1, {'a': null}]}")
  = inl {| masscan.MasscanResult.IP := "10.0.0.9";
           masscan.MasscanResult.Timestamp := "";
           masscan.MasscanResult.Ports := [] |}.
Proof. reflexivity. Qed.

(** The XML decoder on the router document: both addresses, the port and
    the OS match are there, in document order. *)
Example xml_router :
  match xml.Unmarshal Examples.routerDocument with
  | inl run =>
    match nmap.NmapRun.Hosts run with
    | [node] =>
      nmap.NmapHost.Address node
      = [{| nmap.NmapAddress.Addr := "00:11:22:33:44:55"; nmap.NmapAddress.AddrType := "mac" |};
         {| nmap.NmapAddress.Addr := "10.0.0.5"; nmap.NmapAddress.AddrType := "ipv4" |}]
      /\ length (nmap.NmapPorts.Ports (nmap.NmapHost.Ports node)) = 1%nat
      /\ Examples.describesRouter node
    | _ => False
    end
  | inr _ => False
  end.
Proof. vm_compute. repeat split. Qed.

End Checks.


(** ** Regular expressions: the matcher decides the language *)

Module RegexpFacts.
Import Regexp.

Lemma app_nil_inv (s1 s2 : string) : s1 +:+ s2 = "" -> s1 = "" /\ s2 = "".
Proof. destruct s1; simpl; [tauto | discriminate]. Qed.

Lemma app_assoc (s1 s2 s3 : string) : (s1 +:+ s2) +:+ s3 = s1 +:+ (s2 +:+ s3).
Proof. induction s1; simpl; congruence. Qed.

Lemma app_nil_r (s : string) : s +:+ "" = s.
Proof. induction s; simpl; congruence. Qed.

Lemma lang_cat_inv (r1 r2 : regex) (s : string) :
  lang (Cat r1 r2) s -> exists s1 s2, s = s1 +:+ s2 /\ lang r1 s1 /\ lang r2 s2.
Proof. intros H. inversion H; subst. eauto. Qed.

Lemma lang_alt_inv (r1 r2 : regex) (s : string) :
  lang (Alt r1 r2) s -> lang r1 s \/ lang r2 s.
Proof. intros H. inversion H; subst; auto. Qed.

Lemma nullable_lang (r : regex) : nullable r = true <-> lang r "".
Proof.
  induction r; simpl; split; intros H; try discriminate;
    try (inversion H; fail).
  - constructor.
  - reflexivity.
  - apply andb_true_iff in H as [H1 H2].
    change "" with ("" +:+ ""). constructor; [apply IHr1 | apply IHr2]; assumption.
  - apply lang_cat_inv in H as (s1 & s2 & E & L1 & L2).
    symmetry in E. apply app_nil_inv in E as [-> ->].
    apply andb_true_iff; split; [apply IHr1 | apply IHr2]; assumption.
  - apply orb_true_iff in H as [H | H];
      [apply lang_alt_l, IHr1 | apply lang_alt_r, IHr2]; assumption.
  - apply orb_true_iff.
    apply lang_alt_inv in H as [H | H]; [left; apply IHr1 | right; apply IHr2]; assumption.
  - constructor.
  - reflexivity.
Qed.

(** A non-empty string of [Star r] starts with a non-empty string of [r]. *)
Lemma lang_star_inv (r : regex) (s : string) :
  lang (Star r) s ->
  s = "" \/ exists c s1 s2, s = String c (s1 +:+ s2) /\ lang r (String c s1) /\ lang (Star r) s2.
Proof.
  intros H. remember (Star r) as r' eqn:E. induction H; try discriminate.
  - left; reflexivity.
  - injection E as ->. destruct s1 as [| a t1].
    + simpl. apply IHlang2; reflexivity.
    + right. exists a, t1, s2. auto.
Qed.

Lemma deriv_lang (r : regex) : forall a s, lang (deriv a r) s <-> lang r (String a s).
Proof.
  induction r as [| | p | d | r1 IHr1 r2 IHr2 | r1 IHr1 r2 IHr2 | r IHr]; intros a s; simpl.
  - split; intros H; inversion H.
  - split; intros H; inversion H.
  - destruct (p a) eqn:E; split; intros H.
    + inversion H; subst. constructor; assumption.
    + inversion H; subst. constructor.
    + inversion H.
    + inversion H; subst. congruence.
  - destruct (Ascii.eqb_spec a d) as [-> | N]; split; intros H.
    + inversion H; subst. constructor.
    + inversion H; subst. constructor.
    + inversion H.
    + inversion H; subst. congruence.
  - assert (C : lang (Cat (deriv a r1) r2) s -> lang (Cat r1 r2) (String a s)).
    { intros H. apply lang_cat_inv in H as (s1 & s2 & -> & L1 & L2).
      change (String a (s1 +:+ s2)) with (String a s1 +:+ s2).
      constructor; [apply IHr1 |]; assumption. }
    assert (D : lang (Cat r1 r2) (String a s) ->
                lang (Cat (deriv a r1) r2) s \/ (lang r1 "" /\ lang r2 (String a s))).
    { intros H. apply lang_cat_inv in H as (s1 & s2 & E & L1 & L2).
      destruct s1 as [| a1 s1]; simpl in E.
      - right. subst. auto.
      - left. injection E as -> ->. constructor; [apply IHr1 |]; assumption. }
    destruct (nullable r1) eqn:N; split; intros H.
    + apply lang_alt_inv in H as [H | H]; [auto |].
      change (String a s) with ("" +:+ String a s).
      constructor; [apply nullable_lang | apply IHr2]; assumption.
    + destruct (D H) as [H' | [_ H']]; [apply lang_alt_l | apply lang_alt_r, IHr2]; assumption.
    + auto.
    + destruct (D H) as [H' | [H' _]]; [assumption |].
      apply nullable_lang in H'. congruence.
  - split; intros H; apply lang_alt_inv in H as [H | H];
      solve [apply lang_alt_l, IHr1; assumption | apply lang_alt_r, IHr2; assumption].
  - split; intros H.
    + apply lang_cat_inv in H as (s1 & s2 & -> & L1 & L2).
      change (String a (s1 +:+ s2)) with (String a s1 +:+ s2).
      constructor; [apply IHr |]; assumption.
    + apply lang_star_inv in H as [H | (a' & s1 & s2 & E & L1 & L2)]; [discriminate |].
      injection E as -> ->. constructor; [apply IHr |]; assumption.
Qed.

Lemma fullMatch_lang (s : string) : forall r, fullMatch r s = true <-> lang r s.
Proof.
  induction s as [| c s IH]; intros r; simpl.
  - apply nullable_lang.
  - rewrite IH. apply deriv_lang.
Qed.

End RegexpFacts.

(** ** The pattern of the port check and the port grammar agree *)

Module PortGrammarFacts.
Import Regexp RegexpFacts PortGrammar.

Lemma Split_cons (s : string) (sep : ascii) : exists p ps, Go.Split s sep = p :: ps.
Proof.
  induction s as [| c s (p & ps & IH)]; simpl; [eauto |].
  destruct (Ascii.eqb c sep); [eauto |]. rewrite IH. eauto.
Qed.

Lemma joinWith_cons (sep : ascii) (p q : string) (l : list string) :
  joinWith sep (p :: q :: l) = p +:+ String sep (joinWith sep (q :: l)).
Proof. reflexivity. Qed.

Lemma Split_join (sep : ascii) (s : string) : joinWith sep (Go.Split s sep) = s.
Proof.
  induction s as [| c s IH]; simpl; [reflexivity |].
  destruct (Ascii.eqb_spec c sep) as [-> | N].
  - destruct (Split_cons s sep) as (p & ps & E). rewrite E in *.
    rewrite joinWith_cons, IH. reflexivity.
  - destruct (Split_cons s sep) as (p & ps & E). rewrite E in *.
    destruct ps as [| q ps]; simpl in *; congruence.
Qed.

Lemma Split_noByte (sep : ascii) (s : string) :
  noByte sep s = true -> Go.Split s sep = [s].
Proof.
  induction s as [| c s IH]; simpl; [reflexivity |].
  intros [N H]%andb_true_iff. apply negb_true_iff in N. rewrite N, IH; auto.
Qed.

Lemma Split_app (sep : ascii) (a b : string) :
  noByte sep a = true -> Go.Split (a +:+ String sep b) sep = a :: Go.Split b sep.
Proof.
  induction a as [| c a IH]; simpl.
  - intros _. rewrite Ascii.eqb_refl. reflexivity.
  - intros [N H]%andb_true_iff. apply negb_true_iff in N. rewrite N, IH; auto.
Qed.

Lemma noByte_app (c : ascii) (a b : string) :
  noByte c (a +:+ b) = noByte c a && noByte c b.
Proof. induction a as [| x a IH]; simpl; [reflexivity |]. rewrite IH, andb_assoc. reflexivity. Qed.


Lemma allOf_noByte (p : ascii -> bool) (c : ascii) (s : string) :
  p c = false -> allOf p s = true -> noByte c s = true.
Proof.
  intros Hc. induction s as [| x s IH]; simpl; [reflexivity |].
  intros [Hx H]%andb_true_iff. rewrite IH by assumption.
  destruct (Ascii.eqb_spec x c) as [-> | _]; [congruence | reflexivity].
Qed.

Lemma allDigits_allOf (s : string) :
  allDigits s = true <-> s <> "" /\ allOf Go.isDigit s = true.
Proof.
  unfold allDigits. rewrite andb_true_iff, negb_true_iff.
  assert (E : forallb Go.isDigit (list_ascii_of_string s) = allOf Go.isDigit s).
  { induction s as [| x s IH]; simpl; congruence. }
  rewrite E. destruct (String.eqb_spec s ""); intuition congruence.
Qed.

(** [\d*] and [\d+]. *)
Lemma lang_digits_star (s : string) :
  lang (Star (Class Go.isDigit)) s <-> allOf Go.isDigit s = true.
Proof.
  split.
  - intros H. remember (Star (Class Go.isDigit)) as r eqn:E.
    induction H; try discriminate; [reflexivity |].
    injection E as ->. inversion H; subst. simpl.
    rewrite IHlang2 by reflexivity. rewrite andb_true_r. assumption.
  - induction s as [| x s IH]; simpl; [constructor |].
    intros [Hx H]%andb_true_iff.
    change (String x s) with (String x "" +:+ s).
    constructor; [constructor; assumption | auto].
Qed.

Lemma lang_digits_plus (s : string) :
  lang (Plus (Class Go.isDigit)) s <-> allDigits s = true.
Proof.
  rewrite allDigits_allOf. unfold Plus. split.
  - intros (s1 & s2 & -> & L1 & L2)%lang_cat_inv. inversion L1; subst.
    simpl. split; [discriminate |]. apply lang_digits_star in L2.
    rewrite L2, andb_true_r. assumption.
  - intros [N H]. destruct s as [| x s]; [congruence |]. simpl in H.
    apply andb_true_iff in H as [Hx H].
    change (String x s) with (String x "" +:+ s).
    constructor; [constructor; assumption | apply lang_digits_star; assumption].
Qed.

Lemma isDigit_hyphen : Go.isDigit "-" = false.
Proof. reflexivity. Qed.

Lemma isDigit_comma : Go.isDigit "," = false.
Proof. reflexivity. Qed.

(** One item: [\d+(-\d+)?] against "digits, optionally a hyphen and
    digits". *)
Lemma lang_portItem (s : string) : lang portItem s <-> validItem s = true.
Proof.
  unfold portItem, validItem, Quest. split.
  - intros (d1 & t & -> & L1 & L2)%lang_cat_inv.
    apply lang_digits_plus in L1.
    assert (N1 : noByte "-" d1 = true).
    { apply allDigits_allOf in L1 as [_ L1]. eapply allOf_noByte; eauto using isDigit_hyphen. }
    apply lang_alt_inv in L2 as [L2 | L2].
    + apply lang_cat_inv in L2 as (h & d2 & -> & Lh & L2). inversion Lh; subst. simpl.
      apply lang_digits_plus in L2.
      rewrite Split_app by assumption. rewrite Split_noByte.
      * rewrite L1, L2. reflexivity.
      * apply allDigits_allOf in L2 as [_ L2]. eapply allOf_noByte; eauto using isDigit_hyphen.
    + inversion L2; subst. rewrite app_nil_r, Split_noByte by assumption. assumption.
  - intros H. pose proof (Split_join "-" s) as J.
    destruct (Go.Split s "-") as [| lo [| hi [| x l]]]; try discriminate.
    + simpl in J. subst lo. rewrite <- (app_nil_r s).
      constructor; [apply lang_digits_plus; assumption | apply lang_alt_r; constructor].
    + simpl in J. subst s. apply andb_true_iff in H as [H1 H2].
      constructor; [apply lang_digits_plus; assumption |].
      apply lang_alt_l. change (String "-" hi) with (String "-" "" +:+ hi).
      constructor; [constructor | apply lang_digits_plus; assumption].
Qed.

Lemma validItem_noComma (s : string) : validItem s = true -> noByte "," s = true.
Proof.
  unfold validItem. intros H. pose proof (Split_join "-" s) as J.
  destruct (Go.Split s "-") as [| lo [| hi [| x l]]]; try discriminate; simpl in J; subst s.
  - apply allDigits_allOf in H as [_ H]. eapply allOf_noByte; eauto using isDigit_comma.
  - apply andb_true_iff in H as [[_ H1]%allDigits_allOf [_ H2]%allDigits_allOf].
    rewrite noByte_app. simpl.
    rewrite (allOf_noByte _ _ _ isDigit_comma H1), (allOf_noByte _ _ _ isDigit_comma H2).
    reflexivity.
Qed.

Lemma lang_items_Split (rest : string) :
  lang (Star (Cat (Lit ",") portItem)) rest ->
  forall item, validItem item = true ->
  forallb validItem (Go.Split (item +:+ rest) ",") = true.
Proof.
  intros H. remember (Star (Cat (Lit ",") portItem)) as r eqn:E.
  induction H; try discriminate; intros item Hi.
  - rewrite app_nil_r, Split_noByte by (apply validItem_noComma; assumption).
    simpl. rewrite Hi. reflexivity.
  - injection E as ->.
    apply lang_cat_inv in H as (h & item' & -> & Lh & Li). inversion Lh; subst.
    apply lang_portItem in Li. simpl.
    rewrite Split_app by (apply validItem_noComma; assumption).
    simpl. rewrite Hi. simpl. apply IHlang2; auto.
Qed.

Lemma lang_joinWith (item : string) (l : list string) :
  validItem item = true -> forallb validItem l = true ->
  lang portRegex (joinWith "," (item :: l)).
Proof.
  intros Hi Hl. unfold portRegex.
  assert (G : forall l, forallb validItem l = true ->
              lang (Star (Cat (Lit ",") portItem))
                   (match l with [] => "" | _ => String "," (joinWith "," l) end)).
  { clear. induction l as [| i l IH]; [constructor |].
    simpl forallb. intros [Hi Hl]%andb_true_iff. specialize (IH Hl).
    destruct l as [| j l].
    - simpl. rewrite <- (app_nil_r (String "," i)).
      constructor; [| constructor].
      change (String "," i) with (String "," "" +:+ i).
      constructor; [constructor | apply lang_portItem; assumption].
    - rewrite joinWith_cons.
      change (String "," (i +:+ String "," (joinWith "," (j :: l))))
        with ((String "," "" +:+ i) +:+ String "," (joinWith "," (j :: l))).
      constructor; [| exact IH].
      constructor; [constructor | apply lang_portItem; assumption]. }
  specialize (G l Hl). destruct l as [| j l].
  - simpl. rewrite <- (app_nil_r item). constructor; [apply lang_portItem; assumption | exact G].
  - rewrite joinWith_cons. constructor; [apply lang_portItem; assumption | exact G].
Qed.

(** The pattern [^(\d+(-\d+)?)(,\d+(-\d+)?)*$] accepts exactly the strings
    of the grammar. *)
Lemma MatchString_portRegex (s : string) :
  MatchString portRegex s = validPortSpec s.
Proof.
  apply eq_true_iff_eq. unfold MatchString. rewrite fullMatch_lang.
  unfold validPortSpec. split.
  - unfold portRegex. intros (item & rest & -> & Li & Lr)%lang_cat_inv.
    apply lang_items_Split; [assumption | apply lang_portItem; assumption].
  - intros H. rewrite <- (Split_join "," s).
    destruct (Split_cons s ",") as (p & ps & E). rewrite E in *.
    simpl in H. apply andb_true_iff in H as [Hp Hps]. apply lang_joinWith; assumption.
Qed.

Lemma validPortSpec_nonempty (s : string) : validPortSpec s = true -> s <> "".
Proof. intros H ->. discriminate. Qed.

End PortGrammarFacts.

(** ** Configuration checks *)

Module ValidateFacts.
Import PortGrammar PortGrammarFacts.

Lemma eqb_empty (s : string) : String.eqb s "" = true <-> s = "".
Proof. apply String.eqb_eq. Qed.

Lemma nmap_ports_pass (n : nmap.Scanner) (config : scanner.ScanConfig) :
  scanner.Ports config = "" \/ validPortSpec (scanner.Ports config) = true ->
  nmap.ValidateConfig n config =
    if negb (String.eqb (scanner.Timing config) "")
       && match Go.Atoi (scanner.Timing config) with
          | inr _ => true
          | inl timing => (timing <? 0) || (timing >? 5)
          end
    then Some (rt.errorString
                 ("invalid timing template: " +:+ scanner.Timing config +:+ " (must be 0-5)"))
    else None.
Proof.
  intros H. unfold nmap.ValidateConfig. rewrite MatchString_portRegex.
  destruct H as [-> | ->]; [reflexivity |]. rewrite andb_false_r. reflexivity.
Qed.

Lemma nmap_ports_fail (n : nmap.Scanner) (config : scanner.ScanConfig) :
  scanner.Ports config <> "" -> validPortSpec (scanner.Ports config) = false ->
  nmap.ValidateConfig n config =
    Some (rt.errorString ("invalid port format: " +:+ scanner.Ports config)).
Proof.
  intros N H. unfold nmap.ValidateConfig. rewrite MatchString_portRegex, H.
  destruct (String.eqb_spec (scanner.Ports config) ""); [contradiction | reflexivity].
Qed.

(** C6. Port specifications: a string of the grammar (comma-separated
    items, each digits optionally followed by a hyphen and digits) passes
    the port check of both adapters, so that [ValidateConfig] returns no
    error when the other fields are in order, and never the port-format
    error; a non-empty string outside the grammar is rejected by both with
    the port-format error; the empty string is rejected by the high-speed
    adapter and passes the port check of the thorough-probe adapter. *)
Theorem port_spec_validation
  (n : nmap.Scanner) (m : masscan.Scanner) (config : scanner.ScanConfig) :
  let ports := scanner.Ports config in
  let formatError := rt.errorString ("invalid port format: " +:+ ports) in
  (validPortSpec ports = true ->
     (scanner.Timing config = "" -> nmap.ValidateConfig n config = None)
     /\ nmap.ValidateConfig n config <> Some formatError
     /\ (scanner.Threads config <= 100000 -> masscan.ValidateConfig m config = None)
     /\ masscan.ValidateConfig m config <> Some formatError
     /\ masscan.ValidateConfig m config
        <> Some (rt.errorString "ports must be specified for masscan"))
  /\ (ports <> "" -> validPortSpec ports = false ->
      nmap.ValidateConfig n config = Some formatError
      /\ masscan.ValidateConfig m config = Some formatError)
  /\ (ports = "" ->
      masscan.ValidateConfig m config
        = Some (rt.errorString "ports must be specified for masscan")
      /\ (scanner.Timing config = "" -> nmap.ValidateConfig n config = None)
      /\ nmap.ValidateConfig n config <> Some formatError).
Proof.
  intros ports formatError. subst formatError. repeat split.
  - intros T. rewrite nmap_ports_pass by auto. rewrite T. reflexivity.
  - rewrite nmap_ports_pass by auto.
    destruct (_ && _); [simpl; intros [=] | discriminate].
  - intros T. unfold masscan.ValidateConfig. rewrite MatchString_portRegex.
    fold ports. rewrite H. simpl.
    destruct (String.eqb_spec ports "") as [E | _].
    { apply validPortSpec_nonempty in H. contradiction. }
    replace (scanner.Threads config >? 100000) with false.
    + rewrite andb_false_r. reflexivity.
    + symmetry. rewrite Z.gtb_ltb. apply Z.ltb_ge. assumption.
  - unfold masscan.ValidateConfig. rewrite MatchString_portRegex.
    fold ports. rewrite H. simpl.
    destruct (String.eqb_spec ports "") as [E | _].
    { apply validPortSpec_nonempty in H. contradiction. }
    destruct (_ && _); [simpl; intros [=] | discriminate].
  - unfold masscan.ValidateConfig. rewrite MatchString_portRegex.
    fold ports. rewrite H. simpl.
    destruct (String.eqb_spec ports "") as [E | _].
    { apply validPortSpec_nonempty in H. contradiction. }
    destruct (_ && _); [simpl; intros [=] | discriminate].
  - apply nmap_ports_fail; assumption.
  - unfold masscan.ValidateConfig. rewrite MatchString_portRegex.
    fold ports. rewrite H0. simpl.
    destruct (String.eqb_spec ports ""); [contradiction | reflexivity].
  - unfold masscan.ValidateConfig. fold ports. rewrite H. reflexivity.
  - intros T. rewrite nmap_ports_pass by auto. rewrite T. reflexivity.
  - rewrite nmap_ports_pass by auto.
    destruct (_ && _); [fold ports; rewrite H; simpl; intros [=] | discriminate].
Qed.

(** The three cases at "22,80,8000-8100", at "80-" and at the empty
    string. *)
Lemma port_spec_validation_witness :
  (nmap.ValidateConfig Examples.nmapScanner (Examples.config "22,80,8000-8100" "" "" 0) = None
   /\ masscan.ValidateConfig Examples.masscanScanner
        (Examples.config "22,80,8000-8100" "" "" 0) = None)
  /\ (nmap.ValidateConfig Examples.nmapScanner (Examples.config "80-" "" "" 0)
        = Some (rt.errorString "invalid port format: 80-")
      /\ masscan.ValidateConfig Examples.masscanScanner (Examples.config "80-" "" "" 0)
        = Some (rt.errorString "invalid port format: 80-"))
  /\ (masscan.ValidateConfig Examples.masscanScanner (Examples.config "" "" "" 0)
        = Some (rt.errorString "ports must be specified for masscan")
      /\ nmap.ValidateConfig Examples.nmapScanner (Examples.config "" "" "" 0) = None).
Proof.
  split; [| split].
  - destruct (port_spec_validation Examples.nmapScanner Examples.masscanScanner
                (Examples.config "22,80,8000-8100" "" "" 0)) as [H _].
    destruct (H eq_refl) as (H1 & _ & H2 & _).
    split; [apply H1; reflexivity | apply H2; simpl; lia].
  - destruct (port_spec_validation Examples.nmapScanner Examples.masscanScanner
                (Examples.config "80-" "" "" 0)) as (_ & H & _).
    apply H; [discriminate | reflexivity].
  - destruct (port_spec_validation Examples.nmapScanner Examples.masscanScanner
                (Examples.config "" "" "" 0)) as (_ & _ & H).
    destruct (H eq_refl) as (H1 & H2 & _). split; [exact H1 | apply H2; reflexivity].
Defined.

(** The strings the design document names as outside the grammar. *)
Lemma outside_grammar :
  validPortSpec "abc" = false /\ validPortSpec "80-" = false /\ validPortSpec ",80" = false.
Proof. repeat split. Qed.

(** C7. Timing of the thorough-probe adapter: with a port specification
    that passes, a non-empty timing string that parses as an integer in
    0..5 is accepted, and one that does not parse or whose value is below 0
    or above 5 is rejected with the timing error (and with some error
    whatever the ports are); "0" to "5" are accepted, "-1" and "6"
    rejected. *)
Theorem timing_validation (n : nmap.Scanner) (config : scanner.ScanConfig) :
  let timing := scanner.Timing config in
  let ports := scanner.Ports config in
  let timingError :=
    rt.errorString ("invalid timing template: " +:+ timing +:+ " (must be 0-5)") in
  timing <> "" ->
  ((ports = "" \/ validPortSpec ports = true) ->
   (forall t, Go.Atoi timing = inl t -> 0 <= t <= 5 -> nmap.ValidateConfig n config = None)
   /\ (In timing ["0"; "1"; "2"; "3"; "4"; "5"] -> nmap.ValidateConfig n config = None))
  /\ ((forall t, Go.Atoi timing = inl t -> t < 0 \/ t > 5) ->
      nmap.ValidateConfig n config <> None
      /\ ((ports = "" \/ validPortSpec ports = true) ->
          nmap.ValidateConfig n config = Some timingError))
  /\ (In timing ["-1"; "6"] -> nmap.ValidateConfig n config <> None).
Proof.
  intros timing ports timingError N.
  assert (A : forall t, Go.Atoi timing = inl t -> 0 <= t <= 5 ->
              (ports = "" \/ validPortSpec ports = true) ->
              nmap.ValidateConfig n config = None).
  { intros t E R P. rewrite nmap_ports_pass by exact P. fold timing. rewrite E.
    replace (t <? 0) with false by (symmetry; apply Z.ltb_ge; lia).
    replace (t >? 5) with false by (symmetry; rewrite Z.gtb_ltb; apply Z.ltb_ge; lia).
    rewrite andb_false_r. reflexivity. }
  assert (B : (forall t, Go.Atoi timing = inl t -> t < 0 \/ t > 5) ->
              negb (String.eqb timing "")
              && match Go.Atoi timing with
                 | inr _ => true
                 | inl t => (t <? 0) || (t >? 5)
                 end = true).
  { intros R. destruct (String.eqb_spec timing ""); [contradiction |]. simpl.
    destruct (Go.Atoi timing) as [t | e]; [| reflexivity].
    destruct (R t eq_refl) as [L | G].
    - apply Z.ltb_lt in L. rewrite L. reflexivity.
    - apply Z.gt_lt, Z.ltb_lt in G. rewrite Z.gtb_ltb, G. apply orb_true_r. }
  assert (C : (forall t, Go.Atoi timing = inl t -> t < 0 \/ t > 5) ->
              nmap.ValidateConfig n config <> None).
  { intros R. specialize (B R). unfold nmap.ValidateConfig. fold timing.
    destruct (_ && negb (Regexp.MatchString _ _)); [discriminate |].
    rewrite B. discriminate. }
  split; [| split].
  - intros P. split; [intros t E R; eapply A; eauto |].
    intros I. simpl in I.
    destruct I as [E | [E | [E | [E | [E | [E | []]]]]]];
      [apply (A 0) | apply (A 1) | apply (A 2) | apply (A 3) | apply (A 4) | apply (A 5)];
      try rewrite <- E; try reflexivity; try lia; exact P.
  - intros R. split; [exact (C R) |].
    intros P. rewrite nmap_ports_pass by exact P. fold timing. rewrite (B R). reflexivity.
  - intros I. apply C. intros t E. simpl in I.
    destruct I as [I | [I | []]]; rewrite <- I in E; vm_compute in E; injection E as <-; lia.
Qed.

(** Timing "3" with ports "80" is accepted; timing "6" is rejected. *)
Lemma timing_validation_witness :
  nmap.ValidateConfig Examples.nmapScanner (Examples.config "80" "3" "" 0) = None
  /\ nmap.ValidateConfig Examples.nmapScanner (Examples.config "80" "6" "" 0)
     = Some (rt.errorString "invalid timing template: 6 (must be 0-5)").
Proof.
  split.
  - destruct (timing_validation Examples.nmapScanner (Examples.config "80" "3" "" 0))
      as (H & _); [discriminate |].
    destruct H as [H _]; [right; reflexivity |].
    apply (H 3); [reflexivity | simpl; lia].
  - destruct (timing_validation Examples.nmapScanner (Examples.config "80" "6" "" 0))
      as (_ & H & _); [discriminate |].
    destruct H as [_ H].
    + intros t E. vm_compute in E. injection E as <-. right. lia.
    + apply H. right. reflexivity.
Defined.

End ValidateFacts.

(** ** Argument vectors *)

Module ArgsFacts.

Lemma Fields_empty : Go.Fields "" = [].
Proof. reflexivity. Qed.

Lemma extra_args (args : list string) (arguments : string) :
  (if negb (String.eqb arguments "") then args ++ Go.Fields arguments else args)
  = args ++ Go.Fields arguments.
Proof.
  destruct (String.eqb_spec arguments "") as [-> | _]; simpl; [| reflexivity].
  rewrite Fields_empty, app_nil_r. reflexivity.
Qed.

Lemma uuid_New_spawned (w : rt.World) : rt.spawned (rt.uuid_New w).2 = rt.spawned w.
Proof. reflexivity. Qed.

Lemma time_Now_spawned (w : rt.World) : rt.spawned (rt.time_Now w).2 = rt.spawned w.
Proof. reflexivity. Qed.

Lemma nmap_hostLoop_spawned (l : list nmap.NmapHost.t) :
  forall hosts w, rt.spawned (nmap.hostLoop l hosts w).2 = rt.spawned w.
Proof.
  induction l as [| h l IH]; intros hosts w; [reflexivity |].
  cbn [nmap.hostLoop]. unfold rt.bind, nmap.convertHost, rt.bind. simpl.
  rewrite IH. reflexivity.
Qed.

Lemma masscan_portLoop_spawned (id : rt.UUID) (l : list masscan.PortInfo.t) :
  forall w, rt.spawned (masscan.portLoop id l w).2 = rt.spawned w.
Proof.
  induction l as [| p l IH]; intros w; [reflexivity |].
  cbn [masscan.portLoop]. unfold rt.bind, masscan.newPort, rt.bind. simpl.
  specialize (IH (rt.time_Now (rt.uuid_New w).2).2).
  destruct (masscan.portLoop id l _) as [ports w'] eqn:E. simpl in *. exact IH.
Qed.

Section WithLibraries.
Context {xmlDecoder : nmap.XMLDecoder} {jsonDecoder : masscan.JSONDecoder}
  {timeLib : rt.TimeLib}.

Lemma masscan_lineStep_spawned (st : masscan.FoldState) (line : string) (w : rt.World) :
  rt.spawned (masscan.lineStep st line w).2 = rt.spawned w.
Proof.
  unfold masscan.lineStep.
  destruct (String.eqb _ _); [reflexivity |].
  destruct (masscan.json_Unmarshal line) as [result | e]; [| reflexivity].
  unfold rt.bind.
  destruct (masscan.hostMap st !! masscan.MasscanResult.IP result) as [host |]; simpl.
  - pose proof (masscan_portLoop_spawned (models.Host.ID host)
                  (masscan.MasscanResult.Ports result) w) as P.
    destruct (masscan.portLoop _ _ w) as [ports w']. exact P.
  - match goal with |- context [masscan.portLoop ?i ?l ?w0] =>
      pose proof (masscan_portLoop_spawned i l w0) as P;
      destruct (masscan.portLoop i l w0) as [ports w'] end.
    exact P.
Qed.

Lemma masscan_lineLoop_spawned (lines : list string) :
  forall st w, rt.spawned (masscan.lineLoop lines st w).2 = rt.spawned w.
Proof.
  induction lines as [| line lines IH]; intros st w; [reflexivity |].
  cbn [masscan.lineLoop]. unfold rt.bind.
  pose proof (masscan_lineStep_spawned st line w) as P.
  destruct (masscan.lineStep st line w) as [st' w']. rewrite IH. exact P.
Qed.

Lemma nmap_parse_spawned (s : nmap.Scanner) (xmlData : string) (w : rt.World) :
  rt.spawned (nmap.parseNmapXML s xmlData w).2 = rt.spawned w.
Proof.
  unfold nmap.parseNmapXML. destruct (nmap.xml_Unmarshal xmlData); [| reflexivity].
  unfold rt.bind.
  pose proof (nmap_hostLoop_spawned (nmap.NmapRun.Hosts t) [] w) as P.
  destruct (nmap.hostLoop _ _ w) as [hosts w']. exact P.
Qed.

Lemma masscan_parse_spawned (s : masscan.Scanner) (jsonData : string) (w : rt.World) :
  rt.spawned (masscan.parseMasscanJSON s jsonData w).2 = rt.spawned w.
Proof.
  unfold masscan.parseMasscanJSON, rt.bind.
  pose proof (masscan_lineLoop_spawned (masscan.splitLines jsonData)
                {| masscan.hostMap := ∅; masscan.dropped := [] |} w) as P.
  destruct (masscan.lineLoop _ _ w) as [st w']. exact P.
Qed.

(** C4. Argument vectors: the thorough-probe adapter builds "-oX", "-",
    then "-p" and the ports when ports are set, then "-T" joined to the
    timing when timing is set, then "-sV", "-O", then the fields of the
    extra arguments, then the target; the high-speed adapter builds the
    target, "-p" and the ports, "--rate" and the thread count (1000 when it
    is not positive), "--output-format", "json", then the fields of the
    extra arguments.  A scan with a configuration that passes the check
    runs the adapter's program once, with exactly this vector; a scan with
    one that does not runs nothing. *)
Theorem argument_vector_template
  (n : nmap.Scanner) (m : masscan.Scanner) (ctx : rt.Context)
  (target : string) (config : scanner.ScanConfig) (w : rt.World) :
  let ports := scanner.Ports config in
  let timing := scanner.Timing config in
  let threads := scanner.Threads config in
  let extra := Go.Fields (scanner.Arguments config) in
  nmap.buildArgs target config
    = ["-oX"; "-"]
      ++ (if decide (ports = "") then [] else ["-p"; ports])
      ++ (if decide (timing = "") then [] else ["-T" +:+ timing])
      ++ ["-sV"; "-O"] ++ extra ++ [target]
  /\ masscan.buildArgs target config
    = [target; "-p"; ports; "--rate"; if decide (0 < threads) then Go.Itoa threads else "1000";
       "--output-format"; "json"] ++ extra
  /\ rt.spawned (nmap.Scan n ctx target config w).2
    = rt.spawned w
      ++ match nmap.ValidateConfig n config with
         | None => [(nmap.path n, nmap.buildArgs target config)]
         | Some _ => []
         end
  /\ rt.spawned (masscan.Scan m ctx target config w).2
    = rt.spawned w
      ++ match masscan.ValidateConfig m config with
         | None => [(masscan.path m, masscan.buildArgs target config)]
         | Some _ => []
         end.
Proof.
  intros ports timing threads extra. repeat split.
  - unfold nmap.buildArgs. rewrite extra_args. fold ports timing extra.
    destruct (String.eqb_spec ports ""), (String.eqb_spec timing ""); simpl;
      repeat case_decide; try contradiction; rewrite <- ?app_assoc; reflexivity.
  - unfold masscan.buildArgs. rewrite extra_args. fold ports threads extra.
    rewrite Z.gtb_ltb.
    destruct (Z.ltb_spec 0 threads); case_decide; try lia; reflexivity.
  - unfold nmap.Scan.
    destruct (nmap.ValidateConfig n config); [simpl; rewrite app_nil_r; reflexivity |].
    unfold rt.bind. simpl.
    destruct (rt.cmdOutput w ctx (nmap.path n) (nmap.buildArgs target config))
      as [output [err |]]; [reflexivity |]. simpl.
    match goal with |- context [nmap.parseNmapXML n output ?w0] =>
      pose proof (nmap_parse_spawned n output w0) as P;
      destruct (nmap.parseNmapXML n output w0) as [[hosts parseErr] w'] end.
    exact P.
  - unfold masscan.Scan.
    destruct (masscan.ValidateConfig m config); [simpl; rewrite app_nil_r; reflexivity |].
    unfold rt.bind. simpl.
    destruct (rt.cmdOutput w ctx (masscan.path m) (masscan.buildArgs target config))
      as [output [err |]]; [reflexivity |]. simpl.
    match goal with |- context [masscan.parseMasscanJSON m output ?w0] =>
      pose proof (masscan_parse_spawned m output w0) as P;
      destruct (masscan.parseMasscanJSON m output w0) as [[hosts parseErr] w'] end.
    exact P.
Qed.

End WithLibraries.

End ArgsFacts.

(** ** The scanner registry *)

Module RegistryFacts.
Import RegistrySpec.

Lemma registerAll_lookup (l : list scanner.Scanner) :
  forall (m0 : gmap string scanner.Scanner),
  exists m, scanner.registerAll {| scanner.scanners := Some m0 |} l
            = Some {| scanner.scanners := Some m |}
    /\ forall name, m !! name = match lastNamed name l with
                                | Some s => Some s
                                | None => m0 !! name
                                end.
Proof.
  induction l as [| s l IH]; intros m0.
  - exists m0. split; [reflexivity | intros name; reflexivity].
  - cbn [scanner.registerAll]. unfold scanner.RegisterScanner. cbn [scanner.scanners].
    destruct (IH (<[scanner.GetName s := s]> m0)) as (m & E & L).
    exists m. split; [exact E |]. intros name. rewrite L. cbn [lastNamed].
    destruct (lastNamed name l); [reflexivity |].
    destruct (String.eqb_spec (scanner.GetName s) name) as [<- | N].
    + apply lookup_insert_eq.
    + apply lookup_insert_ne. exact N.
Qed.

(** C9. Registry: a run of registrations on a new manager never panics;
    afterwards the lookup of a name finds the adapter registered last
    under it, with found = true, and reports found = false (and nothing
    else) for a name no adapter was registered under; registering a second
    adapter under a taken name leaves the manager as if only the second had
    been registered. *)
Theorem registry_last_write_wins (l : list scanner.Scanner) (name : string) :
  (exists sm, scanner.registerAll scanner.NewScannerManager l = Some sm
     /\ scanner.GetScanner sm name
        = match lastNamed name l with
          | Some s => (Some s, true)
          | None => (None, false)
          end)
  /\ (forall (m0 : gmap string scanner.Scanner) (a b : scanner.Scanner),
        scanner.GetName a = scanner.GetName b ->
        scanner.registerAll {| scanner.scanners := Some m0 |} [a; b]
        = scanner.registerAll {| scanner.scanners := Some m0 |} [b])
  /\ scanner.GetScanner scanner.NewScannerManager name = (None, false).
Proof.
  split; [| split].
  - destruct (registerAll_lookup l ∅) as (m & E & L).
    exists {| scanner.scanners := Some m |}. split; [exact E |].
    unfold scanner.GetScanner. cbn [scanner.scanners]. rewrite L.
    destruct (lastNamed name l); [reflexivity |]. rewrite lookup_empty. reflexivity.
  - intros m0 a b E. cbn [scanner.registerAll]. unfold scanner.RegisterScanner.
    cbn [scanner.scanners]. rewrite E, insert_insert_eq. reflexivity.
  - reflexivity.
Qed.

(** Two nmap adapters, found at different paths, registered one after
    the other. *)
Lemma registry_last_write_wins_witness :
  let a := nmap.asScanner Examples.nmapScanner in
  let b := nmap.asScanner Examples.nmapScanner' in
  (exists sm, scanner.registerAll scanner.NewScannerManager [a; b] = Some sm
     /\ scanner.GetScanner sm "nmap" = (Some b, true))
  /\ scanner.registerAll scanner.NewScannerManager [a; b]
     = scanner.registerAll scanner.NewScannerManager [b].
Proof.
  intros a b.
  destruct (registry_last_write_wins [a; b] "nmap") as (H1 & H2 & _).
  split; [exact H1 |]. apply (H2 ∅ a b). reflexivity.
Defined.

End RegistryFacts.

(** ** The line-oriented parser of the high-speed adapter *)

Module MasscanFacts.
Import MasscanSpec.

Section WithLibraries.
Context {jsonDecoder : masscan.JSONDecoder} {timeLib : rt.TimeLib}.

Lemma lineStep_skip (st : masscan.FoldState) (line : string) (w : rt.World) :
  decoded line = None -> masscan.lineStep st line w = (st, w).
Proof.
  unfold decoded, masscan.lineStep. destruct (String.eqb _ _); [reflexivity |].
  destruct (masscan.json_Unmarshal line); [discriminate | reflexivity].
Qed.

Lemma lineStep_record (st : masscan.FoldState) (line : string) (w : rt.World)
  (result : masscan.MasscanResult.t) :
  decoded line = Some result ->
  masscan.lineStep st line w =
    (found <-
       match masscan.hostMap st !! masscan.MasscanResult.IP result with
       | Some host => rt.ret (host, masscan.hostMap st)
       | None =>
         id <- rt.uuid_New ;;
         now <- rt.time_Now ;;
         let host :=
           {| models.Host.ID := id;
              models.Host.ScanID := 0%N;
              models.Host.IPAddress := masscan.MasscanResult.IP result;
              models.Host.Hostname := "";
              models.Host.Status := "up";
              models.Host.OS := "";
              models.Host.OSConfidence := 0;
              models.Host.CreatedAt := now |} in
         rt.ret (host, <[masscan.MasscanResult.IP result := host]> (masscan.hostMap st))
       end ;;
     let '(host, hostMap') := found in
     ports <- masscan.portLoop (models.Host.ID host) (masscan.MasscanResult.Ports result) ;;
     rt.ret {| masscan.hostMap := hostMap'; masscan.dropped := masscan.dropped st ++ ports |}) w.
Proof.
  unfold decoded, masscan.lineStep. destruct (String.eqb _ _); [discriminate |].
  destruct (masscan.json_Unmarshal line); [| discriminate]. intros E; injection E as ->. reflexivity.
Qed.

(** Blank and undecodable lines leave no trace: the loop over all the
    lines is the loop over the lines that count. *)
Lemma lineLoop_filter (lines : list string) :
  forall st w,
  masscan.lineLoop lines st w = masscan.lineLoop (List.filter valid lines) st w.
Proof.
  induction lines as [| line lines IH]; intros st w; [reflexivity |].
  cbn [masscan.lineLoop List.filter]. unfold valid at 1.
  destruct (decoded line) as [r |] eqn:E.
  - cbn [masscan.lineLoop]. unfold rt.bind.
    destruct (masscan.lineStep st line w) as [st' w']. apply IH.
  - unfold rt.bind. rewrite lineStep_skip by exact E. apply IH.
Qed.

Lemma portLoop_builtFor (host : models.Host.t) (entries : list masscan.PortInfo.t) :
  forall w, Forall2 (builtFor host) entries
                    (masscan.portLoop (models.Host.ID host) entries w).1.
Proof.
  induction entries as [| e entries IH]; intros w; [constructor |].
  cbn [masscan.portLoop]. unfold rt.bind, masscan.newPort, rt.bind. simpl.
  specialize (IH (rt.time_Now (rt.uuid_New w).2).2).
  destruct (masscan.portLoop _ entries _) as [ports w'] eqn:E. simpl in *.
  constructor; [repeat split | exact IH].
Qed.

Lemma owned_mono (m m' : gmap string models.Host.t) entry port :
  m ⊆ m' -> owned m entry port -> owned m' entry port.
Proof.
  intros S (host & L & B). exists host. split; [| exact B].
  eapply lookup_weaken; eauto.
Qed.

Lemma lineStep_spec (st : masscan.FoldState) (line : string) (w : rt.World)
  (result : masscan.MasscanResult.t) :
  decoded line = Some result ->
  keyed (masscan.hostMap st) ->
  let st' := (masscan.lineStep st line w).1 in
  keyed (masscan.hostMap st')
  /\ masscan.hostMap st ⊆ masscan.hostMap st'
  /\ dom (masscan.hostMap st')
     = dom (masscan.hostMap st) ∪ {[masscan.MasscanResult.IP result]}
  /\ exists ports,
       masscan.dropped st' = masscan.dropped st ++ ports
       /\ Forall2 (owned (masscan.hostMap st'))
                  (map (fun p => (masscan.MasscanResult.IP result, p))
                       (masscan.MasscanResult.Ports result))
                  ports.
Proof.
  intros E K. rewrite (lineStep_record _ _ _ _ E). unfold rt.bind.
  destruct (masscan.hostMap st !! masscan.MasscanResult.IP result) as [host |] eqn:L.
  - cbn [rt.ret].
    pose proof (portLoop_builtFor host (masscan.MasscanResult.Ports result) w) as B.
    destruct (masscan.portLoop _ _ w) as [ports w']. simpl in *.
    split; [exact K |]. split; [reflexivity |]. split.
    + apply elem_of_dom_2 in L. set_solver.
    + exists ports. split; [reflexivity |].
      apply Forall2_fmap_l. eapply Forall2_impl; [exact B |].
      intros e p Bp. exists host. simpl. auto.
  - simpl.
    match goal with |- context [<[_ := ?h]> _] => set (host := h) in * end.
    match goal with |- context [masscan.portLoop ?i ?l ?w0] =>
      pose proof (portLoop_builtFor host l w0) as B;
      change (models.Host.ID host) with i in B;
      destruct (masscan.portLoop i l w0) as [ports w'] end.
    simpl in *. split; [| split; [| split]].
    + intros ip h. rewrite lookup_insert. case_decide as D.
      * intros [= <-]. subst ip. split; reflexivity.
      * apply K.
    + apply insert_subseteq. exact L.
    + rewrite dom_insert_L. set_solver.
    + exists ports. split; [reflexivity |].
      apply Forall2_fmap_l. eapply Forall2_impl; [exact B |].
      intros e p Bp. exists host. simpl. split; [apply lookup_insert_eq | exact Bp].
Qed.

Lemma records_cons (line : string) (lines : list string) :
  records (line :: lines)
  = match decoded line with Some r => r :: records lines | None => records lines end.
Proof. unfold records. simpl. destruct (decoded line); reflexivity. Qed.

Lemma portEntries_cons (line : string) (lines : list string) :
  portEntries (line :: lines)
  = match decoded line with
    | Some r => map (fun p => (masscan.MasscanResult.IP r, p)) (masscan.MasscanResult.Ports r)
                ++ portEntries lines
    | None => portEntries lines
    end.
Proof. unfold portEntries. rewrite records_cons. destruct (decoded line); reflexivity. Qed.

Lemma lineLoop_spec (lines : list string) :
  forall st w,
  keyed (masscan.hostMap st) ->
  let st' := (masscan.lineLoop lines st w).1 in
  keyed (masscan.hostMap st')
  /\ masscan.hostMap st ⊆ masscan.hostMap st'
  /\ dom (masscan.hostMap st')
     = dom (masscan.hostMap st)
       ∪ list_to_set (masscan.MasscanResult.IP <$> records lines)
  /\ exists ports,
       masscan.dropped st' = masscan.dropped st ++ ports
       /\ Forall2 (owned (masscan.hostMap st')) (portEntries lines) ports.
Proof.
  induction lines as [| line lines IH]; intros st w K.
  - simpl. split; [exact K |]. split; [reflexivity |]. split; [set_solver |].
    exists []. split; [rewrite app_nil_r; reflexivity | constructor].
  - cbn [masscan.lineLoop]. unfold rt.bind.
    destruct (decoded line) as [r |] eqn:E.
    + pose proof (lineStep_spec st line w r E K) as (K1 & S1 & D1 & ports1 & P1 & O1).
      destruct (masscan.lineStep st line w) as [st1 w1]. cbn [fst] in *.
      specialize (IH st1 w1 K1). cbv zeta in IH.
      destruct IH as (K2 & S2 & D2 & ports2 & P2 & O2).
      split; [exact K2 |]. split; [etrans; eauto |]. split.
      * rewrite D2, D1, records_cons, E. simpl. set_solver.
      * exists (ports1 ++ ports2). split; [rewrite P2, P1, app_assoc; reflexivity |].
        rewrite portEntries_cons, E.
        apply Forall2_app; [| exact O2].
        eapply Forall2_impl; [exact O1 |]. intros e p. apply owned_mono. exact S2.
    + rewrite lineStep_skip by exact E.
      rewrite portEntries_cons, records_cons, E. apply IH. exact K.
Qed.

Lemma keyed_start : keyed (masscan.hostMap start).
Proof. intros ip host L. simpl in L. rewrite lookup_empty in L. discriminate. Qed.

Lemma parse_unfold (s : masscan.Scanner) (jsonData : string) (w : rt.World) :
  masscan.parseMasscanJSON s jsonData w
  = let r := masscan.lineLoop (masscan.splitLines jsonData) start w in
    (((rt.rangeOrder r.2 _ (map_to_list (masscan.hostMap r.1))).*2, None), r.2).
Proof.
  unfold masscan.parseMasscanJSON, rt.bind, rt.range_map, rt.ret. fold start.
  destruct (masscan.lineLoop _ start w) as [st w1]. reflexivity.
Qed.

(** The parser never reports an error. *)
Lemma parse_no_error (s : masscan.Scanner) (jsonData : string) (w : rt.World) :
  (masscan.parseMasscanJSON s jsonData w).1.2 = None.
Proof. rewrite parse_unfold. reflexivity. Qed.

(** The hosts returned, whatever the order of the range loop: one for
    each key of the map, under its own address and up. *)
Lemma ranged_hosts (m : gmap string models.Host.t) (w : rt.World) :
  keyed m ->
  let hosts := (rt.rangeOrder w _ (map_to_list m)).*2 in
  NoDup (models.Host.IPAddress <$> hosts)
  /\ (forall ip, ip ∈ (models.Host.IPAddress <$> hosts) <-> ip ∈ dom m)
  /\ (forall host, host ∈ hosts -> models.Host.Status host = "up")
  /\ hosts ≡ₚ (map_to_list m).*2.
Proof.
  intros K hosts. subst hosts.
  pose proof (rt.rangeOrder_perm w _ (map_to_list m)) as P.
  set (entries := rt.rangeOrder w _ (map_to_list m)) in *.
  assert (In_entries : forall ip host, (ip, host) ∈ entries -> m !! ip = Some host).
  { intros ip host I. rewrite P in I. apply elem_of_map_to_list in I. exact I. }
  assert (Keys : models.Host.IPAddress <$> entries.*2 = entries.*1).
  { rewrite <- list_fmap_compose. apply Forall_fmap_ext_1.
    apply Forall_forall. intros [ip host] I. simpl.
    apply (K ip host), In_entries, I. }
  split; [| split; [| split]].
  - rewrite Keys, P. apply NoDup_fst_map_to_list.
  - intros ip. rewrite Keys, P. rewrite elem_of_dom. split.
    + intros ((ip' & host) & -> & I)%list_elem_of_fmap. simpl.
      apply elem_of_map_to_list in I. eauto.
    + intros [host L]. apply list_elem_of_fmap. exists (ip, host).
      split; [reflexivity | apply elem_of_map_to_list; exact L].
  - intros host ((ip & host') & -> & I)%list_elem_of_fmap. simpl.
    apply (K ip host'), In_entries, I.
  - rewrite P. reflexivity.
Qed.

End WithLibraries.

(** C1.  The claim has the fold yield the host for 10.0.0.1 with its two
    port entries attached.  The code, on the two records with ports 80/tcp
    and 443/tcp and the blank line between them: one host, 10.0.0.1 and up,
    and no error; the two ports are built with the ID of that host as
    their host ID, and dropped.  What the parser returns is the very value
    it returns for the same records without port entries, so nothing read
    off it gives the port entries of both inputs; the ports come back only
    from [GetPortsFromJSON], under a host ID the caller supplies.  In
    general, for every decoder and input: no error; the hosts returned are
    those of the map, each under its own address and up, one for each IP
    of a record; and every port entry of every record was built into a
    port whose host ID is the ID of the host the map holds for the IP of
    that record. *)
Theorem ports_built_then_dropped :
  (let w := Examples.world "" None in
   let s := Examples.masscanScanner in
   let out := (masscan.parseMasscanJSON s Examples.twoRecords w).1 in
   let out' := (masscan.parseMasscanJSON s Examples.twoRecordsNoPorts w).1 in
   out = ([Examples.scannedHost], None)
   /\ masscan.dropped (masscan.lineLoop (masscan.splitLines Examples.twoRecords) start w).1
      = [Examples.tcpOpen 1%N 0%N 80 1; Examples.tcpOpen 2%N 0%N 443 2]
   /\ out' = out
   /\ portEntries (masscan.splitLines Examples.twoRecords)
      = [("10.0.0.1", Examples.synAck 80); ("10.0.0.1", Examples.synAck 443)]
   /\ portEntries (masscan.splitLines Examples.twoRecordsNoPorts) = []
   /\ ~ (exists attached : list models.Host.t * option rt.error
                           -> list (string * masscan.PortInfo.t),
          attached out = portEntries (masscan.splitLines Examples.twoRecords)
          /\ attached out' = portEntries (masscan.splitLines Examples.twoRecordsNoPorts))
   /\ (masscan.GetPortsFromJSON s Examples.twoRecords 7%N w).1
      = ([Examples.tcpOpen 0%N 7%N 80 0; Examples.tcpOpen 1%N 7%N 443 1], None))
  /\ forall (jsonDecoder : masscan.JSONDecoder) (s : masscan.Scanner)
       (jsonData : string) (w : rt.World),
     let lines := masscan.splitLines jsonData in
     let st := (masscan.lineLoop lines start w).1 in
     let out := (masscan.parseMasscanJSON s jsonData w).1 in
     out.2 = None
     /\ out.1 ≡ₚ (map_to_list (masscan.hostMap st)).*2
     /\ keyed (masscan.hostMap st)
     /\ dom (masscan.hostMap st)
        = list_to_set (masscan.MasscanResult.IP <$> records lines)
     /\ Forall2 (owned (masscan.hostMap st)) (portEntries lines) (masscan.dropped st).
Proof.
  split.
  - intros w s out out'.
    assert (E1 : out = ([Examples.scannedHost], None)) by (vm_compute; reflexivity).
    assert (E2 : out' = out) by (vm_compute; reflexivity).
    assert (P1 : portEntries (masscan.splitLines Examples.twoRecords)
                 = [("10.0.0.1", Examples.synAck 80); ("10.0.0.1", Examples.synAck 443)])
      by (vm_compute; reflexivity).
    assert (P2 : portEntries (masscan.splitLines Examples.twoRecordsNoPorts) = [])
      by (vm_compute; reflexivity).
    split; [exact E1 |]. split; [vm_compute; reflexivity |]. split; [exact E2 |].
    split; [exact P1 |]. split; [exact P2 |]. split; [| vm_compute; reflexivity].
    intros (attached & A1 & A2). rewrite E2, A1, P1 in A2. rewrite P2 in A2. discriminate.
  - intros jsonDecoder s jsonData w lines st out. subst out st.
    rewrite parse_unfold. cbv zeta. cbn [fst snd]. fold lines.
    pose proof (lineLoop_spec lines start w keyed_start) as (K & _ & D & ports & P & O).
    destruct (masscan.lineLoop lines start w) as [st w1]. cbn [fst snd] in *.
    pose proof (ranged_hosts (masscan.hostMap st) w1 K) as (_ & _ & _ & Perm).
    split; [reflexivity |]. split; [exact Perm |]. split; [exact K |]. split.
    + rewrite D. simpl. set_solver.
    + rewrite P. exact O.
Qed.

End MasscanFacts.

(** ** The markup parser of the thorough-probe adapter *)

Module NmapFacts.
Import NmapSpec.

Lemma addressLoop_spec (addrs : list nmap.NmapAddress.t) (host : models.Host.t) :
  nmap.addressLoop addrs host
  = match List.filter (fun a => String.eqb (nmap.NmapAddress.AddrType a) "ipv4") addrs with
    | a :: _ => nmap.setIPAddress host (nmap.NmapAddress.Addr a)
    | [] => host
    end.
Proof.
  induction addrs as [| a addrs IH]; simpl; [reflexivity |].
  destruct (String.eqb _ _); [reflexivity | exact IH].
Qed.

Lemma convertHost_spec (node : nmap.NmapHost.t) (w : rt.World) :
  (nmap.convertHost node w).1
  = hostOf (rt.uuidSource w (rt.uuidCount w)) (rt.clock w (rt.clockCount w)) node.
Proof.
  unfold nmap.convertHost, rt.bind, hostOf, firstIPv4, firstHostname, firstOS. simpl.
  rewrite addressLoop_spec.
  destruct (List.filter _ _); destruct (nmap.NmapHostnames.Hostnames _);
    destruct (nmap.NmapOS.OSMatches _); reflexivity.
Qed.

Lemma convertHost_world (node : nmap.NmapHost.t) (w : rt.World) :
  (nmap.convertHost node w).2 = (rt.time_Now (rt.uuid_New w).2).2.
Proof. reflexivity. Qed.

Lemma hostLoop_spec (nodes : list nmap.NmapHost.t) :
  forall hosts w,
  (nmap.hostLoop nodes hosts w).1
  = hosts ++ hostsOf (rt.uuidSource w) (rt.clock w) (rt.uuidCount w) (rt.clockCount w) nodes.
Proof.
  induction nodes as [| node nodes IH]; intros hosts w.
  - simpl. rewrite app_nil_r. reflexivity.
  - cbn [nmap.hostLoop hostsOf]. unfold rt.bind.
    pose proof (convertHost_spec node w) as E1.
    pose proof (convertHost_world node w) as E2.
    destruct (nmap.convertHost node w) as [host w1]. cbn [fst snd] in E1, E2.
    rewrite IH, E1, E2, <- app_assoc. reflexivity.
Qed.

Section WithLibraries.
Context {xmlDecoder : nmap.XMLDecoder} {timeLib : rt.TimeLib}.

Lemma parse_decoded (s : nmap.Scanner) (xmlData : string) (w : rt.World)
  (run : nmap.NmapRun.t) :
  nmap.xml_Unmarshal xmlData = inl run ->
  (nmap.parseNmapXML s xmlData w).1
  = (hostsOf (rt.uuidSource w) (rt.clock w) (rt.uuidCount w) (rt.clockCount w)
       (nmap.NmapRun.Hosts run), None).
Proof.
  intros E. unfold nmap.parseNmapXML. rewrite E. unfold rt.bind.
  pose proof (hostLoop_spec (nmap.NmapRun.Hosts run) [] w) as L.
  destruct (nmap.hostLoop _ [] w) as [hosts w1]. cbn [fst] in *. rewrite L. reflexivity.
Qed.

Lemma parse_failed (s : nmap.Scanner) (xmlData : string) (w : rt.World) (err : rt.error) :
  nmap.xml_Unmarshal xmlData = inr err ->
  nmap.parseNmapXML s xmlData w
  = (([], Some (rt.Errorf_w "failed to parse nmap XML: " err)), w).
Proof. intros E. unfold nmap.parseNmapXML. rewrite E. reflexivity. Qed.

(** C5. The markup parser: when the document decodes, the parser returns
    no error and one host for each host node, in order, holding the state
    of the node, its first address of type ipv4, its first hostname, and
    the name and accuracy of its first OS match (empty or 0 where the node
    has none); the ports of the node do not enter the result.  For a
    document with one host node that describes the router (up, 10.0.0.5,
    router.local, "Linux 3.2 - 4.9" at 95) the result is exactly one host
    with these fields. *)
Theorem markup_parse_first_of_each
  (s : nmap.Scanner) (xmlData : string) (w : rt.World) (run : nmap.NmapRun.t) :
  nmap.xml_Unmarshal xmlData = inl run ->
  let ids := rt.uuidSource w in
  let times := rt.clock w in
  (nmap.parseNmapXML s xmlData w).1
  = (hostsOf ids times (rt.uuidCount w) (rt.clockCount w) (nmap.NmapRun.Hosts run), None)
  /\ (forall id now node ports, hostOf id now (setPorts node ports) = hostOf id now node)
  /\ (forall node, nmap.NmapRun.Hosts run = [node] -> Examples.describesRouter node ->
      (nmap.parseNmapXML s xmlData w).1
      = ([Examples.routerHost (ids (rt.uuidCount w)) (times (rt.clockCount w))], None)).
Proof.
  intros E ids times. rewrite (parse_decoded s xmlData w run E).
  split; [reflexivity |]. split; [reflexivity |].
  intros node -> (St & Ip & Hn & Os). cbn [hostsOf]. unfold hostOf.
  rewrite St, Ip, Hn, Os. reflexivity.
Qed.

End WithLibraries.

(** The router document, read by the XML decoder. *)
Lemma markup_parse_first_of_each_witness :
  (nmap.parseNmapXML Examples.nmapScanner Examples.routerDocument (Examples.world "" None)).1
  = ([Examples.routerHost 0%N 0], None).
Proof.
  destruct (xml.Unmarshal Examples.routerDocument) as [run | err] eqn:E;
    [| vm_compute in E; discriminate].
  destruct (markup_parse_first_of_each Examples.nmapScanner Examples.routerDocument
              (Examples.world "" None) run E) as (_ & _ & H).
  vm_compute in E. injection E as <-.
  eapply H; [reflexivity | repeat split].
Defined.

End NmapFacts.

(** ** The outcomes of a scan *)

Module ScanFacts.
Import ScanSpec.

Section WithLibraries.
Context {xmlDecoder : nmap.XMLDecoder} {jsonDecoder : masscan.JSONDecoder}
  {timeLib : rt.TimeLib}.

Lemma nmap_Scan_invalid (n : nmap.Scanner) ctx target config (w : rt.World) (err : rt.error) :
  nmap.ValidateConfig n config = Some err ->
  nmap.Scan n ctx target config w = ((None, Some (rt.Errorf_w "invalid config: " err)), w).
Proof. intros V. unfold nmap.Scan. rewrite V. reflexivity. Qed.

Lemma masscan_Scan_invalid (m : masscan.Scanner) ctx target config (w : rt.World)
  (err : rt.error) :
  masscan.ValidateConfig m config = Some err ->
  masscan.Scan m ctx target config w
  = ((None, Some (rt.Errorf_w "invalid config: " err)), w).
Proof. intros V. unfold masscan.Scan. rewrite V. reflexivity. Qed.

Lemma nmap_Scan_failed (n : nmap.Scanner) ctx target config (w : rt.World) output err :
  nmap.ValidateConfig n config = None ->
  rt.cmdOutput w ctx (nmap.path n) (nmap.buildArgs target config) = (output, Some err) ->
  (nmap.Scan n ctx target config w).1
  = (Some {| scanner.ScanResult.Target := target;
             scanner.ScanResult.Scanner := "nmap";
             scanner.ScanResult.Status := "failed";
             scanner.ScanResult.StartTime := rt.Format_RFC3339 (startTime w);
             scanner.ScanResult.EndTime := rt.Format_RFC3339 (endTime w);
             scanner.ScanResult.Duration :=
               rt.Duration_String (rt.Sub (endTime w) (startTime w));
             scanner.ScanResult.Hosts := [];
             scanner.ScanResult.RawOutput := output;
             scanner.ScanResult.Error := rt.Error err |},
     Some err).
Proof.
  intros V C. unfold nmap.Scan. rewrite V. unfold rt.bind. simpl. rewrite C. reflexivity.
Qed.

Lemma masscan_Scan_failed (m : masscan.Scanner) ctx target config (w : rt.World) output err :
  masscan.ValidateConfig m config = None ->
  rt.cmdOutput w ctx (masscan.path m) (masscan.buildArgs target config) = (output, Some err) ->
  (masscan.Scan m ctx target config w).1
  = (Some {| scanner.ScanResult.Target := target;
             scanner.ScanResult.Scanner := "masscan";
             scanner.ScanResult.Status := "failed";
             scanner.ScanResult.StartTime := rt.Format_RFC3339 (startTime w);
             scanner.ScanResult.EndTime := rt.Format_RFC3339 (endTime w);
             scanner.ScanResult.Duration :=
               rt.Duration_String (rt.Sub (endTime w) (startTime w));
             scanner.ScanResult.Hosts := [];
             scanner.ScanResult.RawOutput := output;
             scanner.ScanResult.Error := rt.Error err |},
     Some err).
Proof.
  intros V C. unfold masscan.Scan. rewrite V. unfold rt.bind. simpl. rewrite C. reflexivity.
Qed.

(** After a run that succeeded, the scan returns the report on the answer
    of the parser. *)
Lemma nmap_Scan_ran (n : nmap.Scanner) ctx target config (w : rt.World) output :
  nmap.ValidateConfig n config = None ->
  rt.cmdOutput w ctx (nmap.path n) (nmap.buildArgs target config) = (output, None) ->
  (nmap.Scan n ctx target config w).1
  = nmap.report n target (startTime w) (endTime w) output
      (nmap.parseNmapXML n output
         (afterRun ctx (nmap.path n) (nmap.buildArgs target config) w)).1.
Proof.
  intros V C. unfold nmap.Scan. rewrite V. unfold rt.bind. simpl. rewrite C.
  unfold afterRun. simpl.
  destruct (nmap.parseNmapXML n output _) as [parsed w']. reflexivity.
Qed.

Lemma masscan_Scan_ran (m : masscan.Scanner) ctx target config (w : rt.World) output :
  masscan.ValidateConfig m config = None ->
  rt.cmdOutput w ctx (masscan.path m) (masscan.buildArgs target config) = (output, None) ->
  (masscan.Scan m ctx target config w).1
  = masscan.report m target (startTime w) (endTime w) output
      (masscan.parseMasscanJSON m output
         (afterRun ctx (masscan.path m) (masscan.buildArgs target config) w)).1.
Proof.
  intros V C. unfold masscan.Scan. rewrite V. unfold rt.bind. simpl. rewrite C.
  unfold afterRun. simpl.
  destruct (masscan.parseMasscanJSON m output _) as [parsed w']. reflexivity.
Qed.

Lemma Errorf_w_nonempty (err : rt.error) :
  rt.Error (rt.Errorf_w "failed to parse nmap XML: " err) <> "".
Proof. simpl. discriminate. Qed.

(** C3. Failure of the external program: when the configuration passes
    and the run of the program ends with an error, each adapter returns a
    result with status "failed", no hosts, the text of that error in the
    error field and the output read so far, together with that same error;
    and a scan returns both a result and an error in this case only. *)
Theorem process_failure_double_reported
  (n : nmap.Scanner) (m : masscan.Scanner) (ctx : rt.Context) (target : string)
  (config : scanner.ScanConfig) (w : rt.World) :
  (forall output err,
     nmap.ValidateConfig n config = None ->
     rt.cmdOutput w ctx (nmap.path n) (nmap.buildArgs target config) = (output, Some err) ->
     exists r, (nmap.Scan n ctx target config w).1 = (Some r, Some err)
       /\ scanner.ScanResult.Status r = "failed"
       /\ scanner.ScanResult.Hosts r = []
       /\ scanner.ScanResult.Error r = rt.Error err
       /\ scanner.ScanResult.RawOutput r = output)
  /\ (forall output err,
     masscan.ValidateConfig m config = None ->
     rt.cmdOutput w ctx (masscan.path m) (masscan.buildArgs target config)
       = (output, Some err) ->
     exists r, (masscan.Scan m ctx target config w).1 = (Some r, Some err)
       /\ scanner.ScanResult.Status r = "failed"
       /\ scanner.ScanResult.Hosts r = []
       /\ scanner.ScanResult.Error r = rt.Error err
       /\ scanner.ScanResult.RawOutput r = output)
  /\ (forall r err,
     (nmap.Scan n ctx target config w).1 = (Some r, Some err) ->
     scanner.ScanResult.Status r = "failed"
     /\ nmap.ValidateConfig n config = None
     /\ (rt.cmdOutput w ctx (nmap.path n) (nmap.buildArgs target config)).2 = Some err)
  /\ (forall r err,
     (masscan.Scan m ctx target config w).1 = (Some r, Some err) ->
     scanner.ScanResult.Status r = "failed"
     /\ masscan.ValidateConfig m config = None
     /\ (rt.cmdOutput w ctx (masscan.path m) (masscan.buildArgs target config)).2 = Some err).
Proof.
  split; [| split; [| split]].
  - intros output err V C. eexists. split; [apply nmap_Scan_failed; eassumption |].
    repeat split.
  - intros output err V C. eexists. split; [apply masscan_Scan_failed; eassumption |].
    repeat split.
  - intros r err E.
    destruct (nmap.ValidateConfig n config) as [verr |] eqn:V.
    { rewrite (nmap_Scan_invalid _ _ _ _ _ _ V) in E. discriminate. }
    destruct (rt.cmdOutput w ctx (nmap.path n) (nmap.buildArgs target config))
      as [output [perr |]] eqn:C.
    + rewrite (nmap_Scan_failed _ _ _ _ _ _ _ V C) in E.
      injection E as <- <-. repeat split.
    + rewrite (nmap_Scan_ran _ _ _ _ _ _ V C) in E. unfold nmap.report in E.
      destruct (nmap.parseNmapXML _ _ _).1 as [hosts [parseErr |]]; discriminate.
  - intros r err E.
    destruct (masscan.ValidateConfig m config) as [verr |] eqn:V.
    { rewrite (masscan_Scan_invalid _ _ _ _ _ _ V) in E. discriminate. }
    destruct (rt.cmdOutput w ctx (masscan.path m) (masscan.buildArgs target config))
      as [output [perr |]] eqn:C.
    + rewrite (masscan_Scan_failed _ _ _ _ _ _ _ V C) in E.
      injection E as <- <-. repeat split.
    + rewrite (masscan_Scan_ran _ _ _ _ _ _ V C) in E. unfold masscan.report in E.
      destruct (masscan.parseMasscanJSON _ _ _).1 as [hosts [parseErr |]]; discriminate.
Qed.

(** C2. Failure of the parser after a run that succeeded: the
    thorough-probe adapter, when the output does not decode, returns a
    result with status "completed_with_errors", no hosts, a non-empty
    error field and the output as it was read, and no error; the
    high-speed adapter returns the report on the answer of its parser,
    and the report on an answer that carries an error has that same
    shape. *)
Theorem parse_failure_soft
  (n : nmap.Scanner) (m : masscan.Scanner) (ctx : rt.Context) (target : string)
  (config : scanner.ScanConfig) (w : rt.World) (output : string) :
  (forall err,
     nmap.ValidateConfig n config = None ->
     rt.cmdOutput w ctx (nmap.path n) (nmap.buildArgs target config) = (output, None) ->
     nmap.xml_Unmarshal output = inr err ->
     exists r, (nmap.Scan n ctx target config w).1 = (Some r, None)
       /\ scanner.ScanResult.Status r = "completed_with_errors"
       /\ scanner.ScanResult.Hosts r = []
       /\ scanner.ScanResult.Error r = "failed to parse nmap XML: " +:+ rt.Error err
       /\ scanner.ScanResult.Error r <> ""
       /\ scanner.ScanResult.RawOutput r = output)
  /\ (masscan.ValidateConfig m config = None ->
      rt.cmdOutput w ctx (masscan.path m) (masscan.buildArgs target config) = (output, None) ->
      (masscan.Scan m ctx target config w).1
      = masscan.report m target (startTime w) (endTime w) output
          (masscan.parseMasscanJSON m output
             (afterRun ctx (masscan.path m) (masscan.buildArgs target config) w)).1)
  /\ (forall t0 t1 hosts parseErr,
      exists r, masscan.report m target t0 t1 output (hosts, Some parseErr) = (Some r, None)
        /\ scanner.ScanResult.Status r = "completed_with_errors"
        /\ scanner.ScanResult.Hosts r = []
        /\ scanner.ScanResult.Error r = rt.Error parseErr
        /\ scanner.ScanResult.RawOutput r = output).
Proof.
  split; [| split].
  - intros err V C U. rewrite (nmap_Scan_ran _ _ _ _ _ _ V C).
    rewrite (NmapFacts.parse_failed n output _ err U). eexists. split; [reflexivity |].
    repeat split. apply Errorf_w_nonempty.
  - apply masscan_Scan_ran.
  - intros t0 t1 hosts parseErr. eexists. split; [reflexivity |]. repeat split.
Qed.

(** After a run that succeeded the high-speed adapter reports
    "completed", with the hosts of the parser and no error. *)
Lemma masscan_Scan_completed (m : masscan.Scanner) ctx target config (w : rt.World) output :
  masscan.ValidateConfig m config = None ->
  rt.cmdOutput w ctx (masscan.path m) (masscan.buildArgs target config) = (output, None) ->
  exists r, (masscan.Scan m ctx target config w).1 = (Some r, None)
    /\ scanner.ScanResult.Status r = "completed"
    /\ scanner.ScanResult.Error r = ""
    /\ scanner.ScanResult.RawOutput r = output
    /\ scanner.ScanResult.Hosts r
       = (masscan.parseMasscanJSON m output
            (afterRun ctx (masscan.path m) (masscan.buildArgs target config) w)).1.1.
Proof.
  intros V C. rewrite (masscan_Scan_ran _ _ _ _ _ _ V C).
  pose proof (MasscanFacts.parse_no_error m output
                (afterRun ctx (masscan.path m) (masscan.buildArgs target config) w)) as P.
  destruct (masscan.parseMasscanJSON m output _).1 as [hosts parseErr]. simpl in P. subst.
  eexists. split; [reflexivity |]. repeat split.
Qed.

(** C8. Blank and undecodable lines: for every input the parser returns
    no error; the loop over the lines ends in the same state, the world
    included, as the loop over the lines that are neither blank nor
    undecodable; the hosts returned are those of the records of these
    lines: one host for each IP of a record, each of them up; and a scan
    whose program printed this input returns no error and an empty error
    field. *)
Theorem undecodable_lines_skipped
  (s : masscan.Scanner) (jsonData : string) (w : rt.World) :
  let lines := masscan.splitLines jsonData in
  let out := masscan.parseMasscanJSON s jsonData w in
  out.1.2 = None
  /\ masscan.lineLoop lines MasscanSpec.start w
     = masscan.lineLoop (List.filter MasscanSpec.valid lines) MasscanSpec.start w
  /\ NoDup (models.Host.IPAddress <$> out.1.1)
  /\ (forall ip, ip ∈ (models.Host.IPAddress <$> out.1.1)
                 <-> ip ∈ (masscan.MasscanResult.IP <$> MasscanSpec.records lines))
  /\ (forall host, host ∈ out.1.1 -> models.Host.Status host = "up")
  /\ (forall ctx target config w0,
      masscan.ValidateConfig s config = None ->
      rt.cmdOutput w0 ctx (masscan.path s) (masscan.buildArgs target config)
        = (jsonData, None) ->
      exists r, (masscan.Scan s ctx target config w0).1 = (Some r, None)
        /\ scanner.ScanResult.Status r = "completed"
        /\ scanner.ScanResult.Error r = "").
Proof.
  intros lines out. subst out. rewrite MasscanFacts.parse_unfold. cbv zeta. cbn [fst snd].
  fold lines.
  pose proof (MasscanFacts.lineLoop_spec lines MasscanSpec.start w MasscanFacts.keyed_start)
    as (K & _ & D & _).
  destruct (masscan.lineLoop lines MasscanSpec.start w) as [st w1] eqn:E. cbn [fst snd] in *.
  pose proof (MasscanFacts.ranged_hosts (masscan.hostMap st) w1 K) as (N & I & U & _).
  split; [reflexivity |]. split; [rewrite <- E; apply MasscanFacts.lineLoop_filter |].
  split; [exact N |]. split; [| split; [exact U |]].
  - intros ip. rewrite I, D. simpl. set_solver.
  - intros ctx target config w0 V C.
    destruct (masscan_Scan_completed s ctx target config w0 jsonData V C)
      as (r & Sc & St & Er & _).
    exists r. auto.
Qed.

(** C10. The parser of the high-speed adapter returns no error on any
    input, so that after a run that succeeded its scan always returns a
    result with status "completed", an empty error field and the hosts
    the parser returned, and no error. *)
Theorem masscan_never_completed_with_errors
  (m : masscan.Scanner) (ctx : rt.Context) (target : string)
  (config : scanner.ScanConfig) (w : rt.World) (output : string) :
  (forall jsonData w', (masscan.parseMasscanJSON m jsonData w').1.2 = None)
  /\ (masscan.ValidateConfig m config = None ->
      rt.cmdOutput w ctx (masscan.path m) (masscan.buildArgs target config) = (output, None) ->
      exists r, (masscan.Scan m ctx target config w).1 = (Some r, None)
        /\ scanner.ScanResult.Status r = "completed"
        /\ scanner.ScanResult.Error r = ""
        /\ scanner.ScanResult.RawOutput r = output
        /\ scanner.ScanResult.Hosts r
           = (masscan.parseMasscanJSON m output
                (afterRun ctx (masscan.path m) (masscan.buildArgs target config) w)).1.1).
Proof.
  split; [intros; apply MasscanFacts.parse_no_error |].
  apply masscan_Scan_completed.
Qed.

End WithLibraries.

(** A run of nmap that ends with exit status 1. *)
Lemma process_failure_double_reported_witness :
  exists r,
    (nmap.Scan Examples.nmapScanner Examples.background "10.0.0.5"
       (Examples.config "80,443" "4" "" 0) (Examples.world "" (Some Examples.exitStatus1))).1
    = (Some r, Some Examples.exitStatus1)
    /\ scanner.ScanResult.Status r = "failed"
    /\ scanner.ScanResult.Hosts r = []
    /\ scanner.ScanResult.Error r = "exit status 1"
    /\ scanner.ScanResult.RawOutput r = "".
Proof.
  destruct (process_failure_double_reported Examples.nmapScanner Examples.masscanScanner
              Examples.background "10.0.0.5" (Examples.config "80,443" "4" "" 0)
              (Examples.world "" (Some Examples.exitStatus1))) as [H _].
  apply (H "" Examples.exitStatus1); reflexivity.
Defined.

(** A run of nmap that succeeds and prints something that is not XML. *)
Lemma parse_failure_soft_witness :
  exists r,
    (nmap.Scan Examples.nmapScanner Examples.background "10.0.0.5"
       (Examples.config "80,443" "4" "" 0) (Examples.world "not xml" None)).1
    = (Some r, None)
    /\ scanner.ScanResult.Status r = "completed_with_errors"
    /\ scanner.ScanResult.Hosts r = []
    /\ scanner.ScanResult.Error r = "failed to parse nmap XML: XML syntax error"
    /\ scanner.ScanResult.Error r <> ""
    /\ scanner.ScanResult.RawOutput r = "not xml".
Proof.
  destruct (parse_failure_soft Examples.nmapScanner Examples.masscanScanner
              Examples.background "10.0.0.5" (Examples.config "80,443" "4" "" 0)
              (Examples.world "not xml" None) "not xml") as [H _].
  apply (H (rt.decodeError "XML syntax error")); reflexivity.
Defined.

(** A run of masscan that succeeds and prints no line that decodes. *)
Lemma masscan_never_completed_with_errors_witness :
  exists r,
    (masscan.Scan Examples.masscanScanner Examples.background "10.0.0.0/24"
       (Examples.config "80,443" "" "" 0) (Examples.world Examples.noRecord None)).1
    = (Some r, None)
    /\ scanner.ScanResult.Status r = "completed"
    /\ scanner.ScanResult.Error r = ""
    /\ scanner.ScanResult.RawOutput r = Examples.noRecord
    /\ scanner.ScanResult.Hosts r = [].
Proof.
  destruct (masscan_never_completed_with_errors Examples.masscanScanner
              Examples.background "10.0.0.0/24" (Examples.config "80,443" "" "" 0)
              (Examples.world Examples.noRecord None) Examples.noRecord) as [_ H].
  destruct H as (r & E & St & Er & Ra & Ho); [reflexivity | reflexivity |].
  exists r. repeat split; assumption.
Defined.

(** A scan whose program printed an array around one record and a line
    of noise: no line decodes, and the scan reports "completed". *)
Lemma undecodable_lines_skipped_witness :
  (masscan.parseMasscanJSON Examples.masscanScanner Examples.noRecord
     (Examples.world "" None)).1 = ([], None)
  /\ exists r,
      (masscan.Scan Examples.masscanScanner Examples.background "10.0.0.0/24"
         (Examples.config "80,443" "" "" 0) (Examples.world Examples.noRecord None)).1
      = (Some r, None)
      /\ scanner.ScanResult.Status r = "completed"
      /\ scanner.ScanResult.Error r = "".
Proof.
  destruct (undecodable_lines_skipped Examples.masscanScanner Examples.noRecord
              (Examples.world "" None)) as (_ & _ & _ & _ & _ & H).
  split; [reflexivity |].
  apply (H Examples.background "10.0.0.0/24" (Examples.config "80,443" "" "" 0)
           (Examples.world Examples.noRecord None)); reflexivity.
Defined.

End ScanFacts.

(** ** More on the registry and on the ports of the high-speed adapter *)

Module MoreFacts.
Import MasscanSpec MoreSpec.

Lemma lastNamed_Some (name : string) (l : list scanner.Scanner) :
  is_Some (RegistrySpec.lastNamed name l)
  <-> exists s, s ∈ l /\ scanner.GetName s = name.
Proof.
  induction l as [| s l IH]; simpl.
  - split; [intros [x E]; discriminate | intros (s & I & _); inversion I].
  - destruct (RegistrySpec.lastNamed name l) as [s' |] eqn:E.
    + split; [intros _ | eauto].
      destruct (proj1 IH) as (x & I & N); [eauto |]. exists x. split; [right |]; assumption.
    + destruct (String.eqb_spec (scanner.GetName s) name) as [N | N].
      * split; [intros _ | eauto]. exists s. split; [left | assumption].
      * split; [intros [x Hx]; discriminate |].
        intros (x & I & Nx). apply elem_of_cons in I as [-> | I]; [contradiction |].
        apply IH. eauto.
Qed.

(** X1.  The names listed are the names registered: after any run of
    registrations on a new manager, [ListScanners] returns each name under
    which an adapter was registered exactly once, in some order, and these
    are the names [GetScanner] finds; it leaves the world as it was.  The
    zero manager lists nothing. *)
Theorem ListScanners_registered (l : list scanner.Scanner) (w : rt.World) :
  (exists sm, scanner.registerAll scanner.NewScannerManager l = Some sm
     /\ let names := (scanner.ListScanners sm w).1 in
        NoDup names
        /\ (forall name, name ∈ names <-> exists s, s ∈ l /\ scanner.GetName s = name)
        /\ (forall name, name ∈ names <-> (scanner.GetScanner sm name).2 = true)
        /\ (scanner.ListScanners sm w).2 = w)
  /\ scanner.ListScanners {| scanner.scanners := None |} w = ([], w).
Proof.
  split; [| reflexivity].
  destruct (RegistryFacts.registerAll_lookup l ∅) as (m & E & L).
  exists {| scanner.scanners := Some m |}. split; [exact E |].
  unfold scanner.ListScanners, scanner.GetScanner. cbn [scanner.scanners fst snd].
  pose proof (rt.rangeOrder_perm w _ (map_to_list m).*1) as P.
  assert (K : forall name, name ∈ rt.rangeOrder w _ (map_to_list m).*1 <-> is_Some (m !! name)).
  { intros name. rewrite P. split.
    - intros ((k & v) & -> & I)%list_elem_of_fmap. apply elem_of_map_to_list in I. eauto.
    - intros [v Lv]. apply list_elem_of_fmap. exists (name, v).
      split; [reflexivity | apply elem_of_map_to_list; exact Lv]. }
  split; [rewrite P; apply NoDup_fst_map_to_list |]. split; [| split; [| reflexivity]].
  - intros name. rewrite K, L, <- lastNamed_Some.
    destruct (RegistrySpec.lastNamed name l); [split; eauto |].
    rewrite lookup_empty. split; intros [x Hx]; discriminate.
  - intros name. rewrite K. destruct (m !! name); simpl.
    + split; eauto.
    + split; [intros [x Hx]; discriminate | discriminate].
Qed.

Section WithLibraries.
Context {jsonDecoder : masscan.JSONDecoder} {timeLib : rt.TimeLib}.

Lemma portLoop_attributed (hostID : rt.UUID) (entries : list masscan.PortInfo.t) :
  forall w, Forall2 (attributed hostID) entries (masscan.portLoop hostID entries w).1.
Proof.
  induction entries as [| e entries IH]; intros w; [constructor |].
  cbn [masscan.portLoop]. unfold rt.bind, masscan.newPort, rt.bind. simpl.
  specialize (IH (rt.time_Now (rt.uuid_New w).2).2).
  destruct (masscan.portLoop _ entries _) as [ports w'] eqn:E. simpl in *.
  constructor; [repeat split | exact IH].
Qed.

Lemma portsStep_skip hostID ports line (w : rt.World) :
  decoded line = None -> masscan.portsStep hostID ports line w = (ports, w).
Proof.
  unfold decoded, masscan.portsStep. destruct (String.eqb _ _); [reflexivity |].
  destruct (masscan.json_Unmarshal line); [discriminate | reflexivity].
Qed.

Lemma portsStep_record hostID ports line (w : rt.World) result :
  decoded line = Some result ->
  masscan.portsStep hostID ports line w
  = (new <- masscan.portLoop hostID (masscan.MasscanResult.Ports result) ;;
     rt.ret (ports ++ new)) w.
Proof.
  unfold decoded, masscan.portsStep. destruct (String.eqb _ _); [discriminate |].
  destruct (masscan.json_Unmarshal line); [| discriminate]. intros E; injection E as ->.
  reflexivity.
Qed.

Lemma portsLoop_filter hostID (lines : list string) :
  forall ports w,
  masscan.portsLoop hostID lines ports w
  = masscan.portsLoop hostID (List.filter valid lines) ports w.
Proof.
  induction lines as [| line lines IH]; intros ports w; [reflexivity |].
  cbn [masscan.portsLoop List.filter]. unfold valid at 1.
  destruct (decoded line) as [r |] eqn:E.
  - cbn [masscan.portsLoop]. unfold rt.bind.
    destruct (masscan.portsStep hostID ports line w) as [ports' w']. apply IH.
  - unfold rt.bind. rewrite portsStep_skip by exact E. apply IH.
Qed.

Lemma portsLoop_spec hostID (lines : list string) :
  forall ports w,
  exists new, (masscan.portsLoop hostID lines ports w).1 = ports ++ new
    /\ Forall2 (fun entry port => attributed hostID entry.2 port) (portEntries lines) new.
Proof.
  induction lines as [| line lines IH]; intros ports w.
  - exists []. split; [simpl; rewrite app_nil_r; reflexivity | constructor].
  - cbn [masscan.portsLoop]. unfold rt.bind. rewrite MasscanFacts.portEntries_cons.
    destruct (decoded line) as [r |] eqn:E.
    + rewrite (portsStep_record _ _ _ _ _ E). unfold rt.bind.
      pose proof (portLoop_attributed hostID (masscan.MasscanResult.Ports r) w) as A.
      destruct (masscan.portLoop hostID _ w) as [new1 w1]. cbn [fst] in A. cbn [rt.ret].
      destruct (IH (ports ++ new1) w1) as (new2 & E2 & A2).
      exists (new1 ++ new2). split; [rewrite E2, app_assoc; reflexivity |].
      apply Forall2_app; [| exact A2]. apply Forall2_fmap_l.
      eapply Forall2_impl; [exact A |]. intros e p Hp. exact Hp.
    + rewrite portsStep_skip by exact E. apply IH.
Qed.

Lemma GetPortsFromJSON_entries
  (s : masscan.Scanner) (jsonData : string) (hostID : rt.UUID) (w : rt.World) :
  (masscan.GetPortsFromJSON s jsonData hostID w).1.2 = None
  /\ Forall2 (fun entry port => attributed hostID entry.2 port)
       (portEntries (masscan.splitLines jsonData))
       (masscan.GetPortsFromJSON s jsonData hostID w).1.1.
Proof.
  unfold masscan.GetPortsFromJSON, rt.bind.
  destruct (portsLoop_spec hostID (masscan.splitLines jsonData) [] w) as (new & E & A).
  destruct (masscan.portsLoop hostID _ [] w) as [ports w1].
  cbn [fst snd rt.ret] in *. subst ports. split; [reflexivity | exact A].
Qed.

(** X2.  The ports of an output, all under one host: for every input
    [GetPortsFromJSON] returns no error and one port for each port entry
    of each record, in the order of the input, with the number, protocol
    and state of the entry, no service information, and the host ID it
    was given, whatever the IP of the record the entry came from; blank
    and undecodable lines change nothing. *)
Theorem GetPortsFromJSON_all_under_one_host
  (s : masscan.Scanner) (jsonData : string) (hostID : rt.UUID) (w : rt.World) :
  let lines := masscan.splitLines jsonData in
  let out := (masscan.GetPortsFromJSON s jsonData hostID w).1 in
  out.2 = None
  /\ Forall2 (fun entry port => attributed hostID entry.2 port) (portEntries lines) out.1
  /\ length out.1 = length (portEntries lines)
  /\ masscan.portsLoop hostID lines [] w
     = masscan.portsLoop hostID (List.filter valid lines) [] w.
Proof.
  intros lines out. subst out.
  destruct (GetPortsFromJSON_entries s jsonData hostID w) as [E A]. fold lines in A.
  split; [exact E |]. split; [exact A |].
  split; [symmetry; eapply Forall2_length; exact A | apply portsLoop_filter].
Qed.

Lemma owned_samePort (m : gmap string models.Host.t) hostID
  (entries : list (string * masscan.PortInfo.t)) (ps qs : list models.Port.t) :
  Forall2 (owned m) entries ps ->
  Forall2 (fun entry port => attributed hostID entry.2 port) entries qs ->
  Forall2 samePort ps qs.
Proof.
  intros O. revert qs. induction O as [| e p entries ps (host & _ & B) O IH]; intros qs A.
  - inversion A. constructor.
  - inversion A as [| ? q ? qs' Aq A']; subst. constructor; [| apply IH; exact A'].
    destruct B as (_ & B1 & B2 & B3), Aq as (_ & A1 & A2 & A3 & _).
    unfold samePort. rewrite B1, B2, B3, A1, A2, A3. auto.
Qed.

(** X3.  The ports the parser builds and drops are the ports
    [GetPortsFromJSON] returns: on the same input, in any two worlds, the
    two lists have the same length and agree, port by port, on number,
    protocol and state. *)
Theorem parser_ports_are_GetPortsFromJSON_ports
  (s : masscan.Scanner) (jsonData : string) (hostID : rt.UUID) (w w' : rt.World) :
  Forall2 samePort
    (masscan.dropped (masscan.lineLoop (masscan.splitLines jsonData) start w).1)
    (masscan.GetPortsFromJSON s jsonData hostID w').1.1.
Proof.
  pose proof (MasscanFacts.lineLoop_spec (masscan.splitLines jsonData) start w
                MasscanFacts.keyed_start) as (_ & _ & _ & ports & P & O).
  destruct (GetPortsFromJSON_entries s jsonData hostID w') as [_ A].
  rewrite P. simpl. eapply owned_samePort; eauto.
Qed.

End WithLibraries.

End MoreFacts.

(** ** More on the configuration checks and on the outcomes of a scan *)

Module MoreValidateFacts.
Import PortGrammar PortGrammarFacts MoreSpec ScanSpec.




Lemma masscan_ValidateConfig_None (m : masscan.Scanner) (config : scanner.ScanConfig) :
  masscan.ValidateConfig m config = None
  <-> validPortSpec (scanner.Ports config) = true /\ scanner.Threads config <= 100000.
Proof.
  unfold masscan.ValidateConfig. rewrite MatchString_portRegex.
  destruct (String.eqb_spec (scanner.Ports config) "") as [E | N].
  { rewrite E. split; [discriminate | intros [V _]; discriminate]. }
  destruct (validPortSpec (scanner.Ports config)); simpl;
    [| split; [discriminate | intros [V _]; discriminate]].
  rewrite !Z.gtb_ltb.
  destruct (Z.ltb_spec 100000 (scanner.Threads config)) as [G | G].
  - replace (0 <? scanner.Threads config) with true by (symmetry; apply Z.ltb_lt; lia).
    simpl. split; [discriminate | intros [_ T]; lia].
  - rewrite andb_false_r. split; [intros _; split; [reflexivity | exact G] | reflexivity].
Qed.

Lemma nmap_ValidateConfig_None (n : nmap.Scanner) (config : scanner.ScanConfig) :
  nmap.ValidateConfig n config = None
  <-> (scanner.Ports config = "" \/ validPortSpec (scanner.Ports config) = true)
      /\ (scanner.Timing config = ""
          \/ exists t, Go.Atoi (scanner.Timing config) = inl t /\ 0 <= t <= 5).
Proof.
  destruct (String.eqb_spec (scanner.Ports config) "") as [E | N].
  2: destruct (validPortSpec (scanner.Ports config)) eqn:V.
  3: { rewrite (ValidateFacts.nmap_ports_fail n config N V).
       split; [discriminate | intros [[? | ?] _]; [contradiction | discriminate]]. }
  all: rewrite ValidateFacts.nmap_ports_pass by auto.
  all: destruct (String.eqb_spec (scanner.Timing config) "") as [T | T]; simpl;
    [split; auto |].
  all: destruct (Go.Atoi (scanner.Timing config)) as [t | e];
    [| split; [discriminate | intros [_ [? | (t' & ? & ?)]]; [contradiction | discriminate]]].
  all: rewrite Z.gtb_ltb; destruct (Z.ltb_spec t 0), (Z.ltb_spec 5 t); simpl.
  all: split;
    [ first [discriminate
            | intros _; split; [auto | right; exists t; split; [reflexivity | lia]]]
    | intros [_ [? | (t' & Et & ?)]]; [contradiction | injection Et as <-; try lia; reflexivity] ].
Qed.

(** X4.  What the checks decide.  The thorough-probe adapter accepts a
    configuration exactly when its ports are empty or in the grammar and
    its timing is empty or parses as an integer from 0 to 5; the
    high-speed adapter exactly when its ports are in the grammar and its
    thread count is at most 100000 (zero and negative counts included).
    Neither looks at the extra arguments, the output, the timeout or the
    options; the high-speed adapter does not look at the timing, nor the
    thorough-probe adapter at the thread count. *)
Theorem ValidateConfig_decides
  (n : nmap.Scanner) (m : masscan.Scanner) (config : scanner.ScanConfig) :
  (nmap.ValidateConfig n config = None
   <-> (scanner.Ports config = "" \/ validPortSpec (scanner.Ports config) = true)
       /\ (scanner.Timing config = ""
           \/ exists t, Go.Atoi (scanner.Timing config) = inl t /\ 0 <= t <= 5))
  /\ (masscan.ValidateConfig m config = None
      <-> validPortSpec (scanner.Ports config) = true /\ scanner.Threads config <= 100000)
  /\ (forall config',
        scanner.Ports config' = scanner.Ports config ->
        scanner.Timing config' = scanner.Timing config ->
        nmap.ValidateConfig n config' = nmap.ValidateConfig n config)
  /\ (forall config',
        scanner.Ports config' = scanner.Ports config ->
        scanner.Threads config' = scanner.Threads config ->
        masscan.ValidateConfig m config' = masscan.ValidateConfig m config).
Proof.
  split; [apply nmap_ValidateConfig_None |]. split; [apply masscan_ValidateConfig_None |].
  split; intros config' P T.
  - unfold nmap.ValidateConfig. rewrite P, T. reflexivity.
  - unfold masscan.ValidateConfig. rewrite P, T. reflexivity.
Qed.



(** X6.  The checks look at the shape of the ports only: a range of any two
    runs of digits passes both adapters, whatever the numbers are and
    whichever is larger (0, 70000 and 443-80 pass). *)
Theorem port_values_unchecked
  (n : nmap.Scanner) (m : masscan.Scanner) (config : scanner.ScanConfig) (lo hi : string) :
  allDigits lo = true -> allDigits hi = true ->
  scanner.Ports config = lo +:+ "-" +:+ hi ->
  (scanner.Timing config = "" -> nmap.ValidateConfig n config = None)
  /\ (scanner.Threads config <= 100000 -> masscan.ValidateConfig m config = None).
Proof.
  intros L H P.
  assert (V : validPortSpec (scanner.Ports config) = true).
  { rewrite P. unfold validPortSpec.
    apply allDigits_allOf in L as L'. destruct L' as [_ L'].
    apply allDigits_allOf in H as H'. destruct H' as [_ H'].
    assert (N : PortGrammar.noByte "," (lo +:+ "-" +:+ hi) = true).
    { rewrite noByte_app. simpl.
      rewrite (allOf_noByte _ _ _ isDigit_comma L'), (allOf_noByte _ _ _ isDigit_comma H').
      reflexivity. }
    rewrite Split_noByte by exact N. simpl. rewrite andb_true_r. unfold validItem.
    rewrite Split_app by (eapply allOf_noByte; eauto using isDigit_hyphen).
    rewrite Split_noByte by (eapply allOf_noByte; eauto using isDigit_hyphen).
    rewrite L, H. reflexivity. }
  split; intros T.
  - apply nmap_ValidateConfig_None. auto.
  - apply masscan_ValidateConfig_None. auto.
Qed.

Lemma port_values_unchecked_witness :
  nmap.ValidateConfig Examples.nmapScanner (Examples.config "70000-0" "" "" 0) = None
  /\ masscan.ValidateConfig Examples.masscanScanner (Examples.config "70000-0" "" "" 0) = None.
Proof.
  destruct (port_values_unchecked Examples.nmapScanner Examples.masscanScanner
              (Examples.config "70000-0" "" "" 0) "70000" "0") as [H1 H2];
    try reflexivity.
  split; [apply H1; reflexivity | apply H2; simpl; lia].
Defined.

Lemma digitsVal_zeros (k : nat) (s : string) :
  Go.digitsVal (zeros k +:+ s) 0 = Go.digitsVal s 0.
Proof. induction k as [| k IH]; [reflexivity | exact IH]. Qed.

Lemma zeros_digit_nonempty (k : nat) (c : ascii) :
  exists x r, zeros k +:+ String c "" = String x r /\ (x = "0"%char \/ x = c).
Proof. destruct k; simpl; eauto. Qed.

(** X21.  The timing is checked by value, not by text: a digit from 0 to 5
    behind any run of zeros passes, with a plus sign in front or without
    one, and so does minus zero; the text goes to the program as it is,
    behind "-T" (so "+005" is accepted and the program is given
    "-T+005"). *)
Theorem timing_text_unchecked
  (n : nmap.Scanner) (config : scanner.ScanConfig) (target sign : string) (k : nat) (d : Z) :
  0 <= d <= 5 ->
  sign = "" \/ sign = "+" \/ (sign = "-" /\ d = 0) ->
  scanner.Timing config = sign +:+ zeros k +:+ Go.Itoa d ->
  scanner.Ports config = "" \/ validPortSpec (scanner.Ports config) = true ->
  nmap.ValidateConfig n config = None
  /\ In ("-T" +:+ scanner.Timing config) (nmap.buildArgs target config).
Proof.
  intros R S T P.
  assert (A : Go.Atoi (scanner.Timing config) = inl d).
  { rewrite T. assert (D : d = 0 \/ d = 1 \/ d = 2 \/ d = 3 \/ d = 4 \/ d = 5) by lia.
    assert (B : forall c : ascii, Go.isDigit c = true ->
                forall v, Go.digitsVal (String c "") 0 = Some v ->
                (Go.minInt <=? v) && (v <=? Go.maxInt) = true ->
                (Go.minInt <=? - v) && (- v <=? Go.maxInt) = true ->
                (sign = "-" -> v = 0) ->
                Go.Atoi (sign +:+ zeros k +:+ String c "") = inl v).
    { intros c Dc v V In1 In2 Z0. destruct (zeros_digit_nonempty k c) as (x & r & E & X).
      assert (Dx : Go.isDigit x = true) by (destruct X as [-> | ->]; [reflexivity | exact Dc]).
      pose proof (digitsVal_zeros k (String c "")) as Dv. rewrite E, V in Dv.
      destruct S as [-> | [-> | [-> _]]]; unfold Go.Atoi.
      - change ("" +:+ zeros k +:+ String c "") with (zeros k +:+ String c ""). rewrite E.
        assert (M : match String x r with
                    | String "-" r0 => (true, r0)
                    | String "+" r0 => (false, r0)
                    | _ => (false, String x r)
                    end = (false, String x r)).
        { destruct x as [[] [] [] [] [] [] [] []]; try reflexivity; discriminate. }
        rewrite M, Dv, In1. reflexivity.
      - change ("+" +:+ zeros k +:+ String c "") with (String "+" (zeros k +:+ String c "")).
        cbv iota beta. rewrite E, Dv, In1. reflexivity.
      - change ("-" +:+ zeros k +:+ String c "") with (String "-" (zeros k +:+ String c "")).
        cbv iota beta. rewrite E, Dv, In2. rewrite (Z0 eq_refl). reflexivity. }
    destruct D as [-> | [-> | [-> | [-> | [-> | ->]]]]];
      (apply B; [reflexivity | reflexivity | reflexivity | reflexivity |];
       intros ->; destruct S as [S | [S | [_ S]]]; first [discriminate S | exact S]). }
  split.
  - apply nmap_ValidateConfig_None. split; [exact P |]. right. exists d. auto.
  - assert (N : String.eqb (scanner.Timing config) "" = false).
    { apply String.eqb_neq. intros E. rewrite E in A. discriminate A. }
    unfold nmap.buildArgs. rewrite N. cbn [negb].
    destruct (negb (String.eqb (scanner.Ports config) ""));
      destruct (negb (String.eqb (scanner.Arguments config) ""));
      rewrite ?in_app_iff; simpl; tauto.
Qed.

Lemma timing_text_unchecked_witness :
  nmap.ValidateConfig Examples.nmapScanner (Examples.config "" "+005" "" 0) = None
  /\ In "-T+005" (nmap.buildArgs "10.0.0.5" (Examples.config "" "+005" "" 0)).
Proof.
  apply (timing_text_unchecked Examples.nmapScanner (Examples.config "" "+005" "" 0)
           "10.0.0.5" "+" 2 5); [lia | right; left; reflexivity | reflexivity | left; reflexivity].
Defined.

End MoreValidateFacts.

(** ** The rate argument, and what every scan result satisfies *)

Module MoreScanFacts.
Import MoreSpec ScanSpec.

Lemma digitsVal_uint_acc (d : Decimal.uint) :
  forall a : positive,
  Go.digitsVal (NilEmpty.string_of_uint d) (Z.pos a) = Some (Z.pos (Pos.of_uint_acc d a)).
Proof.
  induction d; intros a; cbn [NilEmpty.string_of_uint Go.digitsVal Pos.of_uint_acc];
    [reflexivity | ..];
    match goal with
    | |- (if Go.isDigit ?c then _ else _) = _ =>
      change (Go.isDigit c) with true; cbv iota;
      let v := eval vm_compute in (Go.digitVal c) in change (Go.digitVal c) with v
    end;
    rewrite <- IHd; f_equal; lia.
Qed.

Lemma digitsVal_uint (d : Decimal.uint) :
  Go.digitsVal (NilEmpty.string_of_uint d) 0 = Some (Z.of_N (Pos.of_uint d)).
Proof.
  induction d; cbn [NilEmpty.string_of_uint Go.digitsVal Pos.of_uint];
    [reflexivity | ..];
    match goal with
    | |- (if Go.isDigit ?c then _ else _) = _ =>
      change (Go.isDigit c) with true; cbv iota;
      let v := eval vm_compute in (Go.digitVal c) in change (Go.digitVal c) with v
    end;
    first [exact IHd | apply digitsVal_uint_acc].
Qed.

Lemma string_of_uint_head (d : Decimal.uint) :
  d <> Decimal.Nil ->
  exists c r, NilEmpty.string_of_uint d = String c r /\ Go.isDigit c = true.
Proof. destruct d; intros N; [contradiction | ..]; simpl; eauto. Qed.

(** [Atoi] reads back what [Itoa] writes for a positive [int]. *)
Lemma Atoi_Itoa_pos (p : positive) :
  Z.pos p <= Go.maxInt -> Go.Atoi (Go.Itoa (Z.pos p)) = inl (Z.pos p).
Proof.
  intros R. unfold Go.Itoa. cbn [Z.to_int NilZero.string_of_int].
  pose proof (DecimalPos.Unsigned.to_uint_nonnil p) as N.
  pose proof (digitsVal_uint (Pos.to_uint p)) as D.
  rewrite DecimalPos.Unsigned.of_to in D. cbn [Z.of_N] in D.
  assert (E : NilZero.string_of_uint (Pos.to_uint p)
              = NilEmpty.string_of_uint (Pos.to_uint p)).
  { destruct (Pos.to_uint p); [contradiction | reflexivity ..]. }
  rewrite E. destruct (string_of_uint_head _ N) as (c & r & S & Hc).
  rewrite S in *. unfold Go.Atoi.
  assert (B : match String c r with
              | String "-" r0 => (true, r0)
              | String "+" r0 => (false, r0)
              | _ => (false, String c r)
              end = (false, String c r)).
  { destruct c as [[] [] [] [] [] [] [] []]; try reflexivity; discriminate. }
  rewrite B, D.
  replace (Go.minInt <=? Z.pos p) with true
    by (symmetry; apply Z.leb_le; unfold Go.minInt; lia).
  replace (Z.pos p <=? Go.maxInt) with true by (symmetry; apply Z.leb_le; exact R).
  reflexivity.
Qed.

(** X7.  The rate the high-speed adapter asks for: under a configuration it
    accepts, the argument after "--rate" reads back as an integer from 1
    to 100000: the thread count when that is positive, 1000 otherwise. *)
Theorem accepted_rate_bounded
  (m : masscan.Scanner) (target : string) (config : scanner.ScanConfig) :
  masscan.ValidateConfig m config = None ->
  exists rate n,
    masscan.buildArgs target config
    = [target; "-p"; scanner.Ports config; "--rate"; rate; "--output-format"; "json"]
      ++ Go.Fields (scanner.Arguments config)
    /\ Go.Atoi rate = inl n
    /\ 1 <= n <= 100000
    /\ n = (if decide (0 < scanner.Threads config) then scanner.Threads config else 1000).
Proof.
  intros V. apply MoreValidateFacts.masscan_ValidateConfig_None in V as [_ T].
  unfold masscan.buildArgs. rewrite ArgsFacts.extra_args, Z.gtb_ltb.
  destruct (Z.ltb_spec 0 (scanner.Threads config)) as [P | P].
  - exists (Go.Itoa (scanner.Threads config)), (scanner.Threads config).
    split; [reflexivity |]. rewrite decide_True by exact P.
    destruct (scanner.Threads config) as [| p | p]; try lia.
    split; [apply Atoi_Itoa_pos; unfold Go.maxInt; lia |]. split; [lia | reflexivity].
  - exists "1000", 1000. split; [reflexivity |]. rewrite decide_False by lia.
    split; [reflexivity |]. split; [lia | reflexivity].
Qed.

Lemma accepted_rate_bounded_witness :
  exists rate n,
    masscan.buildArgs "10.0.0.0/24" (Examples.config "80" "" "" 100000)
    = ["10.0.0.0/24"; "-p"; "80"; "--rate"; rate; "--output-format"; "json"] ++ []
    /\ Go.Atoi rate = inl n /\ 1 <= n <= 100000 /\ n = 100000.
Proof.
  exact (accepted_rate_bounded Examples.masscanScanner "10.0.0.0/24"
           (Examples.config "80" "" "" 100000) eq_refl).
Defined.

Section WithLibraries.
Context {xmlDecoder : nmap.XMLDecoder} {jsonDecoder : masscan.JSONDecoder}
  {timeLib : rt.TimeLib}.

Lemma report_wellFormed (name target : string) (w : rt.World) (output : string)
  (out : option scanner.ScanResult.t * option rt.error) hosts parseErr :
  out = match parseErr with
        | Some parseErr =>
          (Some {| scanner.ScanResult.Target := target;
                   scanner.ScanResult.Scanner := name;
                   scanner.ScanResult.Status := "completed_with_errors";
                   scanner.ScanResult.StartTime := rt.Format_RFC3339 (startTime w);
                   scanner.ScanResult.EndTime := rt.Format_RFC3339 (endTime w);
                   scanner.ScanResult.Duration :=
                     rt.Duration_String (rt.Sub (endTime w) (startTime w));
                   scanner.ScanResult.Hosts := [];
                   scanner.ScanResult.RawOutput := output;
                   scanner.ScanResult.Error := rt.Error parseErr |}, None)
        | None =>
          (Some {| scanner.ScanResult.Target := target;
                   scanner.ScanResult.Scanner := name;
                   scanner.ScanResult.Status := "completed";
                   scanner.ScanResult.StartTime := rt.Format_RFC3339 (startTime w);
                   scanner.ScanResult.EndTime := rt.Format_RFC3339 (endTime w);
                   scanner.ScanResult.Duration :=
                     rt.Duration_String (rt.Sub (endTime w) (startTime w));
                   scanner.ScanResult.Hosts := hosts;
                   scanner.ScanResult.RawOutput := output;
                   scanner.ScanResult.Error := "" |}, None)
        end ->
  wellFormed name target w (output, None) out.
Proof.
  intros ->. unfold wellFormed, scanStatus.
  destruct parseErr as [parseErr |]; eexists; (split; [reflexivity |]); simpl;
    repeat split; auto; try discriminate; try congruence; intros H; contradiction.
Qed.

(** X8.  Every outcome of a scan.  With a configuration the adapter rejects,
    the scan returns no result, the error of the check behind "invalid
    config: ", and leaves the world as it was: no clock reading, no
    program run.  Otherwise it returns a result and, with it, exactly the
    error of the run of the program (none when the run succeeded); the
    result names the target and the adapter, holds the output of the
    program as it was read and the two clock readings taken around the
    run; its status is "failed", "completed_with_errors" or "completed",
    "failed" exactly when the run failed; it has hosts only when
    "completed", and then an empty error field. *)
Theorem scan_outcomes
  (n : nmap.Scanner) (m : masscan.Scanner) (ctx : rt.Context) (target : string)
  (config : scanner.ScanConfig) (w : rt.World) :
  match nmap.ValidateConfig n config with
  | Some err =>
    nmap.Scan n ctx target config w = ((None, Some (rt.Errorf_w "invalid config: " err)), w)
  | None =>
    wellFormed "nmap" target w
      (rt.cmdOutput w ctx (nmap.path n) (nmap.buildArgs target config))
      (nmap.Scan n ctx target config w).1
  end
  /\ match masscan.ValidateConfig m config with
     | Some err =>
       masscan.Scan m ctx target config w
       = ((None, Some (rt.Errorf_w "invalid config: " err)), w)
     | None =>
       wellFormed "masscan" target w
         (rt.cmdOutput w ctx (masscan.path m) (masscan.buildArgs target config))
         (masscan.Scan m ctx target config w).1
     end.
Proof.
  split.
  - destruct (nmap.ValidateConfig n config) as [err |] eqn:V;
      [apply ScanFacts.nmap_Scan_invalid; exact V |].
    destruct (rt.cmdOutput w ctx (nmap.path n) (nmap.buildArgs target config))
      as [output [err |]] eqn:C.
    + rewrite (ScanFacts.nmap_Scan_failed _ _ _ _ _ _ _ V C).
      eexists. split; [reflexivity |]. unfold scanStatus. simpl.
      repeat split; auto; try discriminate.
    + rewrite (ScanFacts.nmap_Scan_ran _ _ _ _ _ _ V C).
      destruct (nmap.parseNmapXML n output _).1 as [hosts parseErr].
      eapply report_wellFormed. reflexivity.
  - destruct (masscan.ValidateConfig m config) as [err |] eqn:V;
      [apply ScanFacts.masscan_Scan_invalid; exact V |].
    destruct (rt.cmdOutput w ctx (masscan.path m) (masscan.buildArgs target config))
      as [output [err |]] eqn:C.
    + rewrite (ScanFacts.masscan_Scan_failed _ _ _ _ _ _ _ V C).
      eexists. split; [reflexivity |]. unfold scanStatus. simpl.
      repeat split; auto; try discriminate.
    + rewrite (ScanFacts.masscan_Scan_ran _ _ _ _ _ _ V C).
      destruct (masscan.parseMasscanJSON m output _).1 as [hosts parseErr].
      eapply report_wellFormed. reflexivity.
Qed.

End WithLibraries.

End MoreScanFacts.

(** ** The start of every command *)

Module AppFacts.
Import AppSpec.

Section WithLibraries.
Context {xmlDecoder : nmap.XMLDecoder} {jsonDecoder : masscan.JSONDecoder}
  {timeLib : rt.TimeLib} {lookup : rt.PathLookup} {loader : config.Loader}
  {levels : logrus.Levels} {server : database.Server}.

Lemma Warnf_level (lg : logrus.Logger) (msg : string) :
  logrus.level (logrus.Warnf lg msg) = logrus.level lg.
Proof. unfold logrus.Warnf. destruct (logrus.IsLevelEnabled _ _); reflexivity. Qed.

Lemma Warnf_written (lg : logrus.Logger) (msg : string) :
  logrus.written (logrus.Warnf lg msg)
  = logrus.written lg
    ++ (if logrus.IsLevelEnabled lg logrus.WarnLevel then [(logrus.WarnLevel, msg)] else []).
Proof.
  unfold logrus.Warnf. destruct (logrus.IsLevelEnabled _ _); simpl;
    [reflexivity | rewrite app_nil_r; reflexivity].
Qed.

(** What [initializeApp] does once the configuration is loaded. *)
Lemma initializeApp_loaded (g : main.Globals) (c : config.Config) :
  config.LoadConfig (main.cfgFile g) = inl c ->
  exists lg sm,
    main.initializeApp g
    = Some (None,
            {| main.cfgFile := main.cfgFile g; main.verbose := main.verbose g;
               main.logger := Some lg; main.cfg := Some c;
               main.db := match database.NewConnection (dbConfigOf c)
                                  (loggerFor (main.verbose g) c) with
                          | inl d => Some d
                          | inr _ => None
                          end;
               main.repo := match database.NewConnection (dbConfigOf c)
                                    (loggerFor (main.verbose g) c) with
                            | inl d => Some (database.NewRepository d)
                            | inr _ => main.repo g
                            end;
               main.scanMgr := Some {| scanner.scanners := Some sm |} |})
    /\ logrus.level lg = levelFor (main.verbose g) c
    /\ logrus.written lg
       = (if logrus.IsLevelEnabled lg logrus.WarnLevel
          then (fun msg => (logrus.WarnLevel, msg)) <$> complaints (main.verbose g) c
          else [])
    /\ sm = (match rt.LookPath "masscan" with
             | inl p => <["masscan" := masscan.asScanner {| masscan.path := p |}]>
             | inr _ => fun m => m
             end)
            ((match rt.LookPath "nmap" with
              | inl p => <["nmap" := nmap.asScanner {| nmap.path := p |}]>
              | inr _ => fun m => m
              end) ∅).
Proof.
  intros L. unfold main.initializeApp. rewrite L.
  fold (dbConfigOf c).
  set (lg0 := match logrus.ParseLevel _ with inl l => _ | inr _ => _ end).
  assert (E0 : lg0 = loggerFor (main.verbose g) c).
  { subst lg0. unfold loggerFor, levelFor.
    destruct (logrus.ParseLevel _); destruct (main.verbose g); reflexivity. }
  rewrite E0. clear lg0 E0. unfold complaints.
  set (lg0 := loggerFor (main.verbose g) c).
  assert (W0 : logrus.written lg0 = []) by reflexivity.
  assert (V0 : logrus.level lg0 = levelFor (main.verbose g) c) by reflexivity.
  unfold nmap.NewScanner, masscan.NewScanner, scanner.RegisterScanner,
    scanner.NewScannerManager.
  assert (En : forall lg msg, logrus.level lg = logrus.level lg0 ->
            logrus.IsLevelEnabled (logrus.Warnf lg msg) logrus.WarnLevel
            = logrus.IsLevelEnabled lg0 logrus.WarnLevel).
  { intros lg msg E. unfold logrus.IsLevelEnabled. rewrite Warnf_level, E. reflexivity. }
  destruct (database.NewConnection (dbConfigOf c) lg0) as [d | e1];
    [destruct (database.Migrate d "./migrations") as [e1 |] |];
    destruct (rt.LookPath "nmap") as [p1 | e2];
    destruct (rt.LookPath "masscan") as [p2 | e3];
    cbn [scanner.scanners scanner.GetName nmap.asScanner masscan.asScanner
         nmap.GetName masscan.GetName];
    eexists; eexists; (split; [reflexivity |]);
    rewrite ?Warnf_level; (split; [exact V0 |]);
    rewrite ?Warnf_written, ?W0; unfold logrus.IsLevelEnabled;
    rewrite ?Warnf_level; cbn [rt.Errorf_w rt.Error];
    (split; [| reflexivity]);
    destruct (logrus.rank logrus.WarnLevel <=? logrus.rank (logrus.level lg0));
    reflexivity.
Qed.

(** X9.  The application fails to start only when its configuration does not
    load.  [initializeApp] never panics.  When loading fails it returns
    the error behind "failed to load config: " and leaves the database
    handle, the repository and the scanner manager as they were.  When
    loading succeeds it returns no error, whatever the database server
    and the search for the executables answer: a refused connection
    leaves the repository as it was, and a connection followed by a
    failed migration still yields a repository over that connection. *)
Theorem initializeApp_fails_only_on_config (g : main.Globals) :
  exists out g',
    main.initializeApp g = Some (out, g')
    /\ (out = None <-> exists c, config.LoadConfig (main.cfgFile g) = inl c)
    /\ (forall err, config.LoadConfig (main.cfgFile g) = inr err ->
        out = Some (rt.Errorf_w "failed to load config: " err)
        /\ main.cfg g' = None /\ main.db g' = main.db g
        /\ main.repo g' = main.repo g /\ main.scanMgr g' = main.scanMgr g)
    /\ (forall c, config.LoadConfig (main.cfgFile g) = inl c ->
        main.cfg g' = Some c
        /\ (forall d, main.db g' = Some d ->
            main.repo g' = Some (database.NewRepository d))
        /\ (main.db g' = None -> main.repo g' = main.repo g)
        /\ (forall d, database.NewConnection (dbConfigOf c) (loggerFor (main.verbose g) c)
                      = inl d -> main.db g' = Some d)
        /\ main.scanMgr g' <> None).
Proof.
  destruct (config.LoadConfig (main.cfgFile g)) as [c | err] eqn:L.
  - destruct (initializeApp_loaded g c L) as (lg & sm & E & _).
    eexists; eexists. split; [exact E |]. cbn [main.cfg main.db main.repo main.scanMgr].
    split; [split; eauto |]. split; [intros err [=] |].
    intros c' [= <-]. split; [reflexivity |].
    destruct (database.NewConnection _ _) as [d | e].
    + split; [intros d' [= <-]; reflexivity |]. split; [discriminate |].
      split; [intros d' [= <-]; reflexivity | discriminate].
    + split; [discriminate |]. split; [reflexivity |]. split; discriminate.
  - unfold main.initializeApp. rewrite L. eexists; eexists. split; [reflexivity |].
    cbn [main.cfg main.db main.repo main.scanMgr].
    split; [split; [discriminate | intros [c [=]]] |].
    split; [intros err' [= <-]; repeat split | intros c [=]].
Qed.

(** X10.  The scanners on offer after a start are the adapters whose
    executables were found: under a configuration that loads, a scanner
    is registered under a name exactly when the name is "nmap" or
    "masscan" and the search of PATH found that executable; what is
    registered is the adapter for the path found, and the names listed
    are these names, each once. *)
Theorem initializeApp_registers_found_scanners (g : main.Globals) (c : config.Config)
  (w : rt.World) :
  config.LoadConfig (main.cfgFile g) = inl c ->
  exists g' sm,
    main.initializeApp g = Some (None, g')
    /\ main.scanMgr g' = Some sm
    /\ (forall name, (scanner.GetScanner sm name).2 = true
                     <-> (name = "nmap" \/ name = "masscan") /\ found name)
    /\ (forall path, rt.LookPath "nmap" = inl path ->
        (scanner.GetScanner sm "nmap").1 = Some (nmap.asScanner {| nmap.path := path |}))
    /\ (forall path, rt.LookPath "masscan" = inl path ->
        (scanner.GetScanner sm "masscan").1
        = Some (masscan.asScanner {| masscan.path := path |}))
    /\ NoDup (scanner.ListScanners sm w).1
    /\ (forall name, name ∈ (scanner.ListScanners sm w).1
                     <-> (scanner.GetScanner sm name).2 = true).
Proof.
  intros L. destruct (initializeApp_loaded g c L) as (lg & m & E & _ & _ & M).
  eexists; eexists. split; [exact E |]. cbn [main.scanMgr]. split; [reflexivity |].
  unfold scanner.GetScanner, scanner.ListScanners, found. cbn [scanner.scanners].
  assert (K : forall name, is_Some (m !! name)
              <-> (name = "nmap" \/ name = "masscan") /\ found name).
  { intros name. subst m. unfold found.
    assert (N : is_Some (@None scanner.Scanner) <-> False)
      by (split; [apply is_Some_None | intros []]).
    destruct (rt.LookPath "nmap") as [p1 | e1] eqn:L1;
      destruct (rt.LookPath "masscan") as [p2 | e2] eqn:L2;
      rewrite ?lookup_insert_is_Some, ?lookup_empty, ?N;
      (split; [intros H | intros [[-> | ->] [p F]]]);
      try congruence; try tauto;
      try (right; split; [discriminate | tauto]);
      intuition (subst; eauto). }
  split; [| split; [| split; [| split]]].
  - intros name. rewrite <- K. destruct (m !! name); simpl; split;
      eauto; try discriminate. intros [x [=]].
  - intros path P. subst m. rewrite P.
    destruct (rt.LookPath "masscan");
      [rewrite lookup_insert_ne by discriminate |]; rewrite lookup_insert; reflexivity.
  - intros path P. subst m. rewrite P. rewrite lookup_insert. reflexivity.
  - cbn [fst]. rewrite (rt.rangeOrder_perm w _ _). apply NoDup_fst_map_to_list.
  - intros name. cbn [fst]. rewrite (rt.rangeOrder_perm w _ _).
    rewrite list_elem_of_fmap. split.
    + intros ((k & s) & -> & I). apply elem_of_map_to_list in I. simpl. rewrite I.
      reflexivity.
    + destruct (m !! name) as [s |] eqn:F; [| discriminate]. intros _.
      exists (name, s). split; [reflexivity | apply elem_of_map_to_list; exact F].
Qed.


End WithLibraries.

(** On a machine with nmap only, no database server and the level
    "error" configured. *)
Lemma initializeApp_registers_found_scanners_witness :
  exists g' sm,
    main.initializeApp (AppExamples.fresh "config.yaml") = Some (None, g')
    /\ main.scanMgr g' = Some sm
    /\ (scanner.GetScanner sm "nmap").2 = true
    /\ (scanner.GetScanner sm "masscan").2 <> true.
Proof.
  destruct (initializeApp_registers_found_scanners (AppExamples.fresh "config.yaml")
              AppExamples.defaults (Examples.world "" None) eq_refl)
    as (g' & sm & E & S & K & _).
  exists g', sm. split; [exact E |]. split; [exact S |]. split.
  - apply K. split; [left; reflexivity | exists "/usr/bin/nmap"; reflexivity].
  - intros F. apply K in F as [_ [path F]]. discriminate F.
Defined.


End AppFacts.

(** ** The comma-separated report *)

Module OutputFacts.
Import OutputSpec.

Lemma fieldLoop_tail (record : list string) :
  forall i acc k,
  output.fieldLoop (S i) record acc +:+ k = acc +:+ tailText record k.
Proof.
  induction record as [| field rest IH]; intros i acc k; [reflexivity |].
  cbn [output.fieldLoop tailText]. change (0 <? S i)%nat with true. cbv iota.
  rewrite IH. unfold output.quoted, cell.
  rewrite !RegexpFacts.app_assoc. simpl. rewrite !RegexpFacts.app_assoc. reflexivity.
Qed.

Lemma fieldLoop_row (record : list string) (acc k : string) :
  output.fieldLoop 0 record acc +:+ String "010"%char k = acc +:+ rowText record k.
Proof.
  destruct record as [| field rest]; [reflexivity |].
  cbn [output.fieldLoop rowText]. change (0 <? 0)%nat with false. cbv iota.
  rewrite fieldLoop_tail. unfold output.quoted, cell.
  rewrite !RegexpFacts.app_assoc. simpl. rewrite !RegexpFacts.app_assoc. reflexivity.
Qed.

Lemma recordLoop_render (records : list (list string)) :
  forall acc, output.recordLoop records acc = acc +:+ render records.
Proof.
  induction records as [| record rest IH]; intros acc.
  - simpl. rewrite RegexpFacts.app_nil_r. reflexivity.
  - cbn [output.recordLoop]. rewrite IH.
    rewrite RegexpFacts.app_assoc.
    change (String "010"%char "" +:+ render rest) with (String "010"%char (render rest)).
    apply fieldLoop_row.
Qed.

Lemma hostLoop_records (hosts : list models.Host.t) :
  forall records, output.hostLoop hosts records = records ++ (hostRecord <$> hosts).
Proof.
  induction hosts as [| host rest IH]; intros records; cbn [output.hostLoop fmap list_fmap].
  - rewrite app_nil_r. reflexivity.
  - rewrite IH, <- app_assoc. reflexivity.
Qed.

(** The records in one piece. *)
Lemma csvRecords_spec (result : scanner.ScanResult.t) :
  output.csvRecords result
  = ["Target"; "Scanner"; "Status"; "Start Time"; "End Time"; "Duration"; "Host Count"]
    :: (summary result ++ [Go.Itoa (Z.of_nat (length (scanner.ScanResult.Hosts result)))])
    :: match scanner.ScanResult.Hosts result with
       | [] => []
       | hosts =>
         [] :: ["IP Address"; "Hostname"; "Status"; "OS"; "OS Confidence"]
            :: (hostRecord <$> hosts)
       end.
Proof.
  unfold output.csvRecords. destruct (scanner.ScanResult.Hosts result) as [| host rest] eqn:E;
    [reflexivity |].
  change (0 <? length (host :: rest))%nat with true. cbv iota.
  rewrite hostLoop_records. reflexivity.
Qed.

Lemma hostRecord_hostRow (host : models.Host.t) :
  hostRecord host = (hostRow host).1 ++ [Go.Itoa (hostRow host).2].
Proof. reflexivity. Qed.

Lemma csvRecords_exported (r1 r2 : scanner.ScanResult.t) :
  exported r1 = exported r2 -> output.csvRecords r1 = output.csvRecords r2.
Proof.
  intros E. pose proof (f_equal fst E) as S. pose proof (f_equal snd E) as H.
  cbn [exported fst snd] in S, H. rewrite !csvRecords_spec, S.
  assert (L : length (scanner.ScanResult.Hosts r1) = length (scanner.ScanResult.Hosts r2)).
  { rewrite <- (length_fmap hostRow (scanner.ScanResult.Hosts r1)), H. apply length_fmap. }
  assert (R : hostRecord <$> scanner.ScanResult.Hosts r1
              = hostRecord <$> scanner.ScanResult.Hosts r2).
  { transitivity ((fun p : list string * Z => p.1 ++ [Go.Itoa p.2])
                    <$> (hostRow <$> scanner.ScanResult.Hosts r1)).
    - rewrite <- list_fmap_compose. reflexivity.
    - rewrite H, <- list_fmap_compose. reflexivity. }
  rewrite L. destruct (scanner.ScanResult.Hosts r1), (scanner.ScanResult.Hosts r2);
    try discriminate; [reflexivity |]. rewrite R. reflexivity.
Qed.

(** A quote-free field ends at the first quote. *)
Lemma cell_inj (a b k k' : string) :
  quoteFree a = true -> quoteFree b = true ->
  cell a k = cell b k' -> a = b /\ k = k'.
Proof.
  unfold cell, quoteFree. intros A B [= E]. revert b B E.
  induction a as [| x a IH]; intros [| y b] B E;
    cbn [PortGrammar.noByte String.append] in *.
  - injection E as <-. split; reflexivity.
  - injection E as <- _. rewrite Ascii.eqb_refl in B. discriminate.
  - injection E as -> _. rewrite Ascii.eqb_refl in A. discriminate.
  - injection E as <- E. apply andb_prop in A as [_ A]. apply andb_prop in B as [_ B].
    destruct (IH A b B E) as [-> ->]. split; reflexivity.
Qed.

Lemma uint_quoteFree (d : Decimal.uint) : quoteFree (NilEmpty.string_of_uint d) = true.
Proof. induction d; simpl; auto. Qed.

Lemma Itoa_quoteFree (n : Z) : quoteFree (Go.Itoa n) = true.
Proof.
  unfold Go.Itoa. destruct (Z.to_int n) as [d | d]; cbn [NilZero.string_of_int];
    [| change (quoteFree (String "-" ?s)) with (quoteFree s)];
    (destruct d; [reflexivity | apply uint_quoteFree ..]).
Qed.

Lemma Itoa_inj (n m : Z) : Go.Itoa n = Go.Itoa m -> n = m.
Proof.
  unfold Go.Itoa. intros E. apply DecimalZ.to_int_inj.
  assert (P : forall z, NilZero.int_of_string (NilZero.string_of_int (Z.to_int z))
                        = Some (Z.to_int z)).
  { intros z. apply NilZero.isi; destruct z as [| p | p]; simpl; try discriminate;
      intros [= N]; exact (DecimalPos.Unsigned.to_uint_nonnil p N). }
  pose proof (P n) as Pn. rewrite E, P in Pn. injection Pn as Pn. symmetry. exact Pn.
Qed.

Lemma length_append (a b : string) :
  String.length (a +:+ b) = (String.length a + String.length b)%nat.
Proof. induction a as [| x a IH]; simpl; [reflexivity | rewrite IH; reflexivity]. Qed.

Lemma String_inj (c : ascii) (x y : string) : String c x = String c y -> x = y.
Proof. intros [= E]. exact E. Qed.

(** Peeling the fields off two equal lines. *)
Ltac peel H :=
  repeat first
    [ apply cell_inj in H as [? H];
      [| first [assumption | reflexivity | apply Itoa_quoteFree] ..]
    | apply String_inj in H ].

Lemma hostRows_inj (hs1 : list models.Host.t) :
  forall hs2 : list models.Host.t,
  forallb cleanHost hs1 = true -> forallb cleanHost hs2 = true ->
  render (hostRecord <$> hs1) = render (hostRecord <$> hs2) ->
  hostRow <$> hs1 = hostRow <$> hs2.
Proof.
  induction hs1 as [| h1 hs1 IH]; intros [| h2 hs2] C1 C2 E;
    try reflexivity; try discriminate.
  cbn [forallb] in C1, C2.
  apply andb_prop in C1 as [D1 C1]. apply andb_prop in C2 as [D2 C2].
  unfold cleanHost in D1, D2. cbn [forallb hostRow fst] in D1, D2.
  repeat match goal with H : _ && _ = true |- _ => apply andb_prop in H as [? H] end.
  cbn [fmap list_fmap render fold_right hostRecord rowText tailText] in E.
  fold (render (hostRecord <$> hs1)) in E. fold (render (hostRecord <$> hs2)) in E.
  peel E.
  cbn [fmap list_fmap]. f_equal; [| apply IH; assumption].
  unfold hostRow. f_equal; [congruence |]. apply Itoa_inj. assumption.
Qed.

Section WithLibraries.
Context {encoders : output.Encoders}.

Lemma Format_csv (result : scanner.ScanResult.t) (w : rt.World) :
  output.Format output.CSVFormatter result w = ((render (output.csvRecords result), None), w).
Proof.
  cbn [output.Format output.CSVFormatter]. unfold rt.ret.
  rewrite recordLoop_render. reflexivity.
Qed.

(** X12.  The comma-separated report shows the target, the scanner, the
    status, the two times, the duration, the number of hosts, and of each
    host the address, hostname, status, OS and OS confidence, and nothing
    else: two results that agree on these give the same bytes, whatever
    their raw output, their error text and the identifiers, scan
    identifiers and creation times of their hosts.  Formatting never
    fails and leaves the world as it is. *)
Theorem csv_shows_exported_only (r1 r2 : scanner.ScanResult.t) (w1 w2 : rt.World) :
  exported r1 = exported r2 ->
  (output.Format output.CSVFormatter r1 w1).1 = (output.Format output.CSVFormatter r2 w2).1
  /\ (output.Format output.CSVFormatter r1 w1).1.2 = None
  /\ (output.Format output.CSVFormatter r1 w1).2 = w1.
Proof.
  intros E. rewrite !Format_csv. cbn [fst snd].
  rewrite (csvRecords_exported r1 r2 E). repeat split.
Qed.

(** X13.  When no text shown holds a double quote, the report can be read
    back: two such results with the same bytes agree on everything the
    report shows. *)
Theorem csv_quote_free_reads_back (r1 r2 : scanner.ScanResult.t) (w1 w2 : rt.World) :
  clean r1 = true -> clean r2 = true ->
  (output.Format output.CSVFormatter r1 w1).1.1 = (output.Format output.CSVFormatter r2 w2).1.1 ->
  exported r1 = exported r2.
Proof.
  unfold clean. intros [S1 H1]%andb_prop [S2 H2]%andb_prop E.
  rewrite !Format_csv in E. cbn [fst snd] in E. rewrite !csvRecords_spec in E.
  unfold exported. unfold summary in *. cbn [forallb] in S1, S2.
  repeat match goal with H : _ && _ = true |- _ => apply andb_prop in H as [? H] end.
  cbn [render fold_right rowText tailText app] in E.
  match type of E with
  | context [fold_right rowText "" ?l] => fold (render l) in E
  end.
  match type of E with
  | _ = ?rhs => match rhs with context [fold_right rowText "" ?l] => fold (render l) in E end
  end.
  peel E.
  match goal with H : Go.Itoa _ = Go.Itoa _ |- _ => apply Itoa_inj, Nat2Z.inj in H end.
  f_equal; [congruence |].
  destruct (scanner.ScanResult.Hosts r1) as [| h1 hs1] eqn:E1,
           (scanner.ScanResult.Hosts r2) as [| h2 hs2] eqn:E2;
    try reflexivity; try discriminate.
  cbn [render fold_right rowText tailText] in E.
  fold (render (hostRecord <$> h1 :: hs1)) in E.
  fold (render (hostRecord <$> h2 :: hs2)) in E.
  remember (render (hostRecord <$> h1 :: hs1)) as t1 eqn:T1.
  remember (render (hostRecord <$> h2 :: hs2)) as t2 eqn:T2.
  peel E. subst t1 t2. apply hostRows_inj; assumption.
Qed.

(** X14.  Fields are written between quotes as they are, quotes inside them
    included: a quote, a comma and a quote inside the target read as the
    boundary between target and scanner.  For all texts [a], [b] and [c],
    the target [a","b] with the scanner [c] gives the same bytes as the
    target [a] with the scanner [b","c], though the two results differ. *)
Theorem csv_fields_not_escaped (r : scanner.ScanResult.t) (a b c : string) (w : rt.World) :
  let r1 := retitled r (a +:+ seam +:+ b) c in
  let r2 := retitled r a (b +:+ seam +:+ c) in
  output.Format output.CSVFormatter r1 w = output.Format output.CSVFormatter r2 w
  /\ exported r1 <> exported r2.
Proof.
  intros r1 r2. split.
  - rewrite !Format_csv, !csvRecords_spec. subst r1 r2. unfold retitled, summary.
    cbn [scanner.ScanResult.Target scanner.ScanResult.Scanner scanner.ScanResult.Status
         scanner.ScanResult.StartTime scanner.ScanResult.EndTime
         scanner.ScanResult.Duration scanner.ScanResult.Hosts].
    cbn [render fold_right rowText tailText app]. unfold cell, seam.
    rewrite !RegexpFacts.app_assoc. reflexivity.
  - unfold exported, summary. subst r1 r2. cbn [retitled scanner.ScanResult.Target].
    intros [= E _]. apply (f_equal String.length) in E.
    rewrite !length_append in E. unfold seam in E. simpl in E. lia.
Qed.

End WithLibraries.

(** The same scan with and without its raw output, and with other
    identifiers for its host. *)
Lemma csv_shows_exported_only_witness :
  (output.Format output.CSVFormatter
     (OutputExamples.scanOf [Examples.routerHost 1%N 5] "raw output") (Examples.world "" None)).1
  = (output.Format output.CSVFormatter
       (OutputExamples.scanOf [Examples.routerHost 2%N 9] "") (Examples.world "x" None)).1.
Proof.
  exact (proj1 (csv_shows_exported_only
                  (OutputExamples.scanOf [Examples.routerHost 1%N 5] "raw output")
                  (OutputExamples.scanOf [Examples.routerHost 2%N 9] "")
                  (Examples.world "" None) (Examples.world "x" None) eq_refl)).
Defined.

Lemma csv_quote_free_reads_back_witness :
  exported (OutputExamples.scanOf [Examples.routerHost 1%N 5] "raw output")
  = exported (OutputExamples.scanOf [Examples.routerHost 2%N 9] "").
Proof.
  apply (csv_quote_free_reads_back _ _ (Examples.world "" None) (Examples.world "" None));
    vm_compute; reflexivity.
Defined.

End OutputFacts.

(** ** The formatter manager *)

Module ManagerFacts.
Import OutputSpec.

Section WithLibraries.
Context {encoders : output.Encoders}.

(** The map of the manager every program starts with. *)
Lemma NewFormatterManager_map :
  output.NewFormatterManager
  = Some {| output.formatters :=
              Some (<["html" := output.HTMLFormatter]>
                      (<["csv" := output.CSVFormatter]>
                         (<["xml" := output.XMLFormatter]>
                            (<["json" := output.JSONFormatter]> ∅)))) |}.
Proof. reflexivity. Qed.

Lemma default_lookup (name : string) :
  (<["html" := output.HTMLFormatter]>
     (<["csv" := output.CSVFormatter]>
        (<["xml" := output.XMLFormatter]>
           (<["json" := output.JSONFormatter]> (∅ : gmap string output.Formatter)))))
    !! name
  = if String.eqb name "html" then Some output.HTMLFormatter
    else if String.eqb name "csv" then Some output.CSVFormatter
    else if String.eqb name "xml" then Some output.XMLFormatter
    else if String.eqb name "json" then Some output.JSONFormatter
    else None.
Proof.
  destruct (String.eqb_spec name "html") as [-> | N1]; [apply lookup_insert_eq |].
  rewrite lookup_insert_ne by congruence.
  destruct (String.eqb_spec name "csv") as [-> | N2]; [apply lookup_insert_eq |].
  rewrite lookup_insert_ne by congruence.
  destruct (String.eqb_spec name "xml") as [-> | N3]; [apply lookup_insert_eq |].
  rewrite lookup_insert_ne by congruence.
  destruct (String.eqb_spec name "json") as [-> | N4]; [apply lookup_insert_eq |].
  rewrite lookup_insert_ne by congruence. apply lookup_empty.
Qed.

(** What [FormatAndSave] does to the files, step by step. *)
Lemma Create_Write (filename data : string) (fs : os.FileSystem) :
  os.createError fs filename = None ->
  (os.Write filename data (os.Create filename fs).2)
  = match os.writeError fs filename data with
    | Some (n, err) =>
      ((n, Some err), os.setFiles fs (<[filename := String.substring 0 n data]> (os.files fs)))
    | None =>
      ((String.length data, None), os.setFiles fs (<[filename := data]> (os.files fs)))
    end.
Proof.
  intros C. unfold os.Create, os.Write. rewrite C.
  cbn [snd os.setFiles os.files os.writeError os.createError].
  rewrite lookup_insert_eq. cbn [default].
  destruct (os.writeError fs filename data) as [[n err] |]; unfold os.setFiles;
    cbn [os.files os.createError os.writeError]; rewrite insert_insert_eq; reflexivity.
Qed.

Lemma FormatAndSave_found (fm : output.FormatterManager) (result : scanner.ScanResult.t)
  (format filename : string) (w : rt.World) (fs : os.FileSystem) (f : output.Formatter) :
  (output.GetFormatter fm format).1 = Some f ->
  output.FormatAndSave fm result format filename w fs
  = let '((data, err), w1) := output.Format f result w in
    match err with
    | Some err => (Some (rt.Errorf_w "failed to format output: " err), w1, fs)
    | None =>
      match os.createError fs filename with
      | Some err => (Some (rt.Errorf_w "failed to create file: " err), w1, fs)
      | None =>
        match os.writeError fs filename data with
        | Some (n, err) =>
          (Some (rt.Errorf_w "failed to write file: " err), w1,
           os.setFiles fs (<[filename := String.substring 0 n data]> (os.files fs)))
        | None => (None, w1, os.setFiles fs (<[filename := data]> (os.files fs)))
        end
      end
    end.
Proof.
  unfold output.FormatAndSave, output.GetFormatter.
  destruct (output.formatters fm) as [m |]; [| discriminate].
  destruct (m !! format) as [f' |]; [| discriminate]. intros [= ->].
  destruct (output.Format f result w) as [[data [err |]] w1]; [reflexivity |].
  destruct (os.createError fs filename) as [err |] eqn:C.
  - unfold os.Create. rewrite C. reflexivity.
  - pose proof (Create_Write filename data fs C) as W.
    unfold os.Create in *. rewrite C in *. cbn [snd] in W. rewrite W.
    destruct (os.writeError fs filename data) as [[n err] |]; reflexivity.
Qed.

Lemma FormatAndSave_missing (fm : output.FormatterManager) (result : scanner.ScanResult.t)
  (format filename : string) (w : rt.World) (fs : os.FileSystem) :
  (output.GetFormatter fm format).2 = false ->
  output.FormatAndSave fm result format filename w fs
  = (Some (rt.errorString ("formatter '" +:+ format
                           +:+ "' not available. Available formatters: "
                           +:+ output.Sprint_strings (output.ListFormatters fm w).1)),
     w, fs).
Proof.
  unfold output.FormatAndSave, output.GetFormatter, output.ListFormatters.
  destruct (output.formatters fm) as [m |]; [| reflexivity].
  destruct (m !! format) as [f' |]; [discriminate | reflexivity].
Qed.

(** X15.  Every manager a program starts with holds the four formatters, each
    under its own file extension: a formatter is found exactly under
    "json", "xml", "csv" and "html"; what is found under a name writes
    files of that extension; and the names listed are these four, in
    the order of the range over the map. *)
Theorem default_formatters_by_extension :
  exists fm,
    output.NewFormatterManager = Some fm
    /\ (forall name, (output.GetFormatter fm name).2 = true <-> name ∈ defaultNames)
    /\ (forall name f, (output.GetFormatter fm name).1 = Some f ->
        output.GetFileExtension f = name)
    /\ (forall w, (output.ListFormatters fm w).1 ≡ₚ defaultNames
                  /\ (output.ListFormatters fm w).2 = w).
Proof.
  eexists. split; [exact NewFormatterManager_map |].
  unfold output.GetFormatter, output.ListFormatters, defaultNames.
  cbn [output.formatters]. split; [| split].
  - intros name. rewrite default_lookup.
    destruct (String.eqb_spec name "html") as [-> | N1]; [split; [set_solver | reflexivity] |].
    destruct (String.eqb_spec name "csv") as [-> | N2]; [split; [set_solver | reflexivity] |].
    destruct (String.eqb_spec name "xml") as [-> | N3]; [split; [set_solver | reflexivity] |].
    destruct (String.eqb_spec name "json") as [-> | N4]; [split; [set_solver | reflexivity] |].
    split; [discriminate | set_solver].
  - intros name f. rewrite default_lookup.
    destruct (String.eqb_spec name "html") as [-> | N1]; [intros [= <-]; reflexivity |].
    destruct (String.eqb_spec name "csv") as [-> | N2]; [intros [= <-]; reflexivity |].
    destruct (String.eqb_spec name "xml") as [-> | N3]; [intros [= <-]; reflexivity |].
    destruct (String.eqb_spec name "json") as [-> | N4]; [intros [= <-]; reflexivity |].
    discriminate.
  - intros w. split; [| reflexivity]. cbn [fst].
    rewrite (rt.rangeOrder_perm w _ _).
    apply NoDup_Permutation.
    + apply NoDup_fst_map_to_list.
    + repeat constructor; set_solver.
    + intros name. rewrite list_elem_of_fmap. split.
      * intros ((k & f) & -> & I). apply elem_of_map_to_list in I. simpl.
        rewrite default_lookup in I.
        destruct (String.eqb_spec k "html") as [-> | N1]; [set_solver |].
        destruct (String.eqb_spec k "csv") as [-> | N2]; [set_solver |].
        destruct (String.eqb_spec k "xml") as [-> | N3]; [set_solver |].
        destruct (String.eqb_spec k "json") as [-> | N4]; [set_solver |].
        discriminate.
      * intros I.
        assert (S : is_Some ((<["html" := output.HTMLFormatter]>
                   (<["csv" := output.CSVFormatter]>
                      (<["xml" := output.XMLFormatter]>
                         (<["json" := output.JSONFormatter]>
                            (∅ : gmap string output.Formatter))))) !! name)).
        { rewrite default_lookup.
          destruct (String.eqb_spec name "html") as [-> | N1]; [eauto |].
          destruct (String.eqb_spec name "csv") as [-> | N2]; [eauto |].
          destruct (String.eqb_spec name "xml") as [-> | N3]; [eauto |].
          destruct (String.eqb_spec name "json") as [-> | N4]; [eauto |].
          set_solver. }
        destruct S as [f F]. exists (name, f).
        split; [reflexivity | apply elem_of_map_to_list; exact F].
Qed.

(** X16.  A format no formatter is registered for: the error names the format
    and lists the names on offer, between brackets and in the order of
    the range over the map; no file is touched and the world is left as
    it is. *)
Theorem FormatAndSave_unknown_format
  (fm : output.FormatterManager) (result : scanner.ScanResult.t)
  (format filename : string) (w : rt.World) (fs : os.FileSystem) :
  (output.GetFormatter fm format).2 = false ->
  exists names,
    output.FormatAndSave fm result format filename w fs
    = (Some (rt.errorString ("formatter '" +:+ format
                             +:+ "' not available. Available formatters: ["
                             +:+ PortGrammar.joinWith " " names +:+ "]")), w, fs)
    /\ NoDup names
    /\ (forall name, name ∈ names <-> (output.GetFormatter fm name).2 = true).
Proof.
  intros G. exists (output.ListFormatters fm w).1.
  split; [rewrite (FormatAndSave_missing _ _ _ _ _ _ G); reflexivity |].
  unfold output.ListFormatters, output.GetFormatter.
  destruct (output.formatters fm) as [m |]; cbn [fst rt.ret].
  - split; [rewrite (rt.rangeOrder_perm w _ _); apply NoDup_fst_map_to_list |].
    intros name. rewrite (rt.rangeOrder_perm w _ _), list_elem_of_fmap. split.
    + intros ((k & f) & -> & I). apply elem_of_map_to_list in I. simpl. rewrite I.
      reflexivity.
    + destruct (m !! name) as [f |] eqn:F; [| discriminate]. intros _.
      exists (name, f). split; [reflexivity | apply elem_of_map_to_list; exact F].
  - split; [constructor |]. intros name. split; [set_solver | discriminate].
Qed.

(** X17.  What saving does to the files, for every manager and formatter.
    Only the file named is ever touched.  It is touched only when a
    formatter was found, formatting succeeded and the file could be
    created.  No error means the file holds exactly the bytes of the
    formatter.  And the file is emptied before it is written: when the
    write fails after [n] bytes, the error is returned and the file
    holds the first [n] bytes of the new data, whatever it held
    before. *)
Theorem FormatAndSave_files
  (fm : output.FormatterManager) (result : scanner.ScanResult.t)
  (format filename : string) (w : rt.World) (fs : os.FileSystem) :
  let out := output.FormatAndSave fm result format filename w fs in
  let found := (output.GetFormatter fm format).1 in
  let formatted := fun f => output.Format f result w in
  (forall name, name <> filename -> os.files out.2 !! name = os.files fs !! name)
  /\ (out.2 <> fs ->
      exists f, found = Some f /\ (formatted f).1.2 = None
                /\ os.createError fs filename = None)
  /\ (out.1.1 = None ->
      exists f, found = Some f /\ out.1.2 = (formatted f).2
                /\ os.files out.2 !! filename = Some (formatted f).1.1)
  /\ (forall f n err,
      found = Some f -> (formatted f).1.2 = None -> os.createError fs filename = None ->
      os.writeError fs filename (formatted f).1.1 = Some (n, err) ->
      out.1.1 = Some (rt.Errorf_w "failed to write file: " err)
      /\ os.files out.2 !! filename = Some (String.substring 0 n (formatted f).1.1)).
Proof.
  intros out found formatted. subst out found formatted.
  destruct (output.GetFormatter fm format).1 as [f |] eqn:G.
  - rewrite (FormatAndSave_found _ _ _ _ _ _ f G).
    destruct (output.Format f result w) as [[data [ferr |]] w1] eqn:F; cbn [fst snd].
    { split; [reflexivity |]. split; [intros N; contradiction |].
      split; [discriminate |]. intros f' n err [= <-]. rewrite F. discriminate. }
    destruct (os.createError fs filename) as [cerr |] eqn:C; cbn [fst snd].
    { split; [reflexivity |]. split; [intros N; contradiction |].
      split; [discriminate |]. intros f' n err _ _; discriminate. }
    destruct (os.writeError fs filename data) as [[n werr] |] eqn:W;
      cbn [fst snd os.setFiles os.files].
    + split; [intros name N; apply lookup_insert_ne; congruence |].
      split; [intros _; exists f; rewrite F; repeat split |].
      split; [discriminate |].
      intros f' n' err [= <-]. rewrite F. cbn [fst snd]. intros _ _. rewrite W.
      intros [= <- <-]. split; [reflexivity | apply lookup_insert_eq].
    + split; [intros name N; apply lookup_insert_ne; congruence |].
      split; [intros _; exists f; rewrite F; repeat split |].
      split; [intros _; exists f; rewrite F; repeat split; apply lookup_insert_eq |].
      intros f' n' err [= <-]. rewrite F. cbn [fst snd]. intros _ _. rewrite W.
      discriminate.
  - assert (G' : (output.GetFormatter fm format).2 = false).
    { unfold output.GetFormatter in *. destruct (output.formatters fm) as [m |];
        [destruct (m !! format); [discriminate | reflexivity] | reflexivity]. }
    rewrite (FormatAndSave_missing _ _ _ _ _ _ G'). cbn [fst snd].
    split; [reflexivity |]. split; [intros N; contradiction |].
    split; [discriminate |]. intros f n err [=].
Qed.

(** X18.  Saving the comma-separated report with the manager every program
    starts with: when the file can be created and written, no error is
    returned, the world is left as it is, and the file holds the report
    in place of what it held; every other file is as before. *)
Theorem csv_report_saved
  (fm : output.FormatterManager) (result : scanner.ScanResult.t)
  (filename : string) (w : rt.World) (fs : os.FileSystem) :
  output.NewFormatterManager = Some fm ->
  os.createError fs filename = None ->
  os.writeError fs filename (render (output.csvRecords result)) = None ->
  output.FormatAndSave fm result "csv" filename w fs
  = (None, w, os.setFiles fs (<[filename := render (output.csvRecords result)]> (os.files fs))).
Proof.
  rewrite NewFormatterManager_map. intros [= <-] C W.
  rewrite (FormatAndSave_found _ _ _ _ _ _ output.CSVFormatter).
  - rewrite OutputFacts.Format_csv, C, W. reflexivity.
  - unfold output.GetFormatter. cbn [output.formatters]. rewrite default_lookup. reflexivity.
Qed.

End WithLibraries.

(** No formatter for "pdf". *)
Lemma FormatAndSave_unknown_format_witness :
  exists names,
    output.FormatAndSave
      {| output.formatters := Some {["csv" := output.CSVFormatter]} |}
      (OutputExamples.scanOf [] "") "pdf" "report.pdf" (Examples.world "" None)
      OutputExamples.disk
    = (Some (rt.errorString ("formatter 'pdf' not available. Available formatters: ["
                             +:+ PortGrammar.joinWith " " names +:+ "]")),
       Examples.world "" None, OutputExamples.disk)
    /\ NoDup names
    /\ (forall name, name ∈ names
        <-> (output.GetFormatter
               {| output.formatters := Some {["csv" := output.CSVFormatter]} |} name).2 = true).
Proof.
  apply (FormatAndSave_unknown_format
           {| output.formatters := Some {["csv" := output.CSVFormatter]} |}
           (OutputExamples.scanOf [] "") "pdf" "report.pdf" (Examples.world "" None)
           OutputExamples.disk).
  reflexivity.
Defined.

(** The older report is replaced and the notes are kept. *)
Lemma csv_report_saved_witness :
  exists fm fs',
    output.NewFormatterManager = Some fm
    /\ output.FormatAndSave fm (OutputExamples.scanOf [] "raw") "csv" "report.csv"
         (Examples.world "" None) OutputExamples.disk
       = (None, Examples.world "" None, fs')
    /\ os.files OutputExamples.disk !! "report.csv" = Some "old report"
    /\ os.files fs' !! "report.csv"
       = Some (render (output.csvRecords (OutputExamples.scanOf [] "raw")))
    /\ os.files fs' !! "notes.txt" = Some "keep".
Proof.
  destruct output.NewFormatterManager as [fm |] eqn:N; [| discriminate].
  exists fm. eexists. split; [reflexivity |].
  split; [apply (csv_report_saved fm _ _ _ OutputExamples.disk N); reflexivity |].
  split; [reflexivity |]. split; [apply lookup_insert_eq | reflexivity].
Defined.

End ManagerFacts.

(** ** What the parsers draw from the world *)

Module EffectFacts.
Import MasscanSpec MoreSpec.

Lemma drawn_0 (w : rt.World) : drawn 0 w = w.
Proof. destruct w. reflexivity. Qed.

Lemma drawn_add (a b : nat) (w : rt.World) : drawn a (drawn b w) = drawn (a + b) w.
Proof.
  unfold drawn. cbn [rt.uuidSource rt.uuidCount rt.clock rt.clockCount rt.rangeOrder
                     rt.rangeOrder_perm rt.cmdOutput rt.spawned].
  rewrite !Nat.add_assoc. reflexivity.
Qed.

Lemma drawn_pair (w : rt.World) : (rt.time_Now (rt.uuid_New w).2).2 = drawn 1 w.
Proof. reflexivity. Qed.

Lemma nmap_hostLoop_drawn (nodes : list nmap.NmapHost.t) :
  forall hosts w, (nmap.hostLoop nodes hosts w).2 = drawn (length nodes) w.
Proof.
  induction nodes as [| node nodes IH]; intros hosts w.
  - simpl. symmetry. apply drawn_0.
  - cbn [nmap.hostLoop]. unfold rt.bind.
    pose proof (NmapFacts.convertHost_world node w) as E.
    destruct (nmap.convertHost node w) as [host w1]. cbn [snd] in E.
    rewrite IH, E, drawn_pair, drawn_add. cbn [length]. apply (f_equal (fun n => drawn n w)); lia.
Qed.

Lemma portLoop_drawn (hostID : rt.UUID) (entries : list masscan.PortInfo.t) :
  forall w, (masscan.portLoop hostID entries w).2 = drawn (length entries) w.
Proof.
  induction entries as [| e entries IH]; intros w.
  - simpl. symmetry. apply drawn_0.
  - cbn [masscan.portLoop]. unfold rt.bind, masscan.newPort, rt.bind. simpl.
    specialize (IH (rt.time_Now (rt.uuid_New w).2).2).
    destruct (masscan.portLoop _ entries _) as [ports w']. cbn [snd] in *.
    subst w'. rewrite drawn_pair, drawn_add. cbn [length rt.ret snd]. apply (f_equal (fun n => drawn n w)); lia.
Qed.


Lemma placed_mono (w w' : rt.World) (m : gmap string models.Host.t) :
  rt.uuidSource w' = rt.uuidSource w -> (rt.uuidCount w <= rt.uuidCount w')%nat ->
  placed w m -> placed w' m.
Proof.
  intros S C (place & P). exists place. intros ip host L.
  destruct (P ip host L) as (I & B & U). rewrite S. split; [exact I |].
  split; [lia | exact U].
Qed.


Section WithLibraries.
Context {xmlDecoder : nmap.XMLDecoder} {jsonDecoder : masscan.JSONDecoder}
  {timeLib : rt.TimeLib}.

(** One step of the high-speed parser: what it draws, how the map
    grows, and where the identifier of a new host comes from. *)
Lemma lineStep_drawn (st : masscan.FoldState) (line : string) (w : rt.World)
  (result : masscan.MasscanResult.t) :
  decoded line = Some result ->
  placed w (masscan.hostMap st) ->
  let out := masscan.lineStep st line w in
  exists k,
    out.2 = drawn (k + length (masscan.MasscanResult.Ports result)) w
    /\ size (masscan.hostMap out.1) = (size (masscan.hostMap st) + k)%nat
    /\ placed out.2 (masscan.hostMap out.1).
Proof.
  intros E Pl. rewrite (MasscanFacts.lineStep_record _ _ _ _ E). unfold rt.bind.
  destruct (masscan.hostMap st !! masscan.MasscanResult.IP result) as [host |] eqn:L.
  - cbn [rt.ret].
    pose proof (portLoop_drawn (models.Host.ID host) (masscan.MasscanResult.Ports result) w)
      as D.
    destruct (masscan.portLoop _ _ w) as [ports w']. cbn [fst snd rt.ret masscan.hostMap] in *.
    exists 0%nat. split; [exact D |]. split; [lia |].
    subst w'. eapply placed_mono; [| | exact Pl]; [reflexivity | simpl; lia].
  - simpl.
    match goal with |- context [masscan.portLoop ?i ?l ?w0] =>
      pose proof (portLoop_drawn i l w0) as D;
      destruct (masscan.portLoop i l w0) as [ports w'];
      change w0 with (drawn 1 w) in D end.
    cbn [fst snd rt.ret masscan.hostMap] in *. exists 1%nat.
    rewrite drawn_add in D. split; [rewrite D; apply (f_equal (fun n => drawn n w)); lia |].
    split; [rewrite map_size_insert_None by exact L; lia |].
    subst w'. destruct Pl as (place & P).
    exists (fun ip => if String.eqb ip (masscan.MasscanResult.IP result)
                      then rt.uuidCount w else place ip).
    intros ip host. rewrite lookup_insert. case_decide as Dk.
    + intros [= <-]. subst ip. rewrite String.eqb_refl. cbn [models.Host.ID drawn
        rt.uuidSource rt.uuidCount]. split; [reflexivity |]. split; [lia |].
      intros ip' I'. destruct (String.eqb_spec ip' (masscan.MasscanResult.IP result))
        as [-> | N]; [reflexivity |].
      rewrite lookup_insert_ne in I' by congruence. destruct I' as [h' L'].
      destruct (P ip' h' L') as (_ & B & _). lia.
    + intros L'. destruct (String.eqb_spec ip (masscan.MasscanResult.IP result))
        as [-> | N]; [congruence |].
      destruct (P ip host L') as (I & B & U). cbn [drawn rt.uuidSource rt.uuidCount].
      split; [exact I |]. split; [lia |].
      intros ip' I'. destruct (String.eqb_spec ip' (masscan.MasscanResult.IP result))
        as [-> | N']; [lia |].
      rewrite lookup_insert_ne in I' by congruence. apply U. exact I'.
Qed.

Lemma lineLoop_drawn (lines : list string) :
  forall st w,
  placed w (masscan.hostMap st) ->
  let out := masscan.lineLoop lines st w in
  exists k,
    out.2 = drawn (k + length (portEntries lines)) w
    /\ size (masscan.hostMap out.1) = (size (masscan.hostMap st) + k)%nat
    /\ placed out.2 (masscan.hostMap out.1).
Proof.
  induction lines as [| line lines IH]; intros st w Pl.
  - exists 0%nat. simpl. rewrite drawn_0. split; [reflexivity |]. split; [lia | exact Pl].
  - cbn [masscan.lineLoop]. unfold rt.bind. rewrite MasscanFacts.portEntries_cons.
    destruct (decoded line) as [r |] eqn:E.
    + destruct (lineStep_drawn st line w r E Pl) as (k1 & D1 & S1 & P1).
      destruct (masscan.lineStep st line w) as [st1 w1]. cbn [fst snd] in *.
      destruct (IH st1 w1 P1) as (k2 & D2 & S2 & P2).
      exists (k1 + k2)%nat. split; [| split; [lia | exact P2]].
      rewrite D2, D1, drawn_add, length_app, length_map. apply (f_equal (fun n => drawn n w)); lia.
    + rewrite MasscanFacts.lineStep_skip by exact E. apply IH. exact Pl.
Qed.

Lemma portsLoop_drawn (hostID : rt.UUID) (lines : list string) :
  forall ports w,
  (masscan.portsLoop hostID lines ports w).2 = drawn (length (portEntries lines)) w.
Proof.
  induction lines as [| line lines IH]; intros ports w.
  - simpl. symmetry. apply drawn_0.
  - cbn [masscan.portsLoop]. unfold rt.bind. rewrite MasscanFacts.portEntries_cons.
    destruct (decoded line) as [r |] eqn:E.
    + rewrite (MoreFacts.portsStep_record _ _ _ _ _ E). unfold rt.bind.
      pose proof (portLoop_drawn hostID (masscan.MasscanResult.Ports r) w) as D.
      destruct (masscan.portLoop hostID _ w) as [new w1]. cbn [snd rt.ret] in *.
      rewrite IH, D, drawn_add, length_app, length_map. apply (f_equal (fun n => drawn n w)); lia.
    + rewrite MoreFacts.portsStep_skip by exact E. apply IH.
Qed.

Lemma placed_start (w : rt.World) : placed w (masscan.hostMap start).
Proof. exists (fun _ => 0%nat). intros ip host L. simpl in L. rewrite lookup_empty in L. discriminate. Qed.

(** X19.  What a parse takes from the world: one identifier and one clock
    reading for each object it builds, and nothing else.  The markup
    parser builds one host for each host node, and nothing when the
    document does not decode; the line-oriented parser builds the hosts
    it returns and one port for each port entry of each record;
    [GetPortsFromJSON] builds one port for each port entry.  None of them
    runs a program. *)
Theorem parsers_draw_per_object
  (n : nmap.Scanner) (m : masscan.Scanner) (data : string) (hostID : rt.UUID)
  (w : rt.World) :
  (nmap.parseNmapXML n data w).2
  = drawn (match nmap.xml_Unmarshal data with
           | inl run => length (nmap.NmapRun.Hosts run)
           | inr _ => 0
           end) w
  /\ (masscan.parseMasscanJSON m data w).2
     = drawn (length (masscan.parseMasscanJSON m data w).1.1
              + length (portEntries (masscan.splitLines data))) w
  /\ (masscan.GetPortsFromJSON m data hostID w).2
     = drawn (length (portEntries (masscan.splitLines data))) w
  /\ forall k, rt.spawned (drawn k w) = rt.spawned w.
Proof.
  split; [| split; [| split; [| reflexivity]]].
  - unfold nmap.parseNmapXML. destruct (nmap.xml_Unmarshal data) as [run | err].
    + unfold rt.bind. pose proof (nmap_hostLoop_drawn (nmap.NmapRun.Hosts run) [] w) as D.
      destruct (nmap.hostLoop _ [] w) as [hosts w1]. exact D.
    + simpl. symmetry. apply drawn_0.
  - rewrite MasscanFacts.parse_unfold. cbv zeta. cbn [fst snd].
    destruct (lineLoop_drawn (masscan.splitLines data) start w (placed_start w))
      as (k & D & S & _).
    destruct (masscan.lineLoop _ start w) as [st w1]. cbn [fst snd] in *.
    rewrite length_fmap, (Permutation_length (rt.rangeOrder_perm w1 _ _)),
      length_map_to_list, S. simpl. rewrite map_size_empty. exact D.
  - unfold masscan.GetPortsFromJSON, rt.bind.
    pose proof (portsLoop_drawn hostID (masscan.splitLines data) [] w) as D.
    destruct (masscan.portsLoop hostID _ [] w) as [ports w1]. exact D.
Qed.


End WithLibraries.


End EffectFacts.
